(** * CCSeva usage-analytics engine: a shallow embedding of
    [src/services/ccusageService.ts] and the properties of its snapshot.

    Conventions of the embedding.
    - Token counts are integers ([Z]). Costs are doubles
      ([Double.number]), added and divided as the engine does.
    - The hourly burn rate and the velocity are embedded twice. [Binary64]
      has them in double precision, every operation rounded as the engine
      rounds it; what their values are is stated there. In the snapshot
      of the service, rates and percentages are exact rationals ([Q]), the
      numbers the doubles of the engine approximate, and an equation on
      them is stated up to [Qeq] where a quotient occurs.
    - A [Date] is its time value, the number of milliseconds since the epoch
      ([Z]); the clock ([Date.now()], [new Date()]) is an explicit argument
      [now], read once per call.
    - The mutable fields of the [CCUsageService] singleton form the record
      [Service]; every method is a function from the state before the call
      to the result and the state after it.
    - The external data loader is an explicit outcome handed to
      [getUsageStats]; whether the call consulted it is part of the result.
      [getUsageStats] is the call as a whole; [startUsageStats] and
      [resumeUsageStats] are its two halves, before and after the [await]
      on the loader. *)

From Stdlib Require Import ZArith QArith Qround Qabs Qminmax Lia Sorted SpecFloat.
From stdpp Require Import gmap strings list pretty.

Local Open Scope Z_scope.

(** ** JavaScript numbers in exact arithmetic *)

Module JS.

(** [x < y] on numbers, as a boolean. *)
Definition Qlt_bool (x y : Q) : bool := negb (Qle_bool y x).

(** [Math.round]: the nearest integer, ties towards positive infinity. *)
Definition round (x : Q) : Z := Qfloor (x + (1 # 2))%Q.

(** [Math.round(x * 10) / 10]. *)
Definition round1 (x : Q) : Q := (inject_Z (round (x * 10)) / 10)%Q.

(** [Math.abs]. *)
Definition abs (x : Q) : Q := Qabs x.

(** [Math.min] and [Math.max] on two numbers. *)
Definition min (x y : Q) : Q := if Qle_bool x y then x else y.
Definition max (x y : Q) : Q := if Qle_bool x y then y else x.

(** The largest magnitude of a time value (ECMAScript TimeClip). *)
Definition maxTime : Z := 8640000000000000.

(** [new Date(x)] for a number [x]: [None] is the Invalid Date. A valid
    time value is truncated towards zero. *)
Definition timeClip (x : Q) : option Z :=
  if Qle_bool (Qabs x) (inject_Z maxTime)
  then Some (Z.quot (Qnum x) (Zpos (Qden x)))
  else None.

End JS.

(** ** Double-precision numbers

    A JavaScript number is an IEEE 754 binary64 value. [spec_float] is the
    Standard Library's specification of these values, with a single NaN,
    and of their correctly rounded operations; it evaluates inside Rocq. *)

Module Double.

Definition number : Type := spec_float.

Definition prec : Z := 53.
Definition emax : Z := 1024.

Definition zero : number := S754_zero false.

(** The number nearest to an integer. *)
Definition ofZ (z : Z) : number := binary_normalize prec emax z 0 false.

Definition add (x y : number) : number := SFadd prec emax x y.
Definition sub (x y : number) : number := SFsub prec emax x y.
Definition mul (x y : number) : number := SFmul prec emax x y.
Definition div (x y : number) : number := SFdiv prec emax x y.

(** [x < y] and [x <= y]; [y > x] is [x < y]. *)
Definition ltb (x y : number) : bool := SFltb x y.
Definition leb (x y : number) : bool := SFleb x y.

(** [Math.abs]. *)
Definition abs (x : number) : number := SFabs x.

(** [Math.round]: the nearest integer, ties towards positive infinity; a
    result of zero keeps the sign of the argument. *)
Definition round (x : number) : number :=
  match x with
  | S754_finite s m e =>
      if 0 <=? e then x
      else
        let scale := 2 ^ (- e) in
        let signed := if s then Z.neg m else Z.pos m in
        let nearest := (2 * signed + scale) / (2 * scale) in
        if nearest =? 0 then S754_zero s else ofZ nearest
  | _ => x
  end.

End Double.

Declare Scope double_scope.
Delimit Scope double_scope with D.
Infix "+" := Double.add : double_scope.
Infix "-" := Double.sub : double_scope.
Infix "*" := Double.mul : double_scope.
Infix "/" := Double.div : double_scope.
Infix "<?" := Double.ltb : double_scope.
Infix "<=?" := Double.leb : double_scope.
Notation "0" := Double.zero : double_scope.
Bind Scope double_scope with Double.number.

(** ** Data model *)

Inductive Plan : Type := Pro | Max5 | Max20 | Custom.

#[global] Instance Plan_eq_dec : EqDecision Plan.
Proof. solve_decision. Defined.

(** The [plan] field of a user configuration: a tier or the ['auto']
    selection. *)
Inductive PlanChoice : Type := Fixed (p : Plan) | Auto.

Record UserConfiguration : Type := {
  cfg_timezone : option string;
  cfg_resetHour : option Z;
  cfg_plan : option PlanChoice;
  cfg_customTokenLimit : option Z
}.

Record TokenCounts : Type := {
  inputTokens : Z;
  outputTokens : Z;
  cacheCreationInputTokens : Z;
  cacheReadInputTokens : Z
}.

Record LoadedUsageEntry : Type := {
  entry_timestamp : Z;
  entry_usage : TokenCounts;
  entry_costUSD : option Double.number;
  entry_model : string;
  entry_version : option string
}.

Record SessionBlock : Type := {
  id : string;
  startTime : Z;
  endTime : Z;
  actualEndTime : option Z;
  isActive : bool;
  isGap : option bool;
  entries : list LoadedUsageEntry;
  tokenCounts : TokenCounts;
  costUSD : Double.number;
  models : list string
}.

(** Truthiness of the optional [isGap] flag: [undefined] counts as false. *)
Definition gap (b : SessionBlock) : bool :=
  match isGap b with Some true => true | _ => false end.

Record ModelBreakdown : Type := {
  mb_modelName : string;
  mb_inputTokens : Z;
  mb_outputTokens : Z;
  mb_cacheCreationTokens : Z;
  mb_cacheReadTokens : Z;
  mb_cost : Double.number
}.

Record DailyDataEntry : Type := {
  dd_date : string;
  dd_inputTokens : Z;
  dd_outputTokens : Z;
  dd_cacheCreationTokens : Z;
  dd_cacheReadTokens : Z;
  dd_totalCost : Double.number;
  dd_modelBreakdowns : list ModelBreakdown
}.

Record ModelUsage : Type := { mu_tokens : Z; mu_cost : Double.number }.

Record DailyUsage : Type := {
  du_date : string;
  du_totalTokens : Z;
  du_totalCost : Double.number;
  du_models : gmap string ModelUsage
}.

Inductive Trend : Type := increasing | decreasing | stable.

#[global] Instance Trend_eq_dec : EqDecision Trend.
Proof. solve_decision. Defined.

Record VelocityInfo : Type := {
  current : Q;
  average24h : Q;
  average7d : Q;
  trend : Trend;
  trendPercent : Q;
  peakHour : Z;
  isAccelerating : bool
}.

(** [depletionTime] is an ISO-8601 string in the source; the embedding keeps
    the instant that string denotes. *)
Record PredictionInfo : Type := {
  depletionTime : option Z;
  confidence : Z;
  daysRemaining : Q;
  recommendedDailyLimit : Q;
  onTrackForReset : bool
}.

Record ActualResetInfo : Type := {
  nextResetTime : option Z;
  timeUntilReset : Z;
  formattedTimeRemaining : string
}.

(** ** Token totals and plan limits *)

Definition getTotalTokensFromBlock (block : SessionBlock) : Z :=
  let counts := tokenCounts block in
  inputTokens counts + outputTokens counts
  + cacheCreationInputTokens counts + cacheReadInputTokens counts.

(** The loop of [getMaxTokensFromBlocks]: one iteration updates the running
    maximum. *)
Definition maxTokensStep (maxTokens : Z) (block : SessionBlock) : Z :=
  if negb (gap block) && negb (isActive block) then
    let totalTokens := getTotalTokensFromBlock block in
    if maxTokens <? totalTokens then totalTokens else maxTokens
  else maxTokens.

Definition getMaxTokensFromBlocks (blocks : list SessionBlock) : Z :=
  let maxTokens := fold_left maxTokensStep blocks 0 in
  if 0 <? maxTokens then maxTokens else 7000.

Definition getTokenLimit (plan : Plan) : Z :=
  match plan with
  | Pro => 7000
  | Max5 => 35000
  | Max20 => 140000
  | Custom => 500000
  end.

Definition detectPlan (totalTokens : Z) : Plan :=
  if totalTokens <=? 7000 then Pro
  else if totalTokens <=? 35000 then Max5
  else if totalTokens <=? 140000 then Max20
  else Custom.

Inductive UsageStatus : Type := safe | warning | critical.

Definition getUsageStatus (percentageUsed : Q) : UsageStatus :=
  if Qle_bool 90 percentageUsed then critical
  else if Qle_bool 70 percentageUsed then warning
  else safe.

(** ** Hourly burn rate

    The loop in exact arithmetic. [Binary64.calculateHourlyBurnRate],
    further down, is the same loop with every operation rounded to the
    nearest double, as the engine evaluates it. *)

(** Milliseconds to minutes: [ms / (1000 * 60)]. *)
Definition minutes (ms : Z) : Q := (inject_Z ms / inject_Z (1000 * 60))%Q.

(** "Determine session end time": now for the active block, the actual end
    when the block has one, the nominal end otherwise. *)
Definition sessionEndOf (now : Z) (block : SessionBlock) : Z :=
  if isActive block then now
  else match actualEndTime block with
       | Some t => t
       | None => endTime block
       end.

(** One iteration of the loop of [calculateHourlyBurnRate]; every [continue]
    of the source leaves the accumulator [totalTokens] as it is. *)
Definition burnStep (now : Z) (totalTokens : Q) (block : SessionBlock) : Q :=
  let oneHourAgo := now - 60 * 60 * 1000 in
  if gap block then totalTokens else
  let startTime := startTime block in
  let sessionEnd := sessionEndOf now block in
  if sessionEnd <? oneHourAgo then totalTokens else
  let sessionStartInHour :=
    if oneHourAgo <? startTime then startTime else oneHourAgo in
  let sessionEndInHour := if sessionEnd <? now then sessionEnd else now in
  if sessionEndInHour <=? sessionStartInHour then totalTokens else
  let totalSessionDuration := minutes (sessionEnd - startTime) in
  let hourDuration := minutes (sessionEndInHour - sessionStartInHour) in
  if JS.Qlt_bool 0 totalSessionDuration then
    let blockTotalTokens := getTotalTokensFromBlock block in
    let tokensInHour :=
      (inject_Z blockTotalTokens * (hourDuration / totalSessionDuration))%Q in
    (totalTokens + tokensInHour)%Q
  else totalTokens.

Definition calculateHourlyBurnRate (now : Z) (blocks : list SessionBlock) : Q :=
  match blocks with
  | [] => 0%Q
  | _ => (fold_left (burnStep now) blocks 0 / 60)%Q
  end.

(** ** Velocity

    The token totals of the two windows are integers. The averages and
    the trend are in exact arithmetic here and in double precision in
    [Binary64.calculateVelocityFromBlocks]. *)

(** [let t = 0; for (const block of bs) t += getTotalTokensFromBlock(block)]. *)
Definition sumTokens (bs : list SessionBlock) : Z :=
  fold_left (fun t block => t + getTotalTokensFromBlock block) bs 0.

(** [blocks.filter((b) => !b.isGap && b.startTime >= since)]. *)
Definition blocksSince (since : Z) (blocks : list SessionBlock) : list SessionBlock :=
  List.filter (fun b => negb (gap b) && (since <=? startTime b)) blocks.

Definition tokens24h (now : Z) (blocks : list SessionBlock) : Z :=
  sumTokens (blocksSince (now - 24 * 60 * 60 * 1000) blocks).

Definition tokens7d (now : Z) (blocks : list SessionBlock) : Z :=
  sumTokens (blocksSince (now - 7 * 24 * 60 * 60 * 1000) blocks).

(** The local constant [trendPercent] of [calculateVelocityFromBlocks],
    before it is rounded for the report. *)
Definition rawTrendPercent (currentBurnRate average24h : Q) : Q :=
  if JS.Qlt_bool 0 average24h
  then (((currentBurnRate * 60 - average24h) / average24h) * 100)%Q
  else 0%Q.

Definition classifyTrend (trendPercent : Q) : Trend :=
  if JS.Qlt_bool 15 (JS.abs trendPercent)
  then (if JS.Qlt_bool 0 trendPercent then increasing else decreasing)
  else stable.

Definition calculateVelocityFromBlocks
    (now : Z) (blocks : list SessionBlock) (currentBurnRate : Q) : VelocityInfo :=
  let average24h := (inject_Z (tokens24h now blocks) / 24)%Q in
  let average7d := (inject_Z (tokens7d now blocks) / (7 * 24))%Q in
  let trendPercent := rawTrendPercent currentBurnRate average24h in
  let trend := classifyTrend trendPercent in
  {| current := (currentBurnRate * 60)%Q;
     average24h := average24h;
     average7d := average7d;
     trend := trend;
     trendPercent := JS.round1 trendPercent;
     peakHour := 14;
     isAccelerating :=
       bool_decide (trend = increasing) && JS.Qlt_bool 20 trendPercent |}.

(** ** Prediction *)

(** What a call that may throw returns. The only exception the engine can
    raise by itself is the [RangeError] of [toISOString] on an Invalid
    Date. *)
Inductive Completion (A : Type) : Type :=
  | Normal (a : A)
  | Throw.
Arguments Normal {A} a.
Arguments Throw {A}.

(** "Calculate confidence based on data availability and consistency". *)
Definition calculateConfidence (velocity : VelocityInfo) : Q :=
  let confidence := 50%Q in
  if JS.Qlt_bool 0 (current velocity) && JS.Qlt_bool 0 (average24h velocity) then
    let confidence := JS.min 95 (confidence + 30) in
    if JS.Qlt_bool 50 (JS.abs (trendPercent velocity))
    then (confidence - 20)%Q
    else confidence
  else confidence.

(** The confidence as the specification words it: start at 50, add 30 when
    both rates are positive, subtract 20 when the magnitude of the trend
    percent exceeds 50, clamp to [0, 95]. *)
Definition confidence_spec (velocity : VelocityInfo) : Q :=
  let c0 := 50%Q in
  let c1 :=
    if JS.Qlt_bool 0 (current velocity) && JS.Qlt_bool 0 (average24h velocity)
    then (c0 + 30)%Q else c0 in
  let c2 :=
    if JS.Qlt_bool 50 (JS.abs (trendPercent velocity))
    then (c1 - 20)%Q else c1 in
  JS.max 0 (JS.min 95 c2).

(** ** Calendar dates of time values *)

Module JSDate.

(** Day number of a time value: [floor(t / msPerDay)]. *)
Definition day (t : Z) : Z := t / 86400000.

(** Year, month (1 to 12) and day of the month (1 to 31) of a day number
    in the proleptic Gregorian calendar, by counting from 0000-03-01 in
    eras of 400 years. *)
Definition civil (days : Z) : Z * Z * Z :=
  let z := days + 719468 in
  let era := z / 146097 in
  let doe := z - era * 146097 in
  let yoe := (doe - doe / 1460 + doe / 36524 - doe / 146096) / 365 in
  let doy := doe - (365 * yoe + yoe / 4 - yoe / 100) in
  let mp := (5 * doy + 2) / 153 in
  let d := doy - (153 * mp + 2) / 5 + 1 in
  let m := if mp <? 10 then mp + 3 else mp - 9 in
  let y := yoe + era * 400 + (if m <=? 2 then 1 else 0) in
  (y, m, d).

(** Decimal digits of a non-negative integer. *)
Definition digits (n : Z) : string := pretty (Z.to_N n).

(** [s.padStart(n, '0')]. *)
Fixpoint zeros (n : nat) : string :=
  match n with
  | O => ""
  | S k => "0" +:+ zeros k
  end.

Definition padStart (n : nat) (s : string) : string :=
  zeros (n - String.length s) +:+ s.

(** The year of an ISO string: four digits from 0 to 9999, a sign and six
    digits otherwise. *)
Definition isoYear (y : Z) : string :=
  if (0 <=? y) && (y <=? 9999) then padStart 4 (digits y)
  else (if y <? 0 then "-" else "+") +:+ padStart 6 (digits (Z.abs y)).

(** [date.toISOString().split('T')[0]] for a valid date. *)
Definition isoDate (t : Z) : string :=
  let '(y, m, d) := civil (day t) in
  isoYear y +:+ "-" +:+ padStart 2 (digits m) +:+ "-" +:+ padStart 2 (digits d).

(** [String(n)] for an integer. *)
Definition numberToString (n : Z) : string :=
  if n <? 0 then "-" +:+ digits (Z.abs n) else digits n.

(** [toISOStringLocal(date).split('T')[0]], where [offset] is
    [date.getTimezoneOffset()] in minutes: the year is not padded there. *)
Definition localDate (offset : Z) (t : Z) : string :=
  let '(y, m, d) := civil (day (t - offset * 60000)) in
  numberToString y +:+ "-" +:+ padStart 2 (digits m) +:+ "-" +:+ padStart 2 (digits d).

End JSDate.

(** ** Daily usage *)

Definition isSynthetic (name : string) : bool := String.eqb name "<synthetic>".

(** The [reduce] over the model breakdowns of a day: a later breakdown of
    the same model overwrites an earlier one. *)
Definition breakdownStep (acc : gmap string ModelUsage) (mb : ModelBreakdown)
    : gmap string ModelUsage :=
  <[ mb_modelName mb :=
       {| mu_tokens := mb_inputTokens mb + mb_outputTokens mb
                       + mb_cacheCreationTokens mb + mb_cacheReadTokens mb;
          mu_cost := mb_cost mb |} ]> acc.

(** [dailyData.map((day) => ...)], "filtering out synthetic models". *)
Definition processDay (day : DailyDataEntry) : DailyUsage :=
  {| du_date := dd_date day;
     du_totalTokens := dd_inputTokens day + dd_outputTokens day
                       + dd_cacheCreationTokens day + dd_cacheReadTokens day;
     du_totalCost := dd_totalCost day;
     du_models :=
       fold_left breakdownStep
         (List.filter (fun mb => negb (isSynthetic (mb_modelName mb)))
                      (dd_modelBreakdowns day))
         ∅ |}.

Definition processDailyData (dailyData : list DailyDataEntry) : list DailyUsage :=
  map processDay dailyData.

(** [getEmptyDailyUsage]. *)
Definition getEmptyDailyUsage (now : Z) : DailyUsage :=
  {| du_date := JSDate.isoDate now;
     du_totalTokens := 0;
     du_totalCost := 0;
     du_models := ∅ |}.

(** The [Map] from date to daily usage of [convertBlocksToDailyUsage], in
    insertion order, the date of an entry being its key. *)
Definition DailyMap : Type := list DailyUsage.

Definition dailyHas (date : string) (dailyMap : DailyMap) : bool :=
  existsb (fun d => String.eqb (du_date d) date) dailyMap.

(** In-place update of the entry stored under [date]. *)
Definition dailyUpdate (date : string) (f : DailyUsage -> DailyUsage)
    (dailyMap : DailyMap) : DailyMap :=
  map (fun d => if String.eqb (du_date d) date then f d else d) dailyMap.

(** One iteration of the loop over the real models of a block. *)
Definition modelStep (blockTokens : Z) (blockCost : Double.number) (count : nat)
    (ms : gmap string ModelUsage) (model : string) : gmap string ModelUsage :=
  let cur := default {| mu_tokens := 0; mu_cost := 0 |} (ms !! model) in
  let modelTokens := blockTokens / Z.of_nat count in
  let modelCost := (blockCost / Double.ofZ (Z.of_nat count))%D in
  <[ model := {| mu_tokens := mu_tokens cur + modelTokens;
                 mu_cost := (mu_cost cur + modelCost)%D |} ]> ms.

Definition addBlock (block : SessionBlock) (daily : DailyUsage) : DailyUsage :=
  let blockTokens := getTotalTokensFromBlock block in
  let realModels := List.filter (fun m => negb (isSynthetic m)) (models block) in
  {| du_date := du_date daily;
     du_totalTokens := du_totalTokens daily + blockTokens;
     du_totalCost := (du_totalCost daily + costUSD block)%D;
     du_models :=
       fold_left (modelStep blockTokens (costUSD block) (length realModels))
                 realModels (du_models daily) |}.

(** One iteration of the loop over the blocks. *)
Definition dailyStep (dailyMap : DailyMap) (block : SessionBlock) : DailyMap :=
  if gap block then dailyMap else
  let date := JSDate.isoDate (startTime block) in
  let dailyMap :=
    if dailyHas date dailyMap then dailyMap
    else dailyMap ++ [ {| du_date := date; du_totalTokens := 0;
                          du_totalCost := 0; du_models := ∅ |} ] in
  dailyUpdate date (addBlock block) dailyMap.

(** [sort((a, b) => a.date.localeCompare(b.date))]: a stable sort on the
    date keys, which compare here by their characters. *)
Fixpoint insertByDate (d : DailyUsage) (l : list DailyUsage) : list DailyUsage :=
  match l with
  | [] => [d]
  | e :: l' =>
      if String.leb (du_date e) (du_date d) then e :: insertByDate d l'
      else d :: l
  end.

Definition sortByDate (l : list DailyUsage) : list DailyUsage :=
  fold_left (fun sorted d => insertByDate d sorted) l [].

Definition convertBlocksToDailyUsage (blocks : list SessionBlock) : list DailyUsage :=
  sortByDate (fold_left dailyStep blocks []).

(** [config.plan === 'auto' ? 'Custom' : config.plan]. *)
Definition planOfChoice (choice : PlanChoice) : Plan :=
  match choice with
  | Auto => Custom
  | Fixed p => p
  end.

(** ** Collaborators of the engine

    [ResetTimeService] and [SessionTracker] are singletons of the
    application whose code the engine only calls; the date parser, the time
    zone and the local calendar belong to the JavaScript runtime. The engine
    is stated against their interfaces. Their queries are total: they
    return a value and raise nothing. *)

(** [CCUsageBlock], the block as it is handed to the session tracker; the
    ISO strings of its times are kept as the instants they denote. *)
Record CCUsageBlock : Type := {
  cc_id : string;
  cc_startTime : Z;
  cc_endTime : Z;
  cc_actualEndTime : option Z;
  cc_isActive : bool;
  cc_isGap : option bool;
  cc_models : list string;
  cc_costUSD : Double.number;
  cc_tokenCounts : TokenCounts
}.

Class JSRuntime : Type := {
  (** [new Date(s)] for a string: [None] is the Invalid Date. *)
  dateParse : string -> option Z;
  (** [date.getTimezoneOffset()], in minutes, at a time value. *)
  getTimezoneOffset : Z -> Z;
  (** [d = new Date(); d.setDate(d.getDate() - n)]: the instant [n] local
      calendar days before [now]. *)
  daysBefore : Z -> Z -> Z
}.

Class ResetTimeServiceI : Type := {
  ResetTimeService : Type;
  ResetTimeInfo : Type;
  reset_updateConfiguration : UserConfiguration -> ResetTimeService -> ResetTimeService;
  calculateResetInfo : Z -> ResetTimeService -> ResetTimeInfo;
  calculateRecommendedDailyLimit : Z -> ResetTimeInfo -> ResetTimeService -> Q;
  isOnTrackForReset : Z -> Z -> ResetTimeInfo -> ResetTimeService -> bool
}.

Class SessionTrackerI : Type := {
  SessionTracker : Type;
  SessionTracking : Type;
  updateFromBlocks : Z -> list CCUsageBlock -> SessionTracker -> SessionTracking * SessionTracker
}.

(** What the two loader calls, awaited jointly, hand back: a rejection of
    either, or the session blocks and the daily aggregates, each of which
    may be absent. *)
Inductive LoaderOutcome : Type :=
  | Rejected
  | Loaded (blocks : option (list SessionBlock))
           (dailyData : option (list DailyDataEntry)).

Definition convertSessionBlocksToCC (blocks : list SessionBlock) : list CCUsageBlock :=
  map (fun block =>
         {| cc_id := id block;
            cc_startTime := startTime block;
            cc_endTime := endTime block;
            cc_actualEndTime := actualEndTime block;
            cc_isActive := isActive block;
            cc_isGap := isGap block;
            cc_models := models block;
            cc_costUSD := costUSD block;
            cc_tokenCounts := tokenCounts block |})
      blocks.

Section Engine.

Context `{RT : JSRuntime} `{RS : ResetTimeServiceI} `{ST : SessionTrackerI}.

Record UsageStats : Type := {
  today : DailyUsage;
  thisWeek : list DailyUsage;
  thisMonth : list DailyUsage;
  burnRate : Q;
  velocity : VelocityInfo;
  prediction : PredictionInfo;
  resetInfo : ResetTimeInfo;
  actualResetInfo : ActualResetInfo;
  predictedDepleted : option Z;
  stats_currentPlan : Plan;
  tokenLimit : Z;
  tokensUsed : Z;
  tokensRemaining : Z;
  percentageUsed : Q;
  sessionTracking : SessionTracking
}.

(** The mutable fields of the service. *)
Record Service : Type := {
  cachedStats : option UsageStats;
  lastUpdate : Z;
  resetTimeService : ResetTimeService;
  sessionTracker : SessionTracker;
  historicalBlocks : list SessionBlock;
  currentActiveBlock : option SessionBlock;
  currentPlan : Plan;
  detectedTokenLimit : Z
}.

Definition CACHE_DURATION : Z := 3000.

(** The service as its constructor leaves it. *)
Definition newService (rs : ResetTimeService) (st : SessionTracker) : Service :=
  {| cachedStats := None;
     lastUpdate := 0;
     resetTimeService := rs;
     sessionTracker := st;
     historicalBlocks := [];
     currentActiveBlock := None;
     currentPlan := Pro;
     detectedTokenLimit := 7000 |}.

(** *** Field assignments *)

Definition set_cachedStats (v : option UsageStats) (s : Service) : Service :=
  {| cachedStats := v; lastUpdate := lastUpdate s;
     resetTimeService := resetTimeService s; sessionTracker := sessionTracker s;
     historicalBlocks := historicalBlocks s;
     currentActiveBlock := currentActiveBlock s;
     currentPlan := currentPlan s; detectedTokenLimit := detectedTokenLimit s |}.

Definition set_lastUpdate (v : Z) (s : Service) : Service :=
  {| cachedStats := cachedStats s; lastUpdate := v;
     resetTimeService := resetTimeService s; sessionTracker := sessionTracker s;
     historicalBlocks := historicalBlocks s;
     currentActiveBlock := currentActiveBlock s;
     currentPlan := currentPlan s; detectedTokenLimit := detectedTokenLimit s |}.

Definition set_resetTimeService (v : ResetTimeService) (s : Service) : Service :=
  {| cachedStats := cachedStats s; lastUpdate := lastUpdate s;
     resetTimeService := v; sessionTracker := sessionTracker s;
     historicalBlocks := historicalBlocks s;
     currentActiveBlock := currentActiveBlock s;
     currentPlan := currentPlan s; detectedTokenLimit := detectedTokenLimit s |}.

Definition set_sessionTracker (v : SessionTracker) (s : Service) : Service :=
  {| cachedStats := cachedStats s; lastUpdate := lastUpdate s;
     resetTimeService := resetTimeService s; sessionTracker := v;
     historicalBlocks := historicalBlocks s;
     currentActiveBlock := currentActiveBlock s;
     currentPlan := currentPlan s; detectedTokenLimit := detectedTokenLimit s |}.

Definition set_historicalBlocks (v : list SessionBlock) (s : Service) : Service :=
  {| cachedStats := cachedStats s; lastUpdate := lastUpdate s;
     resetTimeService := resetTimeService s; sessionTracker := sessionTracker s;
     historicalBlocks := v;
     currentActiveBlock := currentActiveBlock s;
     currentPlan := currentPlan s; detectedTokenLimit := detectedTokenLimit s |}.

Definition set_currentActiveBlock (v : option SessionBlock) (s : Service) : Service :=
  {| cachedStats := cachedStats s; lastUpdate := lastUpdate s;
     resetTimeService := resetTimeService s; sessionTracker := sessionTracker s;
     historicalBlocks := historicalBlocks s;
     currentActiveBlock := v;
     currentPlan := currentPlan s; detectedTokenLimit := detectedTokenLimit s |}.

Definition set_currentPlan (v : Plan) (s : Service) : Service :=
  {| cachedStats := cachedStats s; lastUpdate := lastUpdate s;
     resetTimeService := resetTimeService s; sessionTracker := sessionTracker s;
     historicalBlocks := historicalBlocks s;
     currentActiveBlock := currentActiveBlock s;
     currentPlan := v; detectedTokenLimit := detectedTokenLimit s |}.

Definition set_detectedTokenLimit (v : Z) (s : Service) : Service :=
  {| cachedStats := cachedStats s; lastUpdate := lastUpdate s;
     resetTimeService := resetTimeService s; sessionTracker := sessionTracker s;
     historicalBlocks := historicalBlocks s;
     currentActiveBlock := currentActiveBlock s;
     currentPlan := currentPlan s; detectedTokenLimit := v |}.

(** *** updateConfiguration *)

Definition updateConfiguration (config : UserConfiguration) (s : Service) : Service :=
  let s := set_resetTimeService
             (reset_updateConfiguration config (resetTimeService s)) s in
  let s :=
    match cfg_plan config with
    | Some choice =>
        set_currentPlan (planOfChoice choice) s
    | None => s
    end in
  set_cachedStats None s.

(** *** The reset of the active session *)

Definition getActualNextResetTime (s : Service) : option Z :=
  match currentActiveBlock s with
  | None => None
  | Some block => Some (endTime block)
  end.

Definition getTimeUntilActualReset (now : Z) (s : Service) : ActualResetInfo :=
  match getActualNextResetTime s with
  | None =>
      {| nextResetTime := None;
         timeUntilReset := 0;
         formattedTimeRemaining := "No active session" |}
  | Some actualResetTime =>
      let timeUntilReset := Z.max 0 (actualResetTime - now) in
      let hours := timeUntilReset / (1000 * 60 * 60) in
      let minutes := (timeUntilReset mod (1000 * 60 * 60)) / (1000 * 60) in
      let formattedTimeRemaining :=
        if timeUntilReset <=? 0 then "Reset available"
        else if 0 <? hours then
          JSDate.numberToString hours +:+ " hours "
          +:+ JSDate.numberToString minutes +:+ " minutes left"
        else if 0 <? minutes then
          JSDate.numberToString minutes +:+ " minutes left"
        else "Less than 1 minute left" in
      {| nextResetTime := Some actualResetTime;
         timeUntilReset := timeUntilReset;
         formattedTimeRemaining := formattedTimeRemaining |}
  end.

(** *** The default snapshot *)

(** [processedDailyData.filter((d) => new Date(d.date) >= since)]; a
    comparison with the Invalid Date is false. *)
Definition datedSince (since : Z) (l : list DailyUsage) : list DailyUsage :=
  List.filter
    (fun d => match dateParse (du_date d) with
              | Some t => since <=? t
              | None => false
              end)
    l.

Definition findDay (date : string) (l : list DailyUsage) : option DailyUsage :=
  List.find (fun d => String.eqb (du_date d) date) l.

Definition defaultVelocity : VelocityInfo :=
  {| current := 0; average24h := 0; average7d := 0; trend := stable;
     trendPercent := 0; peakHour := 12; isAccelerating := false |}.

Definition defaultPrediction : PredictionInfo :=
  {| depletionTime := None; confidence := 0; daysRemaining := 0;
     recommendedDailyLimit := 0; onTrackForReset := true |}.

Definition getDefaultStats (now : Z) (dailyData : option (list DailyDataEntry))
    (s : Service) : UsageStats * Service :=
  let today := JSDate.isoDate now in
  let resetInfo := calculateResetInfo now (resetTimeService s) in
  let processedDailyData :=
    match dailyData with
    | Some (day :: days) => processDailyData (day :: days)
    | _ => []
    end in
  let todayData :=
    default (getEmptyDailyUsage now) (findDay today processedDailyData) in
  let actualResetInfo := getTimeUntilActualReset now s in
  let '(tracking, tracker) := updateFromBlocks now [] (sessionTracker s) in
  ({| today := todayData;
      thisWeek := datedSince (daysBefore now 7) processedDailyData;
      thisMonth := datedSince (daysBefore now 30) processedDailyData;
      burnRate := 0;
      velocity := defaultVelocity;
      prediction := defaultPrediction;
      resetInfo := resetInfo;
      actualResetInfo := actualResetInfo;
      predictedDepleted := None;
      stats_currentPlan := currentPlan s;
      tokenLimit := getTokenLimit (currentPlan s);
      tokensUsed := 0;
      tokensRemaining := getTokenLimit (currentPlan s);
      percentageUsed := 0;
      sessionTracking := tracking |},
   set_sessionTracker tracker s).

(** *** Prediction *)

(** Raises when the projected depletion instant is no valid date. *)
Definition calculatePredictionInfo (now : Z) (tokensUsed tokenLimit : Z)
    (velocity : VelocityInfo) (resetInfo : ResetTimeInfo) (s : Service)
    : Completion PredictionInfo :=
  let tokensRemaining := Z.max 0 (tokenLimit - tokensUsed) in
  let confidence := calculateConfidence velocity in
  let depletion : Completion (option Z * Q) :=
    if JS.Qlt_bool 0 (current velocity) then
      let hoursRemaining := (inject_Z tokensRemaining / current velocity)%Q in
      let daysRemaining := (hoursRemaining / 24)%Q in
      match JS.timeClip (inject_Z now + hoursRemaining * 60 * 60 * 1000)%Q with
      | Some t => Normal (Some t, daysRemaining)
      | None => Throw
      end
    else Normal (None, 0%Q) in
  match depletion with
  | Throw => Throw
  | Normal (depletionTime, daysRemaining) =>
      let recommendedDailyLimit :=
        calculateRecommendedDailyLimit tokensRemaining resetInfo
                                       (resetTimeService s) in
      let onTrackForReset :=
        isOnTrackForReset tokensUsed tokenLimit resetInfo (resetTimeService s) in
      Normal {| depletionTime := depletionTime;
                confidence := JS.round confidence;
                daysRemaining := JS.round1 daysRemaining;
                recommendedDailyLimit := recommendedDailyLimit;
                onTrackForReset := onTrackForReset |}
  end.

(** *** Recomputation from the blocks *)

(** "Auto-detect token limit from highest previous session if needed":
    the assignments to [detectedTokenLimit] and [currentPlan]. *)
Definition resolveLimit (blocks : list SessionBlock) (tokensUsed : Z)
    (s : Service) : Service :=
  if bool_decide (currentPlan s = Custom)
     || (bool_decide (currentPlan s = Pro) && (7000 <? tokensUsed))
  then
    let s := set_detectedTokenLimit (getMaxTokensFromBlocks blocks) s in
    if (7000 <? tokensUsed) && bool_decide (currentPlan s = Pro)
    then set_currentPlan Custom s
    else s
  else set_detectedTokenLimit (getTokenLimit (currentPlan s)) s.

Definition findActiveBlock (blocks : list SessionBlock) : option SessionBlock :=
  List.find (fun block => isActive block && negb (gap block)) blocks.

Definition parseBlocksData (now : Z) (blocks : list SessionBlock)
    (dailyData : option (list DailyDataEntry)) (s : Service)
    : Completion UsageStats * Service :=
  match findActiveBlock blocks with
  | None =>
      let s := set_currentActiveBlock None s in
      let '(stats, s) := getDefaultStats now dailyData s in
      (Normal stats, s)
  | Some activeBlock =>
      let s := set_currentActiveBlock (Some activeBlock) s in
      let tokensUsed := getTotalTokensFromBlock activeBlock in
      let s := resolveLimit blocks tokensUsed s in
      let tokenLimit := detectedTokenLimit s in
      let burnRate := calculateHourlyBurnRate now blocks in
      let velocity := calculateVelocityFromBlocks now blocks burnRate in
      let resetInfo := calculateResetInfo now (resetTimeService s) in
      match calculatePredictionInfo now tokensUsed tokenLimit velocity resetInfo s with
      | Throw => (Throw, s)
      | Normal prediction =>
          let '(tracking, tracker) :=
            updateFromBlocks now (convertSessionBlocksToCC blocks)
                             (sessionTracker s) in
          let s := set_sessionTracker tracker s in
          let processedDailyData :=
            match dailyData with
            | Some days => processDailyData days
            | None => convertBlocksToDailyUsage blocks
            end in
          let todayStr := JSDate.localDate (getTimezoneOffset now) now in
          let todayData :=
            default (getEmptyDailyUsage now) (findDay todayStr processedDailyData) in
          let actualResetInfo := getTimeUntilActualReset now s in
          (Normal
             {| today := todayData;
                thisWeek := datedSince (daysBefore now 7) processedDailyData;
                thisMonth := datedSince (daysBefore now 30) processedDailyData;
                burnRate := burnRate;
                velocity := velocity;
                prediction := prediction;
                resetInfo := resetInfo;
                actualResetInfo := actualResetInfo;
                predictedDepleted := depletionTime prediction;
                stats_currentPlan := currentPlan s;
                tokenLimit := tokenLimit;
                tokensUsed := tokensUsed;
                tokensRemaining := Z.max 0 (tokenLimit - tokensUsed);
                percentageUsed :=
                  JS.min 100 (inject_Z tokensUsed / inject_Z tokenLimit * 100)%Q;
                sessionTracking := tracking |},
           s)
      end
  end.

(** *** getUsageStats *)

(** What a call of [getUsageStats] yields: the snapshot the promise
    resolves to, the service after the call, and whether the loader was
    invoked. *)
Record Reply : Type := {
  snapshot : UsageStats;
  after : Service;
  loaderInvoked : bool
}.

(** The [try] block and its [catch], entered on a cache miss. *)
Definition recompute (now : Z) (load : LoaderOutcome) (s : Service) : Reply :=
  match load with
  | Rejected =>
      let '(stats, s) := getDefaultStats now None s in
      {| snapshot := stats; after := s; loaderInvoked := true |}
  | Loaded None dailyData | Loaded (Some []) dailyData =>
      let '(stats, s) := getDefaultStats now dailyData s in
      {| snapshot := stats; after := s; loaderInvoked := true |}
  | Loaded (Some blocks) dailyData =>
      match parseBlocksData now blocks dailyData s with
      | (Normal stats, s) =>
          let s := set_cachedStats (Some stats) s in
          let s := set_lastUpdate now s in
          let s := set_historicalBlocks blocks s in
          {| snapshot := stats; after := s; loaderInvoked := true |}
      | (Throw, s) =>
          let '(stats, s) := getDefaultStats now None s in
          {| snapshot := stats; after := s; loaderInvoked := true |}
      end
  end.

Definition getUsageStats (now : Z) (load : LoaderOutcome) (s : Service) : Reply :=
  match cachedStats s with
  | Some cached =>
      if now - lastUpdate s <? CACHE_DURATION
      then {| snapshot := cached; after := s; loaderInvoked := false |}
      else recompute now load s
  | None => recompute now load s
  end.

(** *** The menu bar projection *)

Record MenuBarData : Type := {
  menu_tokensUsed : Z;
  menu_tokenLimit : Z;
  menu_percentageUsed : Q;
  menu_status : UsageStatus;
  menu_cost : Double.number
}.

Definition getMenuBarData (now : Z) (load : LoaderOutcome) (s : Service)
    : MenuBarData * Service :=
  let r := getUsageStats now load s in
  let stats := snapshot r in
  ({| menu_tokensUsed := tokensUsed stats;
      menu_tokenLimit := tokenLimit stats;
      menu_percentageUsed := percentageUsed stats;
      menu_status := getUsageStatus (percentageUsed stats);
      menu_cost := du_totalCost (today stats) |},
   after r).

End Engine.

(** ** The specification's wording, and what the properties speak of *)

(** Keeping the blocks whose gap flag is not set. *)
Definition notGap (b : SessionBlock) : bool := negb (gap b).

Definition withoutGaps (blocks : list SessionBlock) : list SessionBlock :=
  List.filter notGap blocks.

Definition isHistorical (b : SessionBlock) : bool :=
  negb (gap b) && negb (isActive b).

(** Total tokens of the non-gap, non-active blocks. *)
Definition historicalTotals (blocks : list SessionBlock) : list Z :=
  map getTotalTokensFromBlock (List.filter isHistorical blocks).

(** "The maximum total-token count over all non-gap, non-active blocks,
    falling back to 7,000 when no such block exists". *)
Definition historicalLimit_spec (blocks : list SessionBlock) : Z :=
  match historicalTotals blocks with
  | [] => 7000
  | t :: ts => fold_right Z.max t ts
  end.

Definition autoDetects (plan : Plan) (tokensUsed : Z) : Prop :=
  plan = Custom \/ (plan = Pro /\ 7000 < tokensUsed).

(** The confidence with the volatility penalty inside the data-available
    case: start at 50; when both rates are positive add 30 and, if the
    magnitude of the trend percent exceeds 50, subtract 20; clamp to
    [0, 95]. *)
Definition confidence_nested (velocity : VelocityInfo) : Q :=
  let available :=
    JS.Qlt_bool 0 (current velocity) && JS.Qlt_bool 0 (average24h velocity) in
  let volatile := JS.Qlt_bool 50 (JS.abs (trendPercent velocity)) in
  let c1 := if available then (50 + 30)%Q else 50%Q in
  let c2 := if available && volatile then (c1 - 20)%Q else c1 in
  JS.max 0 (JS.min 95 c2).

(** ** A concrete runtime and concrete collaborators

    A runtime in UTC whose parser knows no date format, a reset calculator
    without state, and a tracker that counts its refreshes and reports the
    number of blocks it was handed. *)

Module Demo.

Definition runtime : JSRuntime :=
  {| dateParse := fun _ => None;
     getTimezoneOffset := fun _ => 0;
     daysBefore := fun now n => now - n * 86400000 |}.

Definition resetService : ResetTimeServiceI :=
  {| ResetTimeService := unit;
     ResetTimeInfo := Z;
     reset_updateConfiguration := fun _ rs => rs;
     calculateResetInfo := fun now _ => now + 86400000;
     calculateRecommendedDailyLimit := fun remaining _ _ => inject_Z remaining;
     isOnTrackForReset := fun used limit _ _ => used <=? limit |}.

Definition tracker : SessionTrackerI :=
  {| SessionTracker := nat;
     SessionTracking := nat;
     updateFromBlocks := fun _ blocks n => (length blocks, S n) |}.

End Demo.

(** ** Concrete inputs *)

Definition mkTokens (n : Z) : TokenCounts :=
  {| inputTokens := n; outputTokens := 0;
     cacheCreationInputTokens := 0; cacheReadInputTokens := 0 |}.

(** A closed block with the given span and total. *)
Definition closedBlock (start stop tokens : Z) : SessionBlock :=
  {| id := "closed"; startTime := start; endTime := stop;
     actualEndTime := None; isActive := false; isGap := None;
     entries := []; tokenCounts := mkTokens tokens; costUSD := 0;
     models := ["claude-sonnet-4"] |}.

(** An active block with the given span and total. *)
Definition activeBlock (start stop tokens : Z) : SessionBlock :=
  {| id := "active"; startTime := start; endTime := stop;
     actualEndTime := None; isActive := true; isGap := None;
     entries := []; tokenCounts := mkTokens tokens; costUSD := 0;
     models := ["claude-sonnet-4"] |}.

Section Samples.

#[local] Existing Instance Demo.runtime.
#[local] Existing Instance Demo.resetService.
#[local] Existing Instance Demo.tracker.

(** The service of the concrete collaborators, freshly constructed. *)
Definition service0 : @Service Demo.resetService Demo.tracker :=
  @newService Demo.resetService Demo.tracker tt 0%nat.

(** A block of 1,200 tokens that ran for two hours and ended 30 minutes
    before the instant 10,000,000. *)
Definition twoHourBlock : SessionBlock := closedBlock 1000000 8200000 1200.

(** Velocity: 240 tokens in the last day, 10 per hour on average, and a
    current rate of 12 per hour. *)
Definition dayBlocks : list SessionBlock := [closedBlock 10000000 28000000 240].

Definition risingVelocity : VelocityInfo :=
  calculateVelocityFromBlocks 86400000 dayBlocks (12 # 60).

(** The service after the user selected the Custom tier. *)
Definition customService : Service := set_currentPlan Custom service0.

(** An active block of 100 tokens and a closed one without tokens. *)
Definition emptyHistory : list SessionBlock :=
  [activeBlock 0 18000000 100; closedBlock (-36000000) (-18000000) 0].

(** An active block of 7,500 tokens and a closed one of 9,000. *)
Definition busyHistory : list SessionBlock :=
  [activeBlock 0 18000000 7500; closedBlock (-36000000) (-18000000) 9000].

(** An active block of 7,500 tokens and nothing else. *)
Definition noHistory : list SessionBlock := [activeBlock 0 18000000 7500].

(** A session whose only activity of the last day ended hours ago, and an
    active block that starts at the instant 86,400,000: nothing was burnt
    in the trailing hour. *)
Definition idleBlocks : list SessionBlock :=
  [closedBlock 10000000 28000000 240; activeBlock 86400000 104400000 100].

Definition idleVelocity : VelocityInfo :=
  calculateVelocityFromBlocks 86400000 idleBlocks
    (calculateHourlyBurnRate 86400000 idleBlocks).

(** One active block of 100 tokens that started at the instant 0. *)
Definition oneSession : list SessionBlock := [activeBlock 0 18000000 100].

(** The service after a refresh at the instant 0 that saw [oneSession]. *)
Definition refreshedService : Service :=
  after (getUsageStats 0 (Loaded (Some oneSession) None) service0).

Definition autoConfiguration : UserConfiguration :=
  {| cfg_timezone := None; cfg_resetHour := None;
     cfg_plan := Some Auto; cfg_customTokenLimit := None |}.

(** [busyHistory] in the other order. *)
Definition shuffledHistory : list SessionBlock :=
  [closedBlock (-36000000) (-18000000) 9000; activeBlock 0 18000000 7500].

(** A closed block of one token whose five hours overlap the hour before
    the instant 86,400,000 by one millisecond, and an active block without
    tokens that starts at that instant: the current rate is 1/18,000,000
    tokens per hour. *)
Definition crawlingBlocks : list SessionBlock :=
  [closedBlock 64800001 82800001 1; activeBlock 86400000 104400000 0].

(** The selection of the Max5 plan. *)
Definition max5Configuration : UserConfiguration :=
  {| cfg_timezone := None; cfg_resetHour := None;
     cfg_plan := Some (Fixed Max5); cfg_customTokenLimit := None |}.

Definition breakdownOf (name : string) (input : Z) : ModelBreakdown :=
  {| mb_modelName := name; mb_inputTokens := input; mb_outputTokens := 0;
     mb_cacheCreationTokens := 0; mb_cacheReadTokens := 0; mb_cost := 0 |}.

(** A day whose breakdowns name the same model twice, and the synthetic
    model. *)
Definition repeatedDay : DailyDataEntry :=
  {| dd_date := "1970-01-02"; dd_inputTokens := 60; dd_outputTokens := 0;
     dd_cacheCreationTokens := 0; dd_cacheReadTokens := 0; dd_totalCost := 0;
     dd_modelBreakdowns :=
       [breakdownOf "opus" 10; breakdownOf "<synthetic>" 20;
        breakdownOf "opus" 30] |}.

End Samples.

(** ** The plan catalog ([src/constants/plans.ts]) *)

Record PlanDefinition : Type := {
  pd_name : string;
  pd_displayName : string;
  pd_monthlyPrice : Z;
  pd_messagesPerWindow : Z;
  pd_tokensPerMessage : Z;
  pd_tokenLimit : Z;
  pd_description : string
}.

Definition proPlan : PlanDefinition :=
  {| pd_name := "Pro"; pd_displayName := "Claude Pro"; pd_monthlyPrice := 20;
     pd_messagesPerWindow := 45; pd_tokensPerMessage := 155;
     pd_tokenLimit := 7000;
     pd_description := "5x usage compared to free tier" |}.

Definition max5Plan : PlanDefinition :=
  {| pd_name := "Max5"; pd_displayName := "Claude Max - Expanded";
     pd_monthlyPrice := 100;
     pd_messagesPerWindow := 225; pd_tokensPerMessage := 155;
     pd_tokenLimit := 35000;
     pd_description := "5x more usage than Pro plan" |}.

Definition max20Plan : PlanDefinition :=
  {| pd_name := "Max20"; pd_displayName := "Claude Max - Maximum";
     pd_monthlyPrice := 200;
     pd_messagesPerWindow := 900; pd_tokensPerMessage := 155;
     pd_tokenLimit := 140000;
     pd_description := "20x more usage than Pro plan" |}.

Definition customPlan : PlanDefinition :=
  {| pd_name := "Custom"; pd_displayName := "Custom Plan"; pd_monthlyPrice := 0;
     pd_messagesPerWindow := 3000; pd_tokensPerMessage := 155;
     pd_tokenLimit := 500000;
     pd_description := "Custom usage limits" |}.

(** [PLAN_DEFINITIONS], a record from plan name to definition. *)
Definition PLAN_DEFINITIONS : gmap string PlanDefinition :=
  <["Pro" := proPlan]> (<["Max5" := max5Plan]>
    (<["Max20" := max20Plan]> (<["Custom" := customPlan]> ∅))).

Definition WINDOW_DURATION : Z := 5 * 60 * 60 * 1000.

Definition getPlanByTokenLimit (tokenLimit : Z) : PlanDefinition :=
  if tokenLimit <=? 7000 then proPlan
  else if tokenLimit <=? 35000 then max5Plan
  else if tokenLimit <=? 140000 then max20Plan
  else customPlan.

Definition detectPlanFromUsage (totalTokens : Z) : PlanDefinition :=
  if totalTokens <=? 7000 then proPlan
  else if totalTokens <=? 35000 then max5Plan
  else if totalTokens <=? 140000 then max20Plan
  else customPlan.

(** The string a plan of the service is written as. *)
Definition planName (p : Plan) : string :=
  match p with
  | Pro => "Pro"
  | Max5 => "Max5"
  | Max20 => "Max20"
  | Custom => "Custom"
  end.

(** ** Aggregation by model and the depletion text
    (private helpers of the service that the snapshot no longer uses) *)

Record UsageDataItem : Type := {
  item_date : string;
  item_inputTokens : option Z;
  item_outputTokens : option Z;
  item_cacheCreationTokens : option Z;
  item_totalCost : option Double.number;
  item_cost : option Double.number;
  item_modelBreakdowns : option (list ModelBreakdown)
}.

(** [aggregateModelData]: the figures of a breakdown are added to the entry
    of its model, an empty model name standing for ['unknown']; the tokens
    counted are input, output and cache creation. *)
Definition aggregateModelData (breakdown : ModelBreakdown)
    (models : gmap string ModelUsage) : gmap string ModelUsage :=
  let modelName :=
    if String.eqb (mb_modelName breakdown) "" then "unknown"
    else mb_modelName breakdown in
  let cur := default {| mu_tokens := 0; mu_cost := 0 |} (models !! modelName) in
  <[ modelName :=
       {| mu_tokens := mu_tokens cur
                       + (mb_inputTokens breakdown + mb_outputTokens breakdown
                          + mb_cacheCreationTokens breakdown);
          mu_cost := (mu_cost cur + mb_cost breakdown)%D |} ]> models.

Definition processItemModelBreakdowns (item : UsageDataItem)
    (models : gmap string ModelUsage) : gmap string ModelUsage :=
  match item_modelBreakdowns item with
  | None => models
  | Some breakdowns =>
      fold_left (fun models breakdown => aggregateModelData breakdown models)
                breakdowns models
  end.

Definition groupByModel (data : list UsageDataItem) : gmap string ModelUsage :=
  fold_left (fun models item => processItemModelBreakdowns item models) data ∅.

(** What [calculatePredictedDepletion] returns besides [null]: the text
    ['Depleted'] or the ISO string of an instant. *)
Inductive DepletionText : Type :=
  | DepletedText
  | DepletionAt (t : Z).

Definition calculatePredictedDepletion (now : Z) (tokensUsed tokenLimit : Z)
    (burnRate : Q) : Completion (option DepletionText) :=
  if Qle_bool burnRate 0 then Normal None else
  let tokensRemaining := tokenLimit - tokensUsed in
  if tokensRemaining <=? 0 then Normal (Some DepletedText) else
  let hoursRemaining := (inject_Z tokensRemaining / burnRate)%Q in
  match JS.timeClip (inject_Z now + hoursRemaining * 60 * 60 * 1000)%Q with
  | Some t => Normal (Some (DepletionAt t))
  | None => Throw
  end.

(** ** Measures the further properties speak of *)

(** Sum of the daily totals of a list of days. *)
Definition dayTokens (l : list DailyUsage) : Z :=
  fold_right Z.add 0 (map du_totalTokens l).

(** Total tokens of the blocks that are no gaps. *)
Definition blockTokens (blocks : list SessionBlock) : Z :=
  fold_right Z.add 0 (map getTotalTokensFromBlock (withoutGaps blocks)).

(** The map of days once the day of a block is in it: what the loop over
    the blocks updates, for a block that is no gap. *)
Definition withDay (date : string) (dailyMap : DailyMap) : DailyMap :=
  if dailyHas date dailyMap then dailyMap
  else dailyMap ++ [ {| du_date := date; du_totalTokens := 0;
                        du_totalCost := 0; du_models := ∅ |} ].

(** Sum of the per-model tokens of a day. *)
Definition modelTokens (ms : gmap string ModelUsage) : Z :=
  map_fold (fun _ v acc => mu_tokens v + acc) 0 ms.

(** The tokens [aggregateModelData] counts for a breakdown. *)
Definition aggregatedTokens (mb : ModelBreakdown) : Z :=
  mb_inputTokens mb + mb_outputTokens mb + mb_cacheCreationTokens mb.

(** All the breakdowns of a list of items, in order. *)
Definition breakdownsOf (data : list UsageDataItem) : list ModelBreakdown :=
  concat (map (fun item => default [] (item_modelBreakdowns item)) data).

(** The entry of a model breakdown in the per-model map of a day. *)
Definition usageOfBreakdown (mb : ModelBreakdown) : ModelUsage :=
  {| mu_tokens := mb_inputTokens mb + mb_outputTokens mb
                  + mb_cacheCreationTokens mb + mb_cacheReadTokens mb;
     mu_cost := mb_cost mb |}.

(** The date of a day comes strictly before the date of another. *)
Definition dateBefore (a b : DailyUsage) : Prop :=
  String.leb (du_date a) (du_date b) = true /\ du_date a <> du_date b.

(** The date of a day does not come after the date of another. *)
Definition lebDate (a b : DailyUsage) : Prop :=
  String.leb (du_date a) (du_date b) = true.

(** The order of the three statuses. *)
Definition statusRank (st : UsageStatus) : Z :=
  match st with
  | safe => 0
  | warning => 1
  | critical => 2
  end.

Section Calls.

Context `{RT : JSRuntime} `{RS : ResetTimeServiceI} `{ST : SessionTrackerI}.

(** A call of one of the two public methods that change the service. *)
Inductive Call : Type :=
  | CallGetUsageStats (now : Z) (load : LoaderOutcome)
  | CallUpdateConfiguration (config : UserConfiguration).

Definition callStep (s : Service) (c : Call) : Service :=
  match c with
  | CallGetUsageStats now load => after (getUsageStats now load s)
  | CallUpdateConfiguration config => updateConfiguration config s
  end.

(** The service after a sequence of calls. *)
Definition runCalls (calls : list Call) (s : Service) : Service :=
  fold_left callStep calls s.

(** The loader handed back nothing to compute from: it rejected, or the
    block list is absent or empty. *)
Definition loadedNothing (load : LoaderOutcome) : Prop :=
  match load with
  | Rejected => True
  | Loaded None _ => True
  | Loaded (Some []) _ => True
  | Loaded (Some (_ :: _)) _ => False
  end.

(** What every snapshot keeps: a positive limit, remaining tokens and a
    percentage computed from the limit and the usage. *)
Definition consistent (stats : UsageStats) : Prop :=
  0 < tokenLimit stats
  /\ tokensRemaining stats = Z.max 0 (tokenLimit stats - tokensUsed stats)
  /\ (percentageUsed stats
      == JS.min 100 (inject_Z (tokensUsed stats) / inject_Z (tokenLimit stats) * 100))%Q.

(** Every cached snapshot is consistent. *)
Definition cacheConsistent (s : Service) : Prop :=
  forall cached, cachedStats s = Some cached -> consistent cached.

End Calls.

(** ** The two halves of a call of [getUsageStats]

    [getUsageStats] is an [async] method. A call runs without interruption
    up to its [await]: it reads the clock, tests the cache and, on a miss,
    invokes the loader. It resumes when the loader has settled, and only
    then assigns [cachedStats], [lastUpdate] and [historicalBlocks]. Other
    calls may run between the two halves. The function [getUsageStats]
    above is the call whose loader settles at once. *)

Section Await.

Context `{RT : JSRuntime} `{RS : ResetTimeServiceI} `{ST : SessionTrackerI}.

(** Where a call stands after its first half: it has returned the cached
    snapshot, or it has invoked the loader and waits for it, holding the
    instant [now] it read on entry. *)
Inductive Started : Type :=
  | Served (cached : UsageStats)
  | Awaiting (started : Z).

(** The first half, up to the [await]; it assigns no field. *)
Definition startUsageStats (now : Z) (s : Service) : Started :=
  match cachedStats s with
  | Some cached =>
      if now - lastUpdate s <? CACHE_DURATION then Served cached else Awaiting now
  | None => Awaiting now
  end.

(** The second half, from the settled loader on, in the service as it is
    by then: [started] is the [now] of the first half, which becomes
    [lastUpdate]; [clock] is the time the recomputation reads. *)
Definition resumeUsageStats (started clock : Z) (load : LoaderOutcome)
    (s : Service) : UsageStats * Service :=
  match load with
  | Rejected => getDefaultStats clock None s
  | Loaded None dailyData | Loaded (Some []) dailyData =>
      getDefaultStats clock dailyData s
  | Loaded (Some blocks) dailyData =>
      match parseBlocksData clock blocks dailyData s with
      | (Normal stats, s) =>
          let s := set_cachedStats (Some stats) s in
          let s := set_lastUpdate started s in
          let s := set_historicalBlocks blocks s in
          (stats, s)
      | (Throw, s) => getDefaultStats clock None s
      end
  end.

End Await.

(** ** The burn rate and the velocity in double precision

    [calculateHourlyBurnRate] and [calculateVelocityFromBlocks] as the
    engine evaluates them, every arithmetic operation rounded to the
    nearest double in the order of the source. Time values and token
    counts are integers that a double holds exactly; they enter the
    arithmetic through [Double.ofZ]. *)

Module Binary64.

(** Milliseconds to minutes: [ms / (1000 * 60)]. *)
Definition minutes (ms : Z) : Double.number :=
  (Double.ofZ ms / Double.ofZ (1000 * 60))%D.

(** One iteration of the loop of [calculateHourlyBurnRate]; every
    [continue] leaves the accumulator [totalTokens] as it is. *)
Definition burnStep (now : Z) (totalTokens : Double.number)
    (block : SessionBlock) : Double.number :=
  let oneHourAgo := now - 60 * 60 * 1000 in
  if gap block then totalTokens else
  let startTime := startTime block in
  let sessionEnd := sessionEndOf now block in
  if sessionEnd <? oneHourAgo then totalTokens else
  let sessionStartInHour :=
    if oneHourAgo <? startTime then startTime else oneHourAgo in
  let sessionEndInHour := if sessionEnd <? now then sessionEnd else now in
  if sessionEndInHour <=? sessionStartInHour then totalTokens else
  let totalSessionDuration := minutes (sessionEnd - startTime) in
  let hourDuration := minutes (sessionEndInHour - sessionStartInHour) in
  if (Double.zero <? totalSessionDuration)%D then
    let blockTotalTokens := Double.ofZ (getTotalTokensFromBlock block) in
    let tokensInHour :=
      (blockTotalTokens * (hourDuration / totalSessionDuration))%D in
    (totalTokens + tokensInHour)%D
  else totalTokens.

Definition calculateHourlyBurnRate (now : Z) (blocks : list SessionBlock)
    : Double.number :=
  match blocks with
  | [] => Double.zero
  | _ => (fold_left (burnStep now) blocks Double.zero / Double.ofZ 60)%D
  end.

Record VelocityInfo : Type := {
  current : Double.number;
  average24h : Double.number;
  average7d : Double.number;
  trend : Trend;
  trendPercent : Double.number;
  peakHour : Z;
  isAccelerating : bool
}.

(** The local constant [trendPercent] of [calculateVelocityFromBlocks],
    before it is rounded for the report. *)
Definition rawTrendPercent (currentBurnRate average24h : Double.number)
    : Double.number :=
  if (Double.zero <? average24h)%D
  then (((currentBurnRate * Double.ofZ 60 - average24h) / average24h)
        * Double.ofZ 100)%D
  else Double.zero.

Definition classifyTrend (trendPercent : Double.number) : Trend :=
  if (Double.ofZ 15 <? Double.abs trendPercent)%D
  then (if (Double.zero <? trendPercent)%D then increasing else decreasing)
  else stable.

Definition calculateVelocityFromBlocks
    (now : Z) (blocks : list SessionBlock) (currentBurnRate : Double.number)
    : VelocityInfo :=
  let average24h := (Double.ofZ (tokens24h now blocks) / Double.ofZ 24)%D in
  let average7d :=
    (Double.ofZ (tokens7d now blocks) / Double.ofZ (7 * 24))%D in
  let trendPercent := rawTrendPercent currentBurnRate average24h in
  let trend := classifyTrend trendPercent in
  {| current := (currentBurnRate * Double.ofZ 60)%D;
     average24h := average24h;
     average7d := average7d;
     trend := trend;
     trendPercent :=
       (Double.round (trendPercent * Double.ofZ 10) / Double.ofZ 10)%D;
     peakHour := 14;
     isAccelerating :=
       bool_decide (trend = increasing)
       && (Double.ofZ 20 <? trendPercent)%D |}.

(** *** The burn rate as the specification words it *)

(** The effective end of a block: now if it is active, its actual end if
    it was closed early, its nominal end otherwise. *)
Definition effectiveEnd (now : Z) (block : SessionBlock) : Z :=
  if isActive block then now
  else match actualEndTime block with
       | Some closedAt => closedAt
       | None => endTime block
       end.

(** The total tokens of a block: the sum of its four token-kind counts. *)
Definition totalTokens (block : SessionBlock) : Z :=
  inputTokens (tokenCounts block) + outputTokens (tokenCounts block)
  + cacheCreationInputTokens (tokenCounts block)
  + cacheReadInputTokens (tokenCounts block).

(** The overlap, in milliseconds, of the span from the block's start to
    its effective end with the trailing hour. *)
Definition overlap (now : Z) (block : SessionBlock) : Z :=
  Z.min (effectiveEnd now block) now
  - Z.max (startTime block) (now - 60 * 60000).

(** The blocks the sum ranges over: not a gap, the effective end not
    before [now] minus 60 minutes, the overlap not empty. *)
Definition counted (now : Z) (block : SessionBlock) : bool :=
  negb (gap block)
  && (now - 60 * 60000 <=? effectiveEnd now block)
  && (0 <? overlap now block).

Definition inMinutes (ms : Z) : Double.number :=
  (Double.ofZ ms / Double.ofZ 60000)%D.

(** The share of a block: its total tokens times the ratio of its overlap
    to its full duration, both in minutes. *)
Definition share (now : Z) (block : SessionBlock) : Double.number :=
  (Double.ofZ (totalTokens block)
   * (inMinutes (overlap now block)
      / inMinutes (effectiveEnd now block - startTime block)))%D.

(** The sum of a list of numbers, taken from the left. *)
Definition sum (l : list Double.number) : Double.number :=
  fold_left Double.add l Double.zero.

Definition hourlyBurnRate_spec (now : Z) (blocks : list SessionBlock)
    : Double.number :=
  (sum (map (share now) (List.filter (counted now) blocks)) / Double.ofZ 60)%D.

(** *** The trend as the specification words it *)

Definition trendFormula (v : VelocityInfo) : Double.number :=
  (((current v - average24h v) / average24h v) * Double.ofZ 100)%D.

(** The trend percent with its guard: 0 unless the 24-hour average is
    positive. *)
Definition guardedTrend (v : VelocityInfo) : Double.number :=
  if (Double.zero <? average24h v)%D then trendFormula v else Double.zero.

(** The value reported for a trend percent: rounded to one decimal. *)
Definition oneDecimal (x : Double.number) : Double.number :=
  (Double.round (x * Double.ofZ 10) / Double.ofZ 10)%D.

End Binary64.

(** A number above zero: finite with a positive sign and an exponent of
    at least [low], or plus infinity. *)
Definition positiveFrom (low : Z) (x : Double.number) : Prop :=
  match x with
  | S754_finite false _ e => low <= e
  | S754_infinity false => True
  | _ => False
  end.

(** *** Concrete inputs for the rates and the costs *)

(** A block with another cost. *)
Definition withCost (cost : Double.number) (block : SessionBlock) : SessionBlock :=
  {| id := id block; startTime := startTime block; endTime := endTime block;
     actualEndTime := actualEndTime block; isActive := isActive block;
     isGap := isGap block; entries := entries block;
     tokenCounts := tokenCounts block; costUSD := cost;
     models := models block |}.

(** At the instant 100,000,000: an active block of 1,337 tokens that
    started 30 minutes ago, and a closed block of 8,263 tokens that ended
    five hours ago. *)
Definition halfHourSession : list SessionBlock :=
  [activeBlock 98200000 116200000 1337; closedBlock 64000000 82000000 8263].

Definition halfHourVelocity : Binary64.VelocityInfo :=
  Binary64.calculateVelocityFromBlocks 100000000 halfHourSession
    (Binary64.calculateHourlyBurnRate 100000000 halfHourSession).

(** The same with 483 and 9,597 tokens: 483 tokens in the trailing hour
    against 420 per hour over the day. *)
Definition edgeSession : list SessionBlock :=
  [activeBlock 98200000 116200000 483; closedBlock 64000000 82000000 9597].

(** Three closed blocks of one token each, one hour long, that overlap
    the trailing hour of the instant 100,000,000 by 6, 12 and 18 minutes. *)
Definition sixMinutes : SessionBlock := closedBlock 93160000 96760000 1.
Definition twelveMinutes : SessionBlock := closedBlock 93520000 97120000 1.
Definition eighteenMinutes : SessionBlock := closedBlock 93880000 97480000 1.

(** * Properties *)

(** ** Loops that skip elements *)

Section FoldSkip.

Context {A B : Type} (step : A -> B -> A) (keep : B -> bool).
Hypothesis step_skip : forall a b, keep b = false -> step a b = a.

(** A loop whose body does nothing on the elements it skips is the loop
    over the elements it keeps. *)
Lemma fold_left_skip (l : list B) (a : A) :
  fold_left step (List.filter keep l) a = fold_left step l a.
Proof.
  revert a. induction l as [|b l IH]; intros a; simpl; [reflexivity|].
  destruct (keep b) eqn:Hk; simpl.
  - apply IH.
  - rewrite (step_skip a b Hk). apply IH.
Qed.

End FoldSkip.

Lemma notGap_false (b : SessionBlock) : notGap b = false -> gap b = true.
Proof. unfold notGap. destruct (gap b); [reflexivity | discriminate]. Qed.

Lemma burnStep_gap now acc b : notGap b = false -> burnStep now acc b = acc.
Proof. intros H. unfold burnStep. rewrite (notGap_false b H). reflexivity. Qed.

Lemma maxTokensStep_gap m b : notGap b = false -> maxTokensStep m b = m.
Proof. intros H. unfold maxTokensStep. rewrite (notGap_false b H). reflexivity. Qed.

Lemma dailyStep_gap dm b : notGap b = false -> dailyStep dm b = dm.
Proof. intros H. unfold dailyStep. rewrite (notGap_false b H). reflexivity. Qed.

Lemma blocksSince_withoutGaps since blocks :
  blocksSince since (withoutGaps blocks) = blocksSince since blocks.
Proof.
  unfold blocksSince, withoutGaps.
  induction blocks as [|b l IH]; simpl; [reflexivity|].
  unfold notGap at 1. destruct (gap b) eqn:Hg; simpl.
  - apply IH.
  - rewrite Hg. simpl. rewrite IH. reflexivity.
Qed.

Lemma burn_fold_withoutGaps now blocks acc :
  fold_left (burnStep now) (withoutGaps blocks) acc
  = fold_left (burnStep now) blocks acc.
Proof. apply fold_left_skip. intros a b. apply burnStep_gap. Qed.

(** ** Comparisons of rationals *)

Lemma Qlt_bool_iff (x y : Q) : JS.Qlt_bool x y = true <-> (x < y)%Q.
Proof.
  unfold JS.Qlt_bool. rewrite negb_true_iff.
  split.
  - intros H. apply Qnot_le_lt. intros Hle.
    apply Qle_bool_iff in Hle. congruence.
  - intros H. destruct (Qle_bool y x) eqn:E; [|reflexivity].
    apply Qle_bool_iff in E. exfalso. exact (Qlt_not_le _ _ H E).
Qed.

Lemma Qlt_bool_false_iff (x y : Q) : JS.Qlt_bool x y = false <-> (y <= x)%Q.
Proof.
  unfold JS.Qlt_bool. rewrite negb_false_iff. apply Qle_bool_iff.
Qed.

Lemma calculateHourlyBurnRate_fold now blocks :
  (calculateHourlyBurnRate now blocks == fold_left (burnStep now) blocks 0 / 60)%Q.
Proof. destruct blocks; simpl; reflexivity. Qed.

(** ** Double-precision arithmetic *)

Lemma digits2_size (p : positive) : digits2_pos p = Pos.size p.
Proof. induction p as [p IH|p IH|]; simpl; congruence. Qed.

Lemma digits2_log2 (p : positive) :
  Z.pos (digits2_pos p) = Z.log2 (Z.pos p) + 1.
Proof.
  rewrite digits2_size. destruct p as [p|p|]; simpl; try reflexivity;
    rewrite Pos2Z.inj_succ; lia.
Qed.

(** A positive integer of [d] binary digits is at least [2 ^ (d - 1)]. *)
Lemma Zdigits2_bounds (m : Z) :
  0 < m -> 0 < Zdigits2 m /\ 2 ^ (Zdigits2 m - 1) <= m.
Proof.
  intros H. destruct m as [|p|p]; try lia. simpl Zdigits2.
  rewrite digits2_log2. split; [pose proof (Z.log2_nonneg (Z.pos p)); lia|].
  replace (Z.log2 (Z.pos p) + 1 - 1) with (Z.log2 (Z.pos p)) by lia.
  apply Z.log2_spec. lia.
Qed.

Lemma shr_1_m (r : shr_record) :
  0 <= shr_m r -> shr_m (shr_1 r) = shr_m r / 2.
Proof.
  destruct r as [m r s]. simpl. intros H.
  destruct m as [|[p|p|]|p]; simpl; try lia; try reflexivity.
  - rewrite Pos2Z.inj_xI. apply Z.div_unique with (r := 1); lia.
  - rewrite Pos2Z.inj_xO. apply Z.div_unique with (r := 0); lia.
Qed.

(** Shifting a mantissa right by [n] bits divides it by [2 ^ n]. *)
Lemma iter_shr_m (n : positive) (r : shr_record) :
  0 <= shr_m r -> shr_m (SpecFloat.iter_pos shr_1 n r) = shr_m r / 2 ^ Z.pos n.
Proof.
  revert r. induction n as [n IH|n IH|]; intros r H; simpl SpecFloat.iter_pos.
  - assert (H1 : 0 <= shr_m (shr_1 r))
      by (rewrite shr_1_m by exact H; apply Z.div_pos; lia).
    assert (H2 : 0 <= shr_m (SpecFloat.iter_pos shr_1 n (shr_1 r))).
    { rewrite IH by exact H1. apply Z.div_pos; [exact H1|].
      apply Z.pow_pos_nonneg; lia. }
    rewrite IH by exact H2. rewrite IH by exact H1. rewrite shr_1_m by exact H.
    assert (E : 2 ^ Z.pos n~1 = 2 * (2 ^ Z.pos n * 2 ^ Z.pos n)).
    { replace (Z.pos n~1) with (1 + (Z.pos n + Z.pos n)) by lia.
      rewrite !Z.pow_add_r by lia. reflexivity. }
    rewrite E, !Z.div_div by (try apply Z.pow_pos_nonneg; lia).
    reflexivity.
  - assert (H2 : 0 <= shr_m (SpecFloat.iter_pos shr_1 n r)).
    { rewrite IH by exact H. apply Z.div_pos; [exact H|].
      apply Z.pow_pos_nonneg; lia. }
    rewrite IH by exact H2. rewrite IH by exact H.
    assert (E : 2 ^ Z.pos n~0 = 2 ^ Z.pos n * 2 ^ Z.pos n).
    { replace (Z.pos n~0) with (Z.pos n + Z.pos n) by lia.
      rewrite Z.pow_add_r by lia. reflexivity. }
    rewrite E, !Z.div_div by (try apply Z.pow_pos_nonneg; lia).
    reflexivity.
  - apply shr_1_m. exact H.
Qed.

Lemma shr_record_of_loc_m (m : Z) (l : location) :
  shr_m (shr_record_of_loc m l) = m.
Proof. destruct l as [|[| |]]; reflexivity. Qed.

(** Above the smallest exponent, the shift that brings a positive mantissa
    to 53 bits leaves it positive and does not lower the exponent. *)
Lemma shr_fexp_positive (m e : Z) (l : location) :
  0 < m -> -1074 <= e ->
  0 < shr_m (fst (shr_fexp Double.prec Double.emax m e l))
  /\ e <= snd (shr_fexp Double.prec Double.emax m e l).
Proof.
  intros Hm He. unfold shr_fexp, shr.
  destruct (Zdigits2_bounds m Hm) as [Hd Hlow].
  set (d := Zdigits2 m) in *.
  assert (Hn : fexp Double.prec Double.emax (d + e) - e
               = Z.max (d - 53) (-1074 - e)).
  { unfold fexp, emin, Double.prec, Double.emax. lia. }
  rewrite Hn.
  destruct (Z.max (d - 53) (-1074 - e)) as [|n|n] eqn:En; simpl;
    try (rewrite shr_record_of_loc_m; lia).
  rewrite iter_shr_m by (rewrite shr_record_of_loc_m; lia).
  rewrite shr_record_of_loc_m. split; [|lia].
  assert (Hnd : Z.pos n = d - 53) by lia.
  apply Z.div_str_pos. split; [apply Z.pow_pos_nonneg; lia|].
  eapply Z.le_trans; [|exact Hlow].
  apply Z.pow_le_mono_r; lia.
Qed.

Lemma round_nearest_even_positive (m : Z) (l : location) :
  0 < m -> 0 < round_nearest_even m l.
Proof.
  intros H. destruct l as [|[| |]]; simpl; try lia.
  destruct (Z.even m); lia.
Qed.

(** Rounding a positive mantissa with an exponent above the smallest one
    gives a number above zero. *)
Lemma binary_round_aux_positive (m e : Z) (l : location) :
  0 < m -> -1074 <= e ->
  positiveFrom e (binary_round_aux Double.prec Double.emax false m e l).
Proof.
  intros Hm He. unfold binary_round_aux.
  pose proof (shr_fexp_positive m e l Hm He) as [H1 H1e].
  destruct (shr_fexp Double.prec Double.emax m e l) as [mrs' e'] eqn:E1.
  simpl in H1, H1e.
  pose proof (round_nearest_even_positive (shr_m mrs') (loc_of_shr_record mrs') H1)
    as Hr.
  pose proof (shr_fexp_positive _ e' loc_Exact Hr ltac:(lia)) as [H2 H2e].
  destruct (shr_fexp Double.prec Double.emax _ e' loc_Exact) as [mrs'' e''] eqn:E2.
  simpl in H2, H2e.
  destruct (shr_m mrs'') as [|p|p]; try lia.
  destruct (e'' <=? Double.emax - Double.prec); simpl; [lia|exact I].
Qed.

Lemma positiveFrom_above (low : Z) (x : Double.number) :
  positiveFrom low x -> (Double.zero <? x)%D = true.
Proof.
  destruct x as [s|s| |s m e]; simpl; try contradiction;
    destruct s; try contradiction; reflexivity.
Qed.

(** The number of a positive integer is above zero. *)
Lemma ofZ_positive (d : Z) : 0 < d -> positiveFrom (-52) (Double.ofZ d).
Proof.
  intros H. destruct d as [|p|p]; try lia.
  unfold Double.ofZ, binary_normalize, binary_round.
  destruct (shl_align p 0 _) as [mz ez] eqn:E.
  assert (Hez : -52 <= ez).
  { unfold shl_align in E.
    pose proof (Zdigits2_bounds (Z.pos p) ltac:(lia)) as [Hd _].
    simpl Zdigits2 in Hd.
    assert (Hf : -52 <= fexp Double.prec Double.emax (Z.pos (digits2_pos p) + 0)).
    { unfold fexp, emin, Double.prec, Double.emax. lia. }
    destruct (fexp Double.prec Double.emax (Z.pos (digits2_pos p) + 0) - 0) eqn:En;
      inversion E; subst; lia. }
  pose proof (binary_round_aux_positive (Z.pos mz) ez loc_Exact
                ltac:(lia) ltac:(lia)) as Hp.
  destruct (binary_round_aux Double.prec Double.emax false (Z.pos mz) ez loc_Exact)
    as [s|s| |s m' e']; simpl in *; try exact Hp.
  destruct s; [exact Hp|lia].
Qed.

Lemma sixty_thousand :
  Double.ofZ (1000 * 60) = S754_finite false 8246337208320000 (-37).
Proof. reflexivity. Qed.

(** A positive number of milliseconds is a positive number of minutes:
    the quotient by 60,000 does not underflow. *)
Lemma minutes_positive (ms : Z) :
  0 < ms -> (Double.zero <? Binary64.minutes ms)%D = true.
Proof.
  intros H. unfold Binary64.minutes. rewrite sixty_thousand.
  pose proof (ofZ_positive ms H) as Hp.
  destruct (Double.ofZ ms) as [s|s| |s m e]; simpl in Hp; try contradiction.
  - destruct s; [contradiction|reflexivity].
  - destruct s; [contradiction|].
    unfold Double.div, SFdiv, SFdiv_core_binary.
    set (mc := 8246337208320000%positive).
    change (Zdigits2 (Z.pos mc)) with 53.
    pose proof (Zdigits2_bounds (Z.pos m) ltac:(lia)) as [Hd Hlow].
    set (d := Zdigits2 (Z.pos m)) in *.
    set (e' := Z.min (fexp Double.prec Double.emax (d + e - (53 + -37))) (e - -37)).
    assert (He' : e' = Z.min (d + e - 69) (e + 37)).
    { subst e'. unfold fexp, emin, Double.prec, Double.emax. lia. }
    set (m' := match e - -37 - e' with
               | 0 => Z.pos m
               | Z.pos _ => Z.shiftl (Z.pos m) (e - -37 - e')
               | Z.neg _ => 0
               end).
    assert (Hm' : Z.pos mc <= m').
    { subst m'. destruct (e - -37 - e') as [|s|s] eqn:Es; try lia.
      - assert (106 <= d) by lia.
        eapply Z.le_trans; [|exact Hlow].
        eapply Z.le_trans; [|apply (Z.pow_le_mono_r 2 105); lia].
        subst mc. vm_compute. discriminate.
      - rewrite Z.shiftl_mul_pow2 by lia.
        assert (Hs : Z.pos s = 106 - d) by lia. rewrite Hs.
        eapply Z.le_trans with (m := 2 ^ (d - 1) * 2 ^ (106 - d)).
        + rewrite <- Z.pow_add_r by lia.
          replace (d - 1 + (106 - d)) with 105 by lia.
          subst mc. vm_compute. discriminate.
        + apply Z.mul_le_mono_nonneg_r; [apply Z.pow_nonneg; lia|exact Hlow]. }
    pose proof (Z_div_mod m' (Z.pos mc) ltac:(lia)) as Hdm.
    destruct (Z.div_eucl m' (Z.pos mc)) as [q r] eqn:Eqr.
    assert (Hq : 0 < q) by nia.
    pose proof (binary_round_aux_positive q e' (new_location (Z.pos mc) r)
                  Hq ltac:(lia)) as Hp'.
    simpl xorb.
    exact (positiveFrom_above _ _ Hp').
Qed.

(** Order of two finite numbers above zero: by exponent, then by
    mantissa. *)
Lemma ltb_finite (m1 m2 : positive) (e1 e2 : Z) :
  (S754_finite false m1 e1 <? S754_finite false m2 e2)%D = true
  <-> e1 < e2 \/ (e1 = e2 /\ (m1 < m2)%positive).
Proof.
  unfold Double.ltb, SFltb, SFcompare.
  change (Pos.compare_cont Eq m1 m2) with (Pos.compare m1 m2).
  destruct (Z.compare_spec e1 e2); destruct (Pos.compare_spec m1 m2);
    split; intros Hx; try discriminate; try reflexivity; try lia.
Qed.

Lemma leb_finite (m1 m2 : positive) (e1 e2 : Z) :
  (S754_finite false m1 e1 <=? S754_finite false m2 e2)%D = true
  <-> e1 < e2 \/ (e1 = e2 /\ (m1 <= m2)%positive).
Proof.
  unfold Double.leb, SFleb, SFcompare.
  change (Pos.compare_cont Eq m1 m2) with (Pos.compare m1 m2).
  destruct (Z.compare_spec e1 e2); destruct (Pos.compare_spec m1 m2);
    split; intros Hx; try discriminate; try reflexivity; try lia.
Qed.

(** Order of two finite numbers below zero: the reverse. *)
Lemma ltb_finite_negative (m1 m2 : positive) (e1 e2 : Z) :
  (S754_finite true m1 e1 <? S754_finite true m2 e2)%D = true
  <-> e2 < e1 \/ (e1 = e2 /\ (m2 < m1)%positive).
Proof.
  unfold Double.ltb, SFltb, SFcompare.
  change (Pos.compare_cont Eq m1 m2) with (Pos.compare m1 m2).
  destruct (Z.compare_spec e1 e2); destruct (Pos.compare_spec m1 m2);
    split; intros Hx; simpl in *; try discriminate; try reflexivity; try lia.
Qed.

(** ** The burn rate loop against its specification *)

Lemma later_of (a b : Z) : (if a <? b then b else a) = Z.max b a.
Proof. destruct (Z.ltb_spec a b); lia. Qed.

Lemma earlier_of (a b : Z) : (if a <? b then a else b) = Z.min a b.
Proof. destruct (Z.ltb_spec a b); lia. Qed.

(** An iteration adds the share of a counted block and skips every other
    block. *)
Lemma burnStep_counted now acc b :
  Binary64.burnStep now acc b
  = if Binary64.counted now b then (acc + Binary64.share now b)%D else acc.
Proof.
  unfold Binary64.burnStep, Binary64.counted, Binary64.share, Binary64.overlap.
  change (Binary64.effectiveEnd now b) with (sessionEndOf now b).
  change (Binary64.totalTokens b) with (getTotalTokensFromBlock b).
  change (60 * 60 * 1000) with 3600000. change (60 * 60000) with 3600000.
  destruct (gap b); simpl; [reflexivity|].
  destruct (Z.ltb_spec (sessionEndOf now b) (now - 3600000)) as [Hold|Hrecent];
    destruct (Z.leb_spec (now - 3600000) (sessionEndOf now b)) as [Hin|Hout];
    try lia; simpl; [reflexivity|].
  rewrite later_of, earlier_of.
  set (e := Z.min (sessionEndOf now b) now).
  set (st := Z.max (startTime b) (now - 3600000)).
  destruct (Z.leb_spec e st) as [Hempty|Hover];
    destruct (Z.ltb_spec 0 (e - st)) as [Hpos|Hnon]; try lia; [reflexivity|].
  rewrite minutes_positive by (subst e st; lia).
  reflexivity.
Qed.

Lemma burn_fold_shares now blocks acc :
  fold_left (Binary64.burnStep now) blocks acc
  = fold_left Double.add
      (map (Binary64.share now) (List.filter (Binary64.counted now) blocks)) acc.
Proof.
  revert acc. induction blocks as [|b l IH]; intros acc; simpl; [reflexivity|].
  rewrite burnStep_counted.
  destruct (Binary64.counted now b); simpl; apply IH.
Qed.

Lemma calculateHourlyBurnRate_double_fold now blocks :
  Binary64.calculateHourlyBurnRate now blocks
  = (fold_left (Binary64.burnStep now) blocks Double.zero / Double.ofZ 60)%D.
Proof. destruct blocks; reflexivity. Qed.

(** C4. In double precision, the hourly burn rate is the sum, over the
    non-gap blocks whose effective end (now if active, the actual end if
    closed early, the nominal end otherwise) is not before [now] minus 60
    minutes and whose overlap with the trailing hour is not empty, of the
    block's total tokens times the ratio of that overlap to the full
    duration of the block, both in minutes; the sum is taken in the order
    of the blocks and divided by 60. In particular a block that is not a
    gap, lasts 2 hours, totals 1,200 tokens and overlaps the trailing hour
    by 30 minutes is counted and adds exactly 300 tokens to the sum. *)
Theorem calculateHourlyBurnRate_spec now blocks :
  Binary64.calculateHourlyBurnRate now blocks
  = Binary64.hourlyBurnRate_spec now blocks
  /\ forall b acc,
       gap b = false ->
       Binary64.effectiveEnd now b - startTime b = 2 * 60 * 60000 ->
       Binary64.overlap now b = 30 * 60000 ->
       Binary64.totalTokens b = 1200 ->
       Binary64.counted now b = true
       /\ Binary64.share now b = Double.ofZ 300
       /\ Binary64.burnStep now acc b = (acc + Double.ofZ 300)%D.
Proof.
  split.
  - unfold Binary64.hourlyBurnRate_spec, Binary64.sum.
    rewrite <- burn_fold_shares. apply calculateHourlyBurnRate_double_fold.
  - intros b acc Hgap Hdur Hover Htok.
    assert (Hin : Binary64.counted now b = true).
    { unfold Binary64.counted. rewrite Hgap, Hover. simpl.
      unfold Binary64.overlap in Hover.
      destruct (Z.leb_spec (now - 60 * 60000) (Binary64.effectiveEnd now b));
        [reflexivity|lia]. }
    assert (Hshare : Binary64.share now b = Double.ofZ 300).
    { unfold Binary64.share. rewrite Hover, Hdur, Htok. reflexivity. }
    split; [exact Hin|]. split; [exact Hshare|].
    rewrite burnStep_counted, Hin, Hshare. reflexivity.
Qed.

Lemma burnStep_double_gap now acc b :
  notGap b = false -> Binary64.burnStep now acc b = acc.
Proof.
  intros H. unfold Binary64.burnStep. rewrite (notGap_false b H). reflexivity.
Qed.

(** X29. In double precision too, gap blocks contribute nothing: dropping
    them changes neither the hourly burn rate nor the velocity. *)
Theorem gap_blocks_contribute_nothing_in_doubles now blocks currentBurnRate :
  Binary64.calculateHourlyBurnRate now (withoutGaps blocks)
  = Binary64.calculateHourlyBurnRate now blocks
  /\ Binary64.calculateVelocityFromBlocks now (withoutGaps blocks) currentBurnRate
     = Binary64.calculateVelocityFromBlocks now blocks currentBurnRate.
Proof.
  split.
  - rewrite !calculateHourlyBurnRate_double_fold. unfold withoutGaps.
    rewrite (fold_left_skip (Binary64.burnStep now) notGap
               (burnStep_double_gap now)).
    reflexivity.
  - unfold Binary64.calculateVelocityFromBlocks, tokens24h, tokens7d.
    rewrite !blocksSince_withoutGaps. reflexivity.
Qed.

(** ** Gap blocks *)

(** C10. Gap blocks contribute to no aggregate: dropping every block whose
    gap flag is set changes neither the hourly burn rate, nor the 24-hour
    and 7-day token totals and the velocity built on them, nor the fold of
    the blocks into daily usage (tokens, cost and per-model breakdown), nor
    the historical maximum used to detect the limit. *)
Theorem gap_blocks_contribute_nothing now blocks currentBurnRate :
  (calculateHourlyBurnRate now (withoutGaps blocks)
   == calculateHourlyBurnRate now blocks)%Q
  /\ tokens24h now (withoutGaps blocks) = tokens24h now blocks
  /\ tokens7d now (withoutGaps blocks) = tokens7d now blocks
  /\ calculateVelocityFromBlocks now (withoutGaps blocks) currentBurnRate
     = calculateVelocityFromBlocks now blocks currentBurnRate
  /\ convertBlocksToDailyUsage (withoutGaps blocks)
     = convertBlocksToDailyUsage blocks
  /\ getMaxTokensFromBlocks (withoutGaps blocks) = getMaxTokensFromBlocks blocks.
Proof.
  assert (H24 : tokens24h now (withoutGaps blocks) = tokens24h now blocks).
  { unfold tokens24h. rewrite blocksSince_withoutGaps. reflexivity. }
  assert (H7 : tokens7d now (withoutGaps blocks) = tokens7d now blocks).
  { unfold tokens7d. rewrite blocksSince_withoutGaps. reflexivity. }
  repeat split.
  - rewrite !calculateHourlyBurnRate_fold, burn_fold_withoutGaps. reflexivity.
  - exact H24.
  - exact H7.
  - unfold calculateVelocityFromBlocks. rewrite H24, H7. reflexivity.
  - unfold convertBlocksToDailyUsage, withoutGaps.
    rewrite (fold_left_skip dailyStep notGap dailyStep_gap). reflexivity.
  - unfold getMaxTokensFromBlocks, withoutGaps.
    rewrite (fold_left_skip maxTokensStep notGap maxTokensStep_gap). reflexivity.
Qed.

(** ** Velocity *)

Lemma Qabs_gt_cases (x c : Q) :
  (0 <= c)%Q -> ((c < Qabs x)%Q <-> (c < x)%Q \/ (x < - c)%Q).
Proof.
  intros Hc. split.
  - intros H. destruct (Qlt_le_dec x 0) as [Hneg|Hpos].
    + right. rewrite Qabs_neg in H by (apply Qlt_le_weak; exact Hneg).
      apply Qopp_lt_compat in H. rewrite Qopp_involutive in H. exact H.
    + left. rewrite Qabs_pos in H by exact Hpos. exact H.
  - intros [H|H].
    + rewrite Qabs_pos; [exact H|].
      apply Qlt_le_weak. eapply Qle_lt_trans; [exact Hc|exact H].
    + assert (Hx : (x <= 0)%Q).
      { apply Qlt_le_weak. eapply Qlt_le_trans; [exact H|].
        rewrite <- (Qopp_involutive 0). apply Qopp_le_compat. exact Hc. }
      rewrite Qabs_neg by exact Hx.
      apply Qopp_lt_compat in H. rewrite Qopp_involutive in H. exact H.
Qed.

Lemma classifyTrend_decreasing tp :
  classifyTrend tp = decreasing <-> (tp < -(15))%Q.
Proof.
  unfold classifyTrend, JS.abs.
  destruct (JS.Qlt_bool 15 (Qabs tp)) eqn:Ha; destruct (JS.Qlt_bool 0 tp) eqn:Hp;
    try apply Qlt_bool_iff in Ha; try apply Qlt_bool_iff in Hp;
    try apply Qlt_bool_false_iff in Ha; try apply Qlt_bool_false_iff in Hp.
  - split; [discriminate|]. intros H. exfalso.
    apply (Qlt_irrefl 0). eapply Qlt_trans; [exact Hp|].
    eapply Qlt_trans; [exact H|]. reflexivity.
  - split; [intros _|reflexivity].
    apply Qabs_gt_cases in Ha; [|discriminate]. destruct Ha as [Ha|Ha]; [|exact Ha].
    exfalso. apply (Qlt_irrefl 0). eapply Qlt_le_trans; [|exact Hp].
    eapply Qlt_trans; [|exact Ha]. reflexivity.
  - split; [discriminate|]. intros H. exfalso.
    assert (Hgt : (15 < Qabs tp)%Q).
    { apply Qabs_gt_cases; [discriminate|]. right. exact H. }
    apply (Qlt_irrefl 15). eapply Qlt_le_trans; [exact Hgt|exact Ha].
  - split; [discriminate|]. intros H. exfalso.
    assert (Hgt : (15 < Qabs tp)%Q).
    { apply Qabs_gt_cases; [discriminate|]. right. exact H. }
    apply (Qlt_irrefl 15). eapply Qlt_le_trans; [exact Hgt|exact Ha].
Qed.

(** ** The trend in double precision *)

Lemma fifteen : Double.ofZ 15 = S754_finite false 8444249301319680 (-49).
Proof. reflexivity. Qed.

Lemma minus_fifteen : Double.ofZ (-15) = S754_finite true 8444249301319680 (-49).
Proof. reflexivity. Qed.

Lemma classifyTrend_double_stable tp :
  Binary64.classifyTrend tp = stable
  <-> (Double.ofZ 15 <? Double.abs tp)%D = false.
Proof.
  unfold Binary64.classifyTrend.
  destruct (Double.ofZ 15 <? Double.abs tp)%D.
  - destruct (Double.zero <? tp)%D; split; discriminate.
  - split; reflexivity.
Qed.

Lemma classifyTrend_double_increasing tp :
  Binary64.classifyTrend tp = increasing <-> (Double.ofZ 15 <? tp)%D = true.
Proof.
  unfold Binary64.classifyTrend. rewrite fifteen.
  destruct tp as [[|]|[|]| |[|] m e].
  - vm_compute. split; discriminate.
  - vm_compute. split; discriminate.
  - vm_compute. split; discriminate.
  - vm_compute. split; reflexivity.
  - vm_compute. split; discriminate.
  - cbn [Double.abs SFabs].
    change (Double.zero <? S754_finite true m e)%D with false.
    change (S754_finite false 8444249301319680 (-49) <? S754_finite true m e)%D
      with false.
    destruct (_ <? _)%D; split; discriminate.
  - cbn [Double.abs SFabs].
    change (Double.zero <? S754_finite false m e)%D with true.
    destruct (_ <? _)%D; split; try discriminate; reflexivity.
Qed.

Lemma classifyTrend_double_decreasing tp :
  Binary64.classifyTrend tp = decreasing <-> (tp <? Double.ofZ (-15))%D = true.
Proof.
  unfold Binary64.classifyTrend. rewrite fifteen, minus_fifteen.
  destruct tp as [[|]|[|]| |[|] m e].
  - vm_compute. split; discriminate.
  - vm_compute. split; discriminate.
  - vm_compute. split; reflexivity.
  - vm_compute. split; discriminate.
  - vm_compute. split; discriminate.
  - cbn [Double.abs SFabs].
    change (Double.zero <? S754_finite true m e)%D with false.
    rewrite ltb_finite_negative.
    destruct (_ <? _)%D eqn:E.
    + apply ltb_finite in E. split; [intros _|reflexivity].
      destruct E as [Elt|[Ee Em]]; [left; lia|right; split; [lia|exact Em]].
    + split; [discriminate|]. intros H.
      assert (E' : (S754_finite false 8444249301319680 (-49)
                    <? S754_finite false m e)%D = true).
      { apply ltb_finite.
        destruct H as [Hlt|[He Hm]]; [left; lia|right; split; [lia|exact Hm]]. }
      congruence.
  - cbn [Double.abs SFabs].
    change (Double.zero <? S754_finite false m e)%D with true.
    change (S754_finite false m e <? S754_finite true 8444249301319680 (-49))%D
      with false.
    destruct (_ <? _)%D; split; discriminate.
Qed.

(** A number of at least 19 exceeds 15. *)
Lemma at_least_nineteen tp :
  (Double.ofZ 19 <=? tp)%D = true -> (Double.ofZ 15 <? tp)%D = true.
Proof.
  rewrite fifteen.
  change (Double.ofZ 19) with (S754_finite false 5348024557502464 (-48)).
  destruct tp as [[|]|[|]| |[|] m e].
  - intros H. cbn in H. discriminate H.
  - intros H. cbn in H. discriminate H.
  - intros H. cbn in H. discriminate H.
  - intros _. reflexivity.
  - intros H. cbn in H. discriminate H.
  - intros H. discriminate H.
  - intros H. apply leb_finite in H. apply ltb_finite. left.
    destruct H as [Hlt|[He _]]; lia.
Qed.

(** A number between 9 and 11 has a magnitude of at most 15. *)
Lemma about_ten tp :
  (Double.ofZ 9 <=? tp)%D = true -> (tp <=? Double.ofZ 11)%D = true ->
  (Double.ofZ 15 <? Double.abs tp)%D = false.
Proof.
  rewrite fifteen.
  change (Double.ofZ 9) with (S754_finite false 5066549580791808 (-49)).
  change (Double.ofZ 11) with (S754_finite false 6192449487634432 (-49)).
  destruct tp as [[|]|[|]| |[|] m e].
  - intros H. cbn in H. discriminate H.
  - intros H. cbn in H. discriminate H.
  - intros H. cbn in H. discriminate H.
  - intros _ H. cbn in H. discriminate H.
  - intros H. cbn in H. discriminate H.
  - intros H. discriminate H.
  - intros _ H. cbn [Double.abs SFabs]. apply leb_finite in H.
    destruct (_ <? _)%D eqn:E; [|reflexivity].
    apply ltb_finite in E. exfalso.
    destruct H as [Hlt|[He Hm]]; destruct E as [Elt|[Ee Em]].
    + lia.
    + clear Em. lia.
    + clear Hm. lia.
    + pose proof (Pos.lt_le_trans _ _ _ Em Hm) as C. vm_compute in C.
      discriminate C.
Qed.



(** ** The historical maximum *)

Lemma maxTokensStep_max m b :
  maxTokensStep m b
  = if isHistorical b then Z.max m (getTotalTokensFromBlock b) else m.
Proof.
  unfold maxTokensStep, isHistorical.
  destruct (negb (gap b) && negb (isActive b)); [|reflexivity].
  cbv zeta. destruct (Z.ltb_spec m (getTotalTokensFromBlock b)); lia.
Qed.

Lemma fold_right_max_start (l : list Z) (m t : Z) :
  fold_right Z.max (Z.max m t) l = Z.max t (fold_right Z.max m l).
Proof. induction l as [|x l IH]; simpl; [lia|]. rewrite IH. lia. Qed.

Lemma maxTokens_fold blocks m :
  fold_left maxTokensStep blocks m = fold_right Z.max m (historicalTotals blocks).
Proof.
  revert m. induction blocks as [|b l IH]; intros m; simpl; [reflexivity|].
  rewrite IH, maxTokensStep_max. unfold historicalTotals. simpl.
  destruct (isHistorical b); simpl; [|reflexivity].
  apply fold_right_max_start.
Qed.

Lemma fold_right_max_ge (l : list Z) (m : Z) :
  m <= fold_right Z.max m l /\ forall t, In t l -> t <= fold_right Z.max m l.
Proof.
  induction l as [|x l [IHm IHl]]; simpl.
  - split; [lia|]. intros t [].
  - split; [lia|]. intros t [->|Ht]; [lia|]. specialize (IHl t Ht). lia.
Qed.

Lemma fold_right_max_in (l : list Z) (m : Z) :
  fold_right Z.max m l = m \/ In (fold_right Z.max m l) l.
Proof.
  induction l as [|x l IH]; simpl; [left; reflexivity|].
  destruct (Z.max_spec x (fold_right Z.max m l)) as [[_ ->]|[_ ->]].
  - destruct IH as [->|IH]; [left; reflexivity|right; right; exact IH].
  - right; left; reflexivity.
Qed.

(** The detected limit is the largest historical total when one of them is
    positive, and 7,000 otherwise. *)
Lemma getMaxTokensFromBlocks_char blocks :
  ((exists t, In t (historicalTotals blocks) /\ 0 < t) ->
   In (getMaxTokensFromBlocks blocks) (historicalTotals blocks)
   /\ forall t, In t (historicalTotals blocks) -> t <= getMaxTokensFromBlocks blocks)
  /\ ((forall t, In t (historicalTotals blocks) -> t <= 0) ->
      getMaxTokensFromBlocks blocks = 7000).
Proof.
  unfold getMaxTokensFromBlocks. rewrite maxTokens_fold. cbv zeta.
  set (ts := historicalTotals blocks).
  destruct (fold_right_max_ge ts 0) as [H0 Hge].
  split.
  - intros (t & Hin & Hpos).
    specialize (Hge t Hin) as Hle.
    destruct (Z.ltb_spec 0 (fold_right Z.max 0 ts)); [|lia].
    split; [|exact Hge].
    destruct (fold_right_max_in ts 0) as [E|E]; [lia|exact E].
  - intros Hall.
    destruct (Z.ltb_spec 0 (fold_right Z.max 0 ts)) as [Hpos|]; [|reflexivity].
    destruct (fold_right_max_in ts 0) as [E|E]; [lia|].
    specialize (Hall _ E). lia.
Qed.

(** ** The engine *)

Section EngineProperties.

Context `{RT : JSRuntime} `{RS : ResetTimeServiceI} `{ST : SessionTrackerI}.

(** *** The default snapshot *)

Lemma getDefaultStats_zeroed now dailyData s :
  let stats := fst (getDefaultStats now dailyData s) in
  tokensUsed stats = 0
  /\ percentageUsed stats = 0%Q
  /\ burnRate stats = 0%Q
  /\ velocity stats = defaultVelocity
  /\ prediction stats = defaultPrediction
  /\ tokenLimit stats = getTokenLimit (currentPlan s)
  /\ actualResetInfo stats = getTimeUntilActualReset now s.
Proof.
  unfold getDefaultStats.
  destruct (updateFromBlocks now [] (sessionTracker s)) as [tracking tracker].
  simpl. repeat split.
Qed.

Lemma getDefaultStats_no_history now s :
  let stats := fst (getDefaultStats now None s) in
  thisWeek stats = [] /\ thisMonth stats = [].
Proof.
  unfold getDefaultStats.
  destruct (updateFromBlocks now [] (sessionTracker s)) as [tracking tracker].
  simpl. split; reflexivity.
Qed.

Lemma recompute_rejected now s :
  recompute now Rejected s
  = {| snapshot := fst (getDefaultStats now None s);
       after := snd (getDefaultStats now None s);
       loaderInvoked := true |}.
Proof.
  unfold recompute. destruct (getDefaultStats now None s). reflexivity.
Qed.

(** A call consults the loader exactly when it misses the cache, and then
    it is the recomputation. *)
Lemma getUsageStats_miss now load s :
  loaderInvoked (getUsageStats now load s) = true ->
  getUsageStats now load s = recompute now load s.
Proof.
  unfold getUsageStats.
  destruct (cachedStats s) as [cached|]; [|reflexivity].
  destruct (now - lastUpdate s <? CACHE_DURATION); [|reflexivity].
  simpl. discriminate.
Qed.

Lemma recompute_invokes now load s : loaderInvoked (recompute now load s) = true.
Proof.
  unfold recompute.
  destruct load as [|[[|b blocks]|] dailyData].
  - destruct (getDefaultStats now None s). reflexivity.
  - destruct (getDefaultStats now dailyData s). reflexivity.
  - destruct (parseBlocksData now (b :: blocks) dailyData s) as [[stats|] s'].
    + reflexivity.
    + destruct (getDefaultStats now None s'). reflexivity.
  - destruct (getDefaultStats now dailyData s). reflexivity.
Qed.

(** C1. When the loader call of an execution of [getUsageStats] rejects,
    the call still yields a snapshot, the default one: no tokens used, 0
    percent used, empty weekly and monthly histories, and a prediction
    that is on track for the reset. *)
Theorem getUsageStats_loader_rejects now s :
  loaderInvoked (getUsageStats now Rejected s) = true ->
  let stats := snapshot (getUsageStats now Rejected s) in
  stats = fst (getDefaultStats now None s)
  /\ tokensUsed stats = 0
  /\ percentageUsed stats = 0%Q
  /\ thisWeek stats = []
  /\ thisMonth stats = []
  /\ onTrackForReset (prediction stats) = true.
Proof.
  intros Hmiss. rewrite (getUsageStats_miss _ _ _ Hmiss), recompute_rejected.
  cbv zeta. cbn [snapshot].
  destruct (getDefaultStats_zeroed now None s) as (Hu & Hp & _ & _ & Hpred & _).
  destruct (getDefaultStats_no_history now s) as (Hw & Hm).
  repeat split; try assumption. rewrite Hpred. reflexivity.
Qed.

(** *** Configuration *)


(** *** The cache *)

Lemma getUsageStats_hit now load s cached :
  cachedStats s = Some cached ->
  now - lastUpdate s < CACHE_DURATION ->
  getUsageStats now load s
  = {| snapshot := cached; after := s; loaderInvoked := false |}.
Proof.
  intros Hc Hfresh. unfold getUsageStats. rewrite Hc.
  destruct (Z.ltb_spec (now - lastUpdate s) CACHE_DURATION); [reflexivity|lia].
Qed.

Lemma recompute_stores now blocks dailyData s stats s' :
  blocks <> [] ->
  parseBlocksData now blocks dailyData s = (Normal stats, s') ->
  recompute now (Loaded (Some blocks) dailyData) s
  = {| snapshot := stats;
       after := set_historicalBlocks blocks
                  (set_lastUpdate now (set_cachedStats (Some stats) s'));
       loaderInvoked := true |}.
Proof.
  intros Hne Hparse. unfold recompute.
  destruct blocks as [|b blocks]; [contradiction|].
  rewrite Hparse. reflexivity.
Qed.

(** [getUsageStats] is the call whose two halves run back to back, the
    loader settling at the instant the call started. *)
Lemma getUsageStats_halves now load s :
  getUsageStats now load s
  = match startUsageStats now s with
    | Served cached =>
        {| snapshot := cached; after := s; loaderInvoked := false |}
    | Awaiting started =>
        {| snapshot := fst (resumeUsageStats started now load s);
           after := snd (resumeUsageStats started now load s);
           loaderInvoked := true |}
    end.
Proof.
  unfold getUsageStats, startUsageStats.
  assert (E : recompute now load s
              = {| snapshot := fst (resumeUsageStats now now load s);
                   after := snd (resumeUsageStats now now load s);
                   loaderInvoked := true |}).
  { unfold recompute, resumeUsageStats.
    destruct load as [|[[|b blocks]|] dailyData].
    - destruct (getDefaultStats now None s). reflexivity.
    - destruct (getDefaultStats now dailyData s). reflexivity.
    - destruct (parseBlocksData now (b :: blocks) dailyData s) as [[stats|] s'].
      + reflexivity.
      + destruct (getDefaultStats now None s'). reflexivity.
    - destruct (getDefaultStats now dailyData s). reflexivity. }
  destruct (cachedStats s) as [cached|]; [|exact E].
  destruct (now - lastUpdate s <? CACHE_DURATION); [reflexivity|exact E].
Qed.

Lemma resumeUsageStats_stores started clock blocks dailyData s stats s' :
  blocks <> [] ->
  parseBlocksData clock blocks dailyData s = (Normal stats, s') ->
  resumeUsageStats started clock (Loaded (Some blocks) dailyData) s
  = (stats,
     set_historicalBlocks blocks
       (set_lastUpdate started (set_cachedStats (Some stats) s'))).
Proof.
  intros Hne Hparse. unfold resumeUsageStats.
  destruct blocks as [|b blocks]; [contradiction|].
  rewrite Hparse. reflexivity.
Qed.

(** C7. Take a call of [getUsageStats] that started at the instant [t1],
    missed the cache and, once its loader settled, recomputed its snapshot
    from a non-empty block list without an internal error. A second call
    that starts after the first has resolved, less than 3,000 ms after
    [t1] and with nothing else touching the service in between, returns
    the same snapshot from the cache: the loader is not invoked and the
    service is left as it was. *)
Theorem getUsageStats_second_call_cached
    t1 clock blocks dailyData s stats s' t2 load2 :
  blocks <> [] ->
  parseBlocksData clock blocks dailyData s = (Normal stats, s') ->
  t2 - t1 < 3000 ->
  let r1 := resumeUsageStats t1 clock (Loaded (Some blocks) dailyData) s in
  fst r1 = stats
  /\ startUsageStats t2 (snd r1) = Served (fst r1)
  /\ getUsageStats t2 load2 (snd r1)
     = {| snapshot := fst r1; after := snd r1; loaderInvoked := false |}.
Proof.
  intros Hne Hparse Hfresh r1. subst r1.
  rewrite (resumeUsageStats_stores _ _ _ _ _ _ _ Hne Hparse).
  cbn [fst snd]. split; [reflexivity|].
  assert (Hstart : startUsageStats t2
                     (set_historicalBlocks blocks
                        (set_lastUpdate t1 (set_cachedStats (Some stats) s')))
                   = Served stats).
  { unfold startUsageStats. cbn [cachedStats lastUpdate set_historicalBlocks
                                  set_lastUpdate set_cachedStats].
    unfold CACHE_DURATION.
    destruct (Z.ltb_spec (t2 - t1) 3000); [reflexivity|lia]. }
  split; [exact Hstart|].
  rewrite getUsageStats_halves, Hstart. reflexivity.
Qed.

(** *** Plan and limit resolution *)

Lemma resolveLimit_auto blocks used s :
  autoDetects (currentPlan s) used ->
  detectedTokenLimit (resolveLimit blocks used s) = getMaxTokensFromBlocks blocks
  /\ currentPlan (resolveLimit blocks used s) = Custom.
Proof.
  unfold autoDetects, resolveLimit.
  intros [Hc|[Hp Hu]].
  - simpl. rewrite Hc. simpl.
    destruct (7000 <? used); simpl; rewrite ?Hc; split; reflexivity.
  - simpl. rewrite Hp. simpl.
    destruct (Z.ltb_spec 7000 used); [|lia]. simpl.
    split; reflexivity.
Qed.

Lemma resolveLimit_fixed blocks used s :
  ~ autoDetects (currentPlan s) used ->
  detectedTokenLimit (resolveLimit blocks used s) = getTokenLimit (currentPlan s)
  /\ currentPlan (resolveLimit blocks used s) = currentPlan s.
Proof.
  unfold autoDetects, resolveLimit. intros Hn.
  simpl. destruct (currentPlan s) eqn:Hp; simpl.
  - destruct (Z.ltb_spec 7000 used);
      [exfalso; apply Hn; right; split; [reflexivity|lia]|].
    simpl. rewrite Hp. split; reflexivity.
  - rewrite Hp. split; reflexivity.
  - rewrite Hp. split; reflexivity.
  - exfalso. apply Hn. left. reflexivity.
Qed.

(** The state and the snapshot of a recomputation that found an active
    block. *)
Lemma parseBlocksData_active now blocks dailyData s ab :
  findActiveBlock blocks = Some ab ->
  let s1 := resolveLimit blocks (getTotalTokensFromBlock ab)
                         (set_currentActiveBlock (Some ab) s) in
  let r := parseBlocksData now blocks dailyData s in
  currentPlan (snd r) = currentPlan s1
  /\ detectedTokenLimit (snd r) = detectedTokenLimit s1
  /\ currentActiveBlock (snd r) = currentActiveBlock s1
  /\ (forall stats, fst r = Normal stats ->
                    tokenLimit stats = detectedTokenLimit s1
                    /\ stats_currentPlan stats = currentPlan s1
                    /\ tokensUsed stats = getTotalTokensFromBlock ab)
  /\ (fst r = Throw <->
      calculatePredictionInfo now (getTotalTokensFromBlock ab)
        (detectedTokenLimit s1)
        (calculateVelocityFromBlocks now blocks (calculateHourlyBurnRate now blocks))
        (calculateResetInfo now (resetTimeService s1)) s1 = Throw).
Proof.
  intros Hab s1 r. subst r. unfold parseBlocksData. rewrite Hab. fold s1.
  destruct (calculatePredictionInfo now (getTotalTokensFromBlock ab)
              (detectedTokenLimit s1) _ _ s1) as [p|] eqn:Hp.
  - destruct (updateFromBlocks now (convertSessionBlocksToCC blocks)
                               (sessionTracker s1)) as [tracking tracker].
    simpl. split; [reflexivity|]. split; [reflexivity|]. split; [reflexivity|].
    split; [|split; discriminate].
    intros stats [= <-]. split; [|split]; reflexivity.
  - simpl. split; [reflexivity|]. split; [reflexivity|]. split; [reflexivity|].
    split; [discriminate|]. split; reflexivity.
Qed.

(** C2. In a recomputation whose block list holds an active non-gap
    block: when the current plan is Custom, or is Pro with more than 7,000
    tokens in the active block, the effective token limit is the largest
    total over the non-gap, non-active blocks if one of these totals is
    positive and 7,000 if none is, and the current plan ends as Custom;
    otherwise the limit is the fixed threshold of the selected plan and
    the plan is kept. The snapshot reports that limit and that plan. *)
Theorem parseBlocksData_limit_resolution now blocks dailyData s ab :
  findActiveBlock blocks = Some ab ->
  let used := getTotalTokensFromBlock ab in
  let r := parseBlocksData now blocks dailyData s in
  let limit := detectedTokenLimit (snd r) in
  let totals := historicalTotals blocks in
  (autoDetects (currentPlan s) used ->
     ((exists t, In t totals /\ 0 < t) ->
      In limit totals /\ forall t, In t totals -> t <= limit)
     /\ ((forall t, In t totals -> t <= 0) -> limit = 7000)
     /\ currentPlan (snd r) = Custom)
  /\ (~ autoDetects (currentPlan s) used ->
      limit = getTokenLimit (currentPlan s)
      /\ currentPlan (snd r) = currentPlan s)
  /\ (forall stats, fst r = Normal stats ->
        tokenLimit stats = limit
        /\ stats_currentPlan stats = currentPlan (snd r)).
Proof.
  intros Hab used r limit totals.
  destruct (parseBlocksData_active now blocks dailyData s ab Hab)
    as (Hplan & Hlimit & _ & Hstats & _).
  fold r in Hplan, Hlimit, Hstats. subst limit.
  split; [|split].
  - intros Hauto.
    destruct (resolveLimit_auto blocks used
                (set_currentActiveBlock (Some ab) s) Hauto) as [Hl Hp].
    fold used in Hlimit, Hplan. rewrite Hlimit, Hplan, Hl, Hp.
    destruct (getMaxTokensFromBlocks_char blocks) as [Hmax Hnone].
    split; [exact Hmax|]. split; [exact Hnone|reflexivity].
  - intros Hfixed.
    destruct (resolveLimit_fixed blocks used
                (set_currentActiveBlock (Some ab) s) Hfixed) as [Hl Hp].
    fold used in Hlimit, Hplan. rewrite Hlimit, Hplan, Hl, Hp.
    split; reflexivity.
  - intros stats Hn. destruct (Hstats stats Hn) as (Ht & Hp & _).
    rewrite Ht, Hp, Hlimit, Hplan. split; reflexivity.
Qed.

(** A prediction for an exhausted budget is always produced when the
    clock is a valid date: the projected depletion instant is [now]. *)
Lemma calculatePredictionInfo_exhausted now used limit v ri s :
  limit <= used ->
  Z.abs now <= JS.maxTime ->
  exists p, calculatePredictionInfo now used limit v ri s = Normal p.
Proof.
  intros Hle Hnow. unfold calculatePredictionInfo.
  replace (Z.max 0 (limit - used)) with 0 by lia.
  destruct (JS.Qlt_bool 0 (current v)); [|eexists; reflexivity].
  assert (Hclip : exists t,
             JS.timeClip (inject_Z now + inject_Z 0 / current v * 60 * 60 * 1000)%Q
             = Some t).
  { unfold JS.timeClip.
    assert (E : (inject_Z now + inject_Z 0 / current v * 60 * 60 * 1000
                 == inject_Z now)%Q).
    { unfold Qdiv. change (inject_Z 0) with 0%Q. ring. }
    assert (Hb : Qle_bool
                   (Qabs (inject_Z now + inject_Z 0 / current v * 60 * 60 * 1000))
                   (inject_Z JS.maxTime) = true).
    { apply Qle_bool_iff. rewrite E. apply Qabs_Qle_condition.
      split.
      - change (- inject_Z JS.maxTime)%Q with (inject_Z (- JS.maxTime)).
        rewrite <- Zle_Qle. lia.
      - rewrite <- Zle_Qle. lia. }
    rewrite Hb. eexists. reflexivity. }
  destruct Hclip as [t Ht]. rewrite Ht. eexists. reflexivity.
Qed.

(** C3. In a recomputation whose active block totals 7,500 tokens, under
    the Pro plan and with no non-gap, non-active block, the plan is
    promoted to Custom and the effective token limit falls back to the
    7,000 tokens of the Pro tier; with a valid clock the snapshot is
    produced and reports both. *)
Theorem parseBlocksData_promotes_without_history now blocks dailyData s ab :
  findActiveBlock blocks = Some ab ->
  getTotalTokensFromBlock ab = 7500 ->
  currentPlan s = Pro ->
  historicalTotals blocks = [] ->
  let r := parseBlocksData now blocks dailyData s in
  currentPlan (snd r) = Custom
  /\ detectedTokenLimit (snd r) = 7000
  /\ (forall stats, fst r = Normal stats ->
        stats_currentPlan stats = Custom /\ tokenLimit stats = 7000)
  /\ (Z.abs now <= JS.maxTime -> exists stats, fst r = Normal stats).
Proof.
  intros Hab Hused Hplan Hnone r.
  destruct (parseBlocksData_active now blocks dailyData s ab Hab)
    as (Hp & Hl & _ & Hstats & Hthrow).
  fold r in Hp, Hl, Hstats, Hthrow.
  assert (Hauto : autoDetects
                    (currentPlan (set_currentActiveBlock (Some ab) s))
                    (getTotalTokensFromBlock ab)).
  { right. split; [exact Hplan|lia]. }
  destruct (resolveLimit_auto blocks _ _ Hauto) as [Hl1 Hp1].
  assert (Hmax : getMaxTokensFromBlocks blocks = 7000).
  { apply (proj2 (getMaxTokensFromBlocks_char blocks)).
    rewrite Hnone. intros t []. }
  rewrite Hl1, Hmax in Hl. rewrite Hp1 in Hp.
  split; [exact Hp|]. split; [exact Hl|]. split.
  - intros stats Hn. destruct (Hstats stats Hn) as (Ht & Hq & _).
    rewrite Hq, Ht, Hp1, Hl1, Hmax. split; reflexivity.
  - intros Hnow. destruct (fst r) as [stats|] eqn:Hr; [eexists; reflexivity|].
    exfalso. apply proj1 in Hthrow. specialize (Hthrow eq_refl).
    rewrite Hl1, Hmax, Hused in Hthrow.
    destruct (calculatePredictionInfo_exhausted now 7500 7000
                (calculateVelocityFromBlocks now blocks
                   (calculateHourlyBurnRate now blocks))
                (calculateResetInfo now
                   (resetTimeService
                      (resolveLimit blocks 7500 (set_currentActiveBlock (Some ab) s))))
                (resolveLimit blocks 7500 (set_currentActiveBlock (Some ab) s)))
      as [p Hpn]; [lia|exact Hnow|].
    congruence.
Qed.

(** *** Confidence *)

Lemma prediction_confidence now used limit v ri s p :
  calculatePredictionInfo now used limit v ri s = Normal p ->
  confidence p = JS.round (calculateConfidence v).
Proof.
  unfold calculatePredictionInfo.
  destruct (JS.Qlt_bool 0 (current v)).
  - destruct (JS.timeClip _); [|discriminate]. intros [= <-]. reflexivity.
  - intros [= <-]. reflexivity.
Qed.

(** C6. The confidence of a prediction starts at 50; when both the
    current and the 24-hour-average rates are positive it gains 30 and
    then loses 20 if the magnitude of the trend percent exceeds 50; the
    result, one of 50, 80 and 60, lies in [0, 95], so that clamping leaves
    it as it is. It is the value the specification words whenever both
    rates are positive or the magnitude of the trend percent is at most
    50. *)
Theorem calculatePredictionInfo_confidence now used limit v ri s p :
  calculatePredictionInfo now used limit v ri s = Normal p ->
  confidence p = JS.round (confidence_nested v)
  /\ 0 <= confidence p <= 95
  /\ (JS.Qlt_bool 0 (current v) && JS.Qlt_bool 0 (average24h v) = false ->
      confidence p = 50)
  /\ (JS.Qlt_bool 0 (current v) && JS.Qlt_bool 0 (average24h v) = true ->
      confidence p = if JS.Qlt_bool 50 (JS.abs (trendPercent v)) then 60 else 80)
  /\ (JS.Qlt_bool 0 (current v) && JS.Qlt_bool 0 (average24h v) = true
      \/ JS.Qlt_bool 50 (JS.abs (trendPercent v)) = false ->
      confidence p = JS.round (confidence_spec v)).
Proof.
  intros Hp. rewrite (prediction_confidence _ _ _ _ _ _ _ Hp).
  unfold confidence_nested, confidence_spec, calculateConfidence.
  destruct (JS.Qlt_bool 0 (current v) && JS.Qlt_bool 0 (average24h v));
    destruct (JS.Qlt_bool 50 (JS.abs (trendPercent v)));
    vm_compute; intuition congruence.
Qed.

(** *** Zero blocks *)

Lemma recompute_zero_blocks now dailyData s :
  let r := recompute now (Loaded (Some []) dailyData) s in
  loaderInvoked r = true
  /\ tokensUsed (snapshot r) = 0
  /\ percentageUsed (snapshot r) = 0%Q
  /\ actualResetInfo (snapshot r) = getTimeUntilActualReset now s.
Proof.
  unfold recompute.
  destruct (getDefaultStats_zeroed now dailyData s) as (Hu & Hp & _ & _ & _ & _ & Ha).
  destruct (getDefaultStats now dailyData s) as [stats s'].
  simpl in *. repeat split; assumption.
Qed.

(** With no active block on record the default snapshot says so. *)
Lemma zero_blocks_no_session now dailyData s :
  currentActiveBlock s = None ->
  formattedTimeRemaining
    (actualResetInfo (snapshot (recompute now (Loaded (Some []) dailyData) s)))
  = "No active session".
Proof.
  intros Hnone.
  destruct (recompute_zero_blocks now dailyData s) as (_ & _ & _ & Ha).
  rewrite Ha. unfold getTimeUntilActualReset, getActualNextResetTime.
  rewrite Hnone. reflexivity.
Qed.

(** With an active block on record from an earlier refresh, the default
    snapshot still counts down to the end of that block. *)
Lemma zero_blocks_stale_session now dailyData s b :
  currentActiveBlock s = Some b ->
  nextResetTime
    (actualResetInfo (snapshot (recompute now (Loaded (Some []) dailyData) s)))
  = Some (endTime b).
Proof.
  intros Hsome.
  destruct (recompute_zero_blocks now dailyData s) as (_ & _ & _ & Ha).
  rewrite Ha. unfold getTimeUntilActualReset, getActualNextResetTime.
  rewrite Hsome. reflexivity.
Qed.

End EngineProperties.

(** * Further properties of the engine and of the plan catalog *)

(** ** The plan catalog *)

(** The entries of the catalog, by name. *)
Lemma PLAN_DEFINITIONS_lookup name p :
  PLAN_DEFINITIONS !! name = Some p ->
  (name = "Pro" /\ p = proPlan) \/ (name = "Max5" /\ p = max5Plan)
  \/ (name = "Max20" /\ p = max20Plan) \/ (name = "Custom" /\ p = customPlan).
Proof.
  unfold PLAN_DEFINITIONS. intros H.
  destruct (decide (name = "Pro")) as [->|N1].
  { rewrite lookup_insert_eq in H. left. split; congruence. }
  rewrite lookup_insert_ne in H by congruence.
  destruct (decide (name = "Max5")) as [->|N2].
  { rewrite lookup_insert_eq in H. right; left. split; congruence. }
  rewrite lookup_insert_ne in H by congruence.
  destruct (decide (name = "Max20")) as [->|N3].
  { rewrite lookup_insert_eq in H. right; right; left. split; congruence. }
  rewrite lookup_insert_ne in H by congruence.
  destruct (decide (name = "Custom")) as [->|N4].
  { rewrite lookup_insert_eq in H. right; right; right. split; congruence. }
  rewrite lookup_insert_ne in H by congruence.
  rewrite lookup_empty in H. discriminate.
Qed.

(** X1. Every entry of the catalog is filed under its own name and is found
    again from its own token limit. *)
Theorem getPlanByTokenLimit_round_trip name p :
  PLAN_DEFINITIONS !! name = Some p ->
  pd_name p = name /\ getPlanByTokenLimit (pd_tokenLimit p) = p.
Proof.
  intros H.
  destruct (PLAN_DEFINITIONS_lookup name p H)
    as [[-> ->]|[[-> ->]|[[-> ->]|[-> ->]]]]; split; reflexivity.
Qed.

(** X2. The plan found for a token limit is an entry of the catalog; up to
    140,000 tokens its limit covers the given one and no entry with a
    smaller limit does, beyond 140,000 it is the Custom entry. *)
Theorem getPlanByTokenLimit_smallest n :
  PLAN_DEFINITIONS !! pd_name (getPlanByTokenLimit n) = Some (getPlanByTokenLimit n)
  /\ (n <= 140000 ->
      n <= pd_tokenLimit (getPlanByTokenLimit n)
      /\ forall name q, PLAN_DEFINITIONS !! name = Some q ->
                        n <= pd_tokenLimit q ->
                        pd_tokenLimit (getPlanByTokenLimit n) <= pd_tokenLimit q)
  /\ (140000 < n -> getPlanByTokenLimit n = customPlan).
Proof.
  unfold getPlanByTokenLimit.
  destruct (Z.leb_spec n 7000); [|destruct (Z.leb_spec n 35000);
    [|destruct (Z.leb_spec n 140000)]].
  all: split; [reflexivity|]; split; [|intros; try lia; reflexivity].
  all: intros Hle; split; [simpl; lia|].
  all: intros name q Hq Hn;
    destruct (PLAN_DEFINITIONS_lookup name q Hq)
      as [[_ ->]|[[_ ->]|[[_ ->]|[_ ->]]]]; simpl in *; lia.
Qed.

(** X3. The limits and the detection thresholds written in the service are
    those of the catalog. *)
Theorem service_agrees_with_catalog :
  (forall plan, exists p, PLAN_DEFINITIONS !! planName plan = Some p
                          /\ getTokenLimit plan = pd_tokenLimit p)
  /\ (forall n, pd_name (detectPlanFromUsage n) = planName (detectPlan n)
                /\ getTokenLimit (detectPlan n) = pd_tokenLimit (detectPlanFromUsage n)
                /\ detectPlanFromUsage n = getPlanByTokenLimit n).
Proof.
  split.
  - intros []; eexists; split; reflexivity.
  - intros n. unfold detectPlanFromUsage, detectPlan, getPlanByTokenLimit.
    destruct (n <=? 7000); [repeat split|].
    destruct (n <=? 35000); [repeat split|].
    destruct (n <=? 140000); repeat split.
Qed.

(** X4. A plan is detected again from its own limit, and the plan detected
    for a usage is the smallest one whose limit covers it. *)
Theorem detectPlan_getTokenLimit plan n :
  detectPlan (getTokenLimit plan) = plan
  /\ (n <= 500000 -> n <= getTokenLimit (detectPlan n))
  /\ (n <= getTokenLimit plan -> getTokenLimit (detectPlan n) <= getTokenLimit plan).
Proof.
  split; [destruct plan; reflexivity|].
  unfold detectPlan.
  destruct (Z.leb_spec n 7000); [|destruct (Z.leb_spec n 35000);
    [|destruct (Z.leb_spec n 140000)]]; split; intros; destruct plan; simpl in *; lia.
Qed.

(** ** The usage status *)

Lemma Qle_bool_false_lt (x y : Q) : Qle_bool x y = false -> (y < x)%Q.
Proof.
  intros H. apply Qnot_le_lt. intros Hle. apply Qle_bool_iff in Hle. congruence.
Qed.

Lemma getUsageStatus_cases x :
  (getUsageStatus x = critical /\ (90 <= x)%Q)
  \/ (getUsageStatus x = warning /\ (70 <= x)%Q /\ (x < 90)%Q)
  \/ (getUsageStatus x = safe /\ (x < 70)%Q).
Proof.
  unfold getUsageStatus.
  destruct (Qle_bool 90 x) eqn:H90.
  - left. split; [reflexivity|]. apply Qle_bool_iff. exact H90.
  - destruct (Qle_bool 70 x) eqn:H70.
    + right; left. split; [reflexivity|]. split.
      * apply Qle_bool_iff. exact H70.
      * apply Qle_bool_false_lt. exact H90.
    + right; right. split; [reflexivity|]. apply Qle_bool_false_lt. exact H70.
Qed.

(** X5. The status is critical from 90 percent on, a warning from 70 to
    below 90 and safe below 70, so it never falls when the percentage
    rises. *)
Theorem getUsageStatus_thresholds p q :
  (getUsageStatus p = critical <-> (90 <= p)%Q)
  /\ (getUsageStatus p = warning <-> (70 <= p)%Q /\ (p < 90)%Q)
  /\ (getUsageStatus p = safe <-> (p < 70)%Q)
  /\ ((p <= q)%Q -> statusRank (getUsageStatus p) <= statusRank (getUsageStatus q)).
Proof.
  pose proof getUsageStatus_cases as Hchar.
  assert (H7090 : (70 < 90)%Q) by reflexivity.
  split; [split|split; [split|split; [split|]]].
  - intros E. destruct (Hchar p) as [[_ H]|[[E' _]|[E' _]]]; [exact H|congruence..].
  - intros H. destruct (Hchar p) as [[E _]|[[_ [_ H']]|[_ H']]]; [exact E|exfalso..].
    + exact (Qlt_not_le _ _ H' H).
    + apply (Qlt_not_le _ _ H'). apply Qlt_le_weak.
      eapply Qlt_le_trans; [exact H7090|exact H].
  - intros E. destruct (Hchar p) as [[E' _]|[[_ H]|[E' _]]]; [congruence|exact H|congruence].
  - intros [H1 H2]. destruct (Hchar p) as [[_ H]|[[E _]|[_ H]]]; [exfalso|exact E|exfalso].
    + exact (Qlt_not_le _ _ H2 H).
    + exact (Qlt_not_le _ _ H H1).
  - intros E. destruct (Hchar p) as [[E' _]|[[E' _]|[_ H]]]; [congruence..|exact H].
  - intros H. destruct (Hchar p) as [[_ H']|[[_ [H' _]]|[E _]]]; [exfalso..|exact E].
    + apply (Qlt_not_le _ _ H). apply Qlt_le_weak.
      eapply Qlt_le_trans; [exact H7090|exact H'].
    + exact (Qlt_not_le _ _ H H').
  - intros Hpq.
    destruct (Hchar p) as [[-> Hp]|[[-> [Hp1 Hp2]]|[-> Hp]]];
      destruct (Hchar q) as [[-> Hq]|[[-> [Hq1 Hq2]]|[-> Hq]]]; simpl; try lia; exfalso.
    + apply (Qlt_not_le _ _ Hq2). eapply Qle_trans; [exact Hp|exact Hpq].
    + apply (Qlt_not_le _ _ Hq). apply Qlt_le_weak.
      eapply Qlt_le_trans; [exact H7090|]. eapply Qle_trans; [exact Hp|exact Hpq].
    + apply (Qlt_not_le _ _ Hq). eapply Qle_trans; [exact Hp1|exact Hpq].
Qed.

(** ** Order of the blocks *)

Lemma fold_left_commuting {A B : Type} (f : A -> B -> A) :
  (forall a x y, f (f a x) y = f (f a y) x) ->
  forall l l', Permutation l l' -> forall a, fold_left f l a = fold_left f l' a.
Proof.
  intros Hcomm l l' Hp.
  induction Hp as [|x l l' _ IH|x y l|l l' l'' _ IH1 _ IH2]; intros a; simpl.
  - reflexivity.
  - apply IH.
  - rewrite Hcomm. reflexivity.
  - rewrite IH1. apply IH2.
Qed.

Lemma filter_Permutation_bool {A : Type} (p : A -> bool) (l l' : list A) :
  Permutation l l' -> Permutation (List.filter p l) (List.filter p l').
Proof.
  intros Hp.
  induction Hp as [|x l l' _ IH|x y l|l l' l'' _ IH1 _ IH2]; simpl.
  - constructor.
  - destruct (p x); [constructor|]; exact IH.
  - destruct (p x), (p y); try reflexivity. constructor.
  - etransitivity; eassumption.
Qed.

Lemma sumTokens_Permutation (l l' : list SessionBlock) :
  Permutation l l' -> sumTokens l = sumTokens l'.
Proof.
  intros Hp. unfold sumTokens.
  apply fold_left_commuting; [|exact Hp]. intros a x y. lia.
Qed.

Lemma maxTokensStep_commutes m x y :
  maxTokensStep (maxTokensStep m x) y = maxTokensStep (maxTokensStep m y) x.
Proof.
  rewrite !maxTokensStep_max.
  destruct (isHistorical x), (isHistorical y); lia.
Qed.

(** X6. The detected limit and the 24-hour and 7-day totals, with the
    velocity built on them from a given burn rate, do not depend on the
    order in which the loader lists the blocks. *)
Theorem aggregates_ignore_block_order now blocks blocks' currentBurnRate rate :
  Permutation blocks blocks' ->
  getMaxTokensFromBlocks blocks = getMaxTokensFromBlocks blocks'
  /\ tokens24h now blocks = tokens24h now blocks'
  /\ tokens7d now blocks = tokens7d now blocks'
  /\ calculateVelocityFromBlocks now blocks currentBurnRate
     = calculateVelocityFromBlocks now blocks' currentBurnRate
  /\ Binary64.calculateVelocityFromBlocks now blocks rate
     = Binary64.calculateVelocityFromBlocks now blocks' rate.
Proof.
  intros Hp.
  assert (H24 : tokens24h now blocks = tokens24h now blocks').
  { unfold tokens24h, blocksSince.
    apply sumTokens_Permutation, filter_Permutation_bool, Hp. }
  assert (H7 : tokens7d now blocks = tokens7d now blocks').
  { unfold tokens7d, blocksSince.
    apply sumTokens_Permutation, filter_Permutation_bool, Hp. }
  split.
  { unfold getMaxTokensFromBlocks.
    rewrite (fold_left_commuting maxTokensStep maxTokensStep_commutes _ _ Hp 0).
    reflexivity. }
  split; [exact H24|]. split; [exact H7|]. split.
  { unfold calculateVelocityFromBlocks. rewrite H24, H7. reflexivity. }
  unfold Binary64.calculateVelocityFromBlocks. rewrite H24, H7. reflexivity.
Qed.

(** ** Bounds of the detected limit *)

Lemma getMaxTokensFromBlocks_pos blocks : 0 < getMaxTokensFromBlocks blocks.
Proof.
  unfold getMaxTokensFromBlocks. rewrite maxTokens_fold. cbv zeta.
  destruct (Z.ltb_spec 0 (fold_right Z.max 0 (historicalTotals blocks))); lia.
Qed.

(** X7. The limit detected from the history is always positive, so a
    percentage is never computed against a limit of 0; and it is at least
    every historical total. *)
Theorem getMaxTokensFromBlocks_positive blocks :
  0 < getMaxTokensFromBlocks blocks
  /\ forall b, In b blocks -> gap b = false -> isActive b = false ->
               getTotalTokensFromBlock b <= getMaxTokensFromBlocks blocks.
Proof.
  split; [apply getMaxTokensFromBlocks_pos|].
  unfold getMaxTokensFromBlocks. rewrite maxTokens_fold. cbv zeta.
  destruct (fold_right_max_ge (historicalTotals blocks) 0) as [H0 Hge].
  intros b Hin Hg Ha.
  assert (Hin' : In (getTotalTokensFromBlock b) (historicalTotals blocks)).
  { unfold historicalTotals. apply in_map. apply filter_In. split; [exact Hin|].
    unfold isHistorical. rewrite Hg, Ha. reflexivity. }
  specialize (Hge _ Hin').
  destruct (Z.ltb_spec 0 (fold_right Z.max 0 (historicalTotals blocks))); lia.
Qed.

(** ** The velocity windows *)

Lemma sumTokens_fold_right (l : list SessionBlock) :
  sumTokens l = fold_right Z.add 0 (map getTotalTokensFromBlock l).
Proof.
  unfold sumTokens.
  assert (H : forall a, fold_left (fun t block => t + getTotalTokensFromBlock block) l a
                        = a + fold_right Z.add 0 (map getTotalTokensFromBlock l)).
  { induction l as [|b l IH]; intros a; simpl; [lia|]. rewrite IH. lia. }
  rewrite H. lia.
Qed.

Lemma blocksSince_sums (since since' : Z) (blocks : list SessionBlock) :
  since' <= since ->
  (forall b, In b blocks -> 0 <= getTotalTokensFromBlock b) ->
  0 <= sumTokens (blocksSince since blocks)
  /\ sumTokens (blocksSince since blocks) <= sumTokens (blocksSince since' blocks).
Proof.
  intros Hle. rewrite !sumTokens_fold_right. unfold blocksSince.
  induction blocks as [|b l IH]; intros Hall; simpl; [lia|].
  destruct IH as [IH0 IH1]; [intros x Hx; apply Hall; right; exact Hx|].
  specialize (Hall b (or_introl eq_refl)).
  destruct (gap b); simpl; [lia|].
  destruct (Z.leb_spec since (startTime b)); destruct (Z.leb_spec since' (startTime b));
    simpl; lia.
Qed.

(** X9. With token counts that are not negative, the blocks of the last 24
    hours are among those of the last 7 days: the 24-hour total is between 0
    and the 7-day total. *)
Theorem velocity_windows_nested now blocks :
  (forall b, In b blocks -> 0 <= getTotalTokensFromBlock b) ->
  0 <= tokens24h now blocks <= tokens7d now blocks.
Proof.
  intros Hall.
  destruct (blocksSince_sums (now - 24 * 60 * 60 * 1000)
              (now - 7 * 24 * 60 * 60 * 1000) blocks) as [H0 H1]; [lia|exact Hall|].
  fold (tokens24h now blocks) in H0, H1. fold (tokens7d now blocks) in H1.
  lia.
Qed.

Lemma round1_wd (x y : Q) : (x == y)%Q -> (JS.round1 x == JS.round1 y)%Q.
Proof.
  intros H. unfold JS.round1, JS.round.
  assert (E : Qfloor (x * 10 + (1 # 2)) = Qfloor (y * 10 + (1 # 2))).
  { apply Qfloor_comp. rewrite H. reflexivity. }
  rewrite E. reflexivity.
Qed.

Lemma average24h_positive now blocks currentBurnRate :
  0 < tokens24h now blocks ->
  (0 < average24h (calculateVelocityFromBlocks now blocks currentBurnRate))%Q.
Proof.
  intros H. cbn [average24h calculateVelocityFromBlocks].
  apply Qlt_shift_div_l; [reflexivity|]. rewrite Qmult_0_l.
  change 0%Q with (inject_Z 0). rewrite <- Zlt_Qlt. exact H.
Qed.

(** X10. When nothing was burnt in the trailing hour but tokens were used
    in the last 24 hours, the trend percent is -100, the trend is
    decreasing and the consumption is not accelerating. *)
Theorem idle_hour_is_decreasing now blocks currentBurnRate :
  (currentBurnRate == 0)%Q ->
  0 < tokens24h now blocks ->
  (trendPercent (calculateVelocityFromBlocks now blocks currentBurnRate) == -(100))%Q
  /\ trend (calculateVelocityFromBlocks now blocks currentBurnRate) = decreasing
  /\ isAccelerating (calculateVelocityFromBlocks now blocks currentBurnRate) = false.
Proof.
  intros Hzero Hpos.
  pose proof (average24h_positive now blocks currentBurnRate Hpos) as Havg.
  set (v := calculateVelocityFromBlocks now blocks currentBurnRate) in *.
  assert (Hraw : (rawTrendPercent currentBurnRate (average24h v) == -(100))%Q).
  { unfold rawTrendPercent.
    apply Qlt_bool_iff in Havg as Hb. rewrite Hb. rewrite Hzero. field.
    intros E. rewrite E in Havg. exact (Qlt_irrefl 0 Havg). }
  assert (Hdec : classifyTrend (rawTrendPercent currentBurnRate (average24h v))
                 = decreasing).
  { apply classifyTrend_decreasing. rewrite Hraw. reflexivity. }
  split; [|split].
  - change (trendPercent v)
      with (JS.round1 (rawTrendPercent currentBurnRate (average24h v))).
    rewrite (round1_wd _ _ Hraw). reflexivity.
  - exact Hdec.
  - change (isAccelerating v)
      with (bool_decide
              (classifyTrend (rawTrendPercent currentBurnRate (average24h v))
               = increasing)
            && JS.Qlt_bool 20 (rawTrendPercent currentBurnRate (average24h v))).
    rewrite Hdec. reflexivity.
Qed.

(** X11. When the blocks of the last 24 hours hold no tokens, the quotient
    is not taken: the trend percent is 0, the trend is stable and the
    consumption is not accelerating, whatever the current burn rate. *)
Theorem empty_day_is_stable now blocks currentBurnRate :
  tokens24h now blocks <= 0 ->
  (trendPercent (calculateVelocityFromBlocks now blocks currentBurnRate) == 0)%Q
  /\ trend (calculateVelocityFromBlocks now blocks currentBurnRate) = stable
  /\ isAccelerating (calculateVelocityFromBlocks now blocks currentBurnRate) = false.
Proof.
  intros Hle.
  assert (Hb : JS.Qlt_bool 0 (inject_Z (tokens24h now blocks) / 24) = false).
  { apply Qlt_bool_false_iff. apply Qle_shift_div_r; [reflexivity|].
    rewrite Qmult_0_l. change 0%Q with (inject_Z 0). rewrite <- Zle_Qle. exact Hle. }
  unfold calculateVelocityFromBlocks, rawTrendPercent. cbv zeta.
  cbn [trendPercent trend isAccelerating]. rewrite Hb.
  split; [reflexivity|]. split; reflexivity.
Qed.

(** ** The fold of the blocks into days *)

Lemma addBlock_date b d : du_date (addBlock b d) = du_date d.
Proof. reflexivity. Qed.

Lemma dailyUpdate_dates date b l :
  map du_date (dailyUpdate date (addBlock b) l) = map du_date l.
Proof.
  unfold dailyUpdate. induction l as [|d l IH]; simpl; [reflexivity|].
  rewrite IH. destruct (String.eqb (du_date d) date); reflexivity.
Qed.

Lemma dailyHas_In date l : dailyHas date l = true <-> In date (map du_date l).
Proof.
  unfold dailyHas. rewrite existsb_exists, in_map_iff. split.
  - intros (d & Hin & He). apply String.eqb_eq in He. exists d. split; assumption.
  - intros (d & He & Hin). exists d. split; [exact Hin|]. apply String.eqb_eq. exact He.
Qed.

Lemma dailyUpdate_absent date f l :
  ~ In date (map du_date l) -> dailyUpdate date f l = l.
Proof.
  unfold dailyUpdate. induction l as [|d l IH]; simpl; intros Hn; [reflexivity|].
  destruct (String.eqb_spec (du_date d) date) as [E|_].
  - exfalso. apply Hn. left. exact E.
  - rewrite IH; [reflexivity|]. intros H. apply Hn. right. exact H.
Qed.

Lemma dailyStep_unfold dm b :
  dailyStep dm b
  = if gap b then dm
    else dailyUpdate (JSDate.isoDate (startTime b)) (addBlock b)
                     (withDay (JSDate.isoDate (startTime b)) dm).
Proof. reflexivity. Qed.

Lemma withDay_dates date dm :
  NoDup (map du_date dm) ->
  NoDup (map du_date (withDay date dm)) /\ In date (map du_date (withDay date dm)).
Proof.
  intros Hnd. unfold withDay.
  destruct (dailyHas date dm) eqn:Hhas.
  - split; [exact Hnd|]. apply dailyHas_In. exact Hhas.
  - assert (Hn : ~ In date (map du_date dm)).
    { intros H. apply dailyHas_In in H. congruence. }
    rewrite map_app. simpl. split.
    + apply NoDup_app. split; [exact Hnd|]. split.
      * intros x Hx Hx'. apply list_elem_of_In in Hx, Hx'.
        destruct Hx' as [<-|[]]. contradiction.
      * apply NoDup_singleton.
    + apply in_or_app. right. left. reflexivity.
Qed.

Lemma withDay_totals date dm : dayTokens (withDay date dm) = dayTokens dm.
Proof.
  unfold withDay, dayTokens. destruct (dailyHas date dm); [reflexivity|].
  rewrite !map_app. simpl.
  induction (map du_totalTokens dm) as [|x l IH]; simpl; lia.
Qed.

Lemma dailyUpdate_totals date b l :
  NoDup (map du_date l) ->
  In date (map du_date l) ->
  dayTokens (dailyUpdate date (addBlock b) l)
  = dayTokens l + getTotalTokensFromBlock b.
Proof.
  unfold dayTokens.
  induction l as [|d l IH]; simpl; intros Hnd Hin; [contradiction|].
  apply NoDup_cons in Hnd as [Hnot Hnd].
  rewrite list_elem_of_In in Hnot.
  destruct (String.eqb_spec (du_date d) date) as [E|N].
  - subst date. fold (dailyUpdate (du_date d) (addBlock b) l).
    rewrite (dailyUpdate_absent _ _ _ Hnot). simpl. lia.
  - destruct Hin as [E|Hin]; [contradiction|].
    pose proof (IH Hnd Hin) as IHt.
    fold (dailyUpdate date (addBlock b) l) in *.
    rewrite IHt. lia.
Qed.

Lemma dailyStep_invariant dm b :
  NoDup (map du_date dm) ->
  NoDup (map du_date (dailyStep dm b))
  /\ dayTokens (dailyStep dm b)
     = dayTokens dm + (if gap b then 0 else getTotalTokensFromBlock b).
Proof.
  intros Hnd. rewrite dailyStep_unfold. destruct (gap b).
  - split; [exact Hnd|lia].
  - destruct (withDay_dates (JSDate.isoDate (startTime b)) dm Hnd) as [Hnd' Hin].
    pose proof (withDay_totals (JSDate.isoDate (startTime b)) dm) as Ht.
    pose proof (dailyUpdate_totals _ b _ Hnd' Hin) as Ht'.
    split; [rewrite dailyUpdate_dates; exact Hnd'|].
    rewrite Ht', Ht. reflexivity.
Qed.

Lemma blockTotals_cons b l :
  blockTokens (b :: l)
  = (if gap b then 0 else getTotalTokensFromBlock b) + blockTokens l.
Proof.
  unfold blockTokens, withoutGaps, notGap. cbn [List.filter].
  destruct (gap b); cbn [negb map fold_right]; lia.
Qed.

Lemma daily_fold_invariant blocks dm :
  NoDup (map du_date dm) ->
  NoDup (map du_date (fold_left dailyStep blocks dm))
  /\ dayTokens (fold_left dailyStep blocks dm) = dayTokens dm + blockTokens blocks.
Proof.
  revert dm. induction blocks as [|b l IH]; intros dm Hnd.
  - split; [exact Hnd|]. unfold blockTokens. simpl. lia.
  - destruct (dailyStep_invariant dm b Hnd) as (Hnd' & Ht).
    destruct (IH _ Hnd') as (Hnd'' & Ht').
    pose proof (blockTotals_cons b l) as Et.
    cbn [fold_left]. split; [exact Hnd''|].
    rewrite Ht', Ht, Et. lia.
Qed.

Lemma insertByDate_Permutation d l : Permutation (insertByDate d l) (d :: l).
Proof.
  induction l as [|e l IH]; simpl; [reflexivity|].
  destruct (String.leb (du_date e) (du_date d)); [|reflexivity].
  rewrite IH. apply perm_swap.
Qed.

Lemma sortByDate_Permutation l : Permutation (sortByDate l) l.
Proof.
  unfold sortByDate.
  assert (H : forall acc, Permutation
                            (fold_left (fun sorted d => insertByDate d sorted) l acc)
                            (acc ++ l)).
  { induction l as [|d l IH]; intros acc; simpl.
    - rewrite app_nil_r. reflexivity.
    - rewrite IH, insertByDate_Permutation.
      change (d :: acc ++ l) with ((d :: acc) ++ l).
      rewrite (Permutation_middle acc l d). reflexivity. }
  exact (H []).
Qed.

Lemma dayTokens_Permutation l l' : Permutation l l' -> dayTokens l = dayTokens l'.
Proof.
  intros Hp. unfold dayTokens.
  induction Hp as [|x l l' _ IH|x y l|l l' l'' _ IH1 _ IH2]; simpl; lia.
Qed.

(** X12. Folding the blocks into days loses and invents no token: the
    daily totals add up to the tokens of the non-gap blocks. *)
Theorem convertBlocksToDailyUsage_conserves blocks :
  dayTokens (convertBlocksToDailyUsage blocks) = blockTokens blocks.
Proof.
  unfold convertBlocksToDailyUsage.
  destruct (daily_fold_invariant blocks [] (NoDup_nil_2 (A := string))) as (_ & Ht).
  pose proof (sortByDate_Permutation (fold_left dailyStep blocks [])) as Hp.
  rewrite (dayTokens_Permutation _ _ Hp), Ht. reflexivity.
Qed.

Lemma insertByDate_HdRel a d l :
  lebDate a d -> HdRel lebDate a l -> HdRel lebDate a (insertByDate d l).
Proof.
  intros Had Hl. destruct l as [|e l]; simpl; [constructor; exact Had|].
  destruct (String.leb (du_date e) (du_date d)).
  - constructor. inversion Hl; assumption.
  - constructor. exact Had.
Qed.

Lemma insertByDate_Sorted d l :
  Sorted lebDate l -> Sorted lebDate (insertByDate d l).
Proof.
  induction l as [|e l IH]; simpl; intros Hs.
  - constructor; constructor.
  - inversion Hs as [|? ? Hs' Hhd]; subst.
    destruct (String.leb (du_date e) (du_date d)) eqn:He.
    + constructor; [apply IH; exact Hs'|].
      apply insertByDate_HdRel; [exact He|exact Hhd].
    + constructor; [exact Hs|]. constructor.
      unfold lebDate. destruct (String.leb_total (du_date d) (du_date e)); congruence.
Qed.

Lemma sortByDate_Sorted l : Sorted lebDate (sortByDate l).
Proof.
  unfold sortByDate.
  assert (H : forall acc, Sorted lebDate acc ->
                          Sorted lebDate
                            (fold_left (fun sorted d => insertByDate d sorted) l acc)).
  { induction l as [|d l IH]; intros acc Hs; simpl; [exact Hs|].
    apply IH, insertByDate_Sorted, Hs. }
  apply H. constructor.
Qed.

Lemma Sorted_strict l :
  Sorted lebDate l -> NoDup (map du_date l) -> Sorted dateBefore l.
Proof.
  induction l as [|d l IH]; intros Hs Hnd; [constructor|].
  inversion Hs as [|? ? Hs' Hhd]; subst.
  simpl in Hnd. apply NoDup_cons in Hnd as [Hnot Hnd].
  constructor; [apply IH; assumption|].
  destruct l as [|e l]; constructor.
  inversion Hhd; subst. split; [assumption|].
  intros E. apply Hnot. rewrite E. simpl. left.
Qed.

(** X13. The days folded from the blocks come in strictly ascending order
    of their dates: no date occurs twice. *)
Theorem convertBlocksToDailyUsage_sorted blocks :
  Sorted dateBefore (convertBlocksToDailyUsage blocks)
  /\ NoDup (map du_date (convertBlocksToDailyUsage blocks)).
Proof.
  unfold convertBlocksToDailyUsage.
  destruct (daily_fold_invariant blocks [] (NoDup_nil_2 (A := string))) as (Hnd & _).
  assert (Hnd' : NoDup (map du_date (sortByDate (fold_left dailyStep blocks [])))).
  { rewrite (Permutation_map du_date
               (sortByDate_Permutation (fold_left dailyStep blocks []))).
    exact Hnd. }
  split; [|exact Hnd'].
  apply Sorted_strict; [apply sortByDate_Sorted|exact Hnd'].
Qed.

(** ** The models of a day *)

Lemma modelTokens_commutes (z1 z2 : ModelUsage) (y : Z) :
  mu_tokens z1 + (mu_tokens z2 + y) = mu_tokens z2 + (mu_tokens z1 + y).
Proof. lia. Qed.

Lemma modelTokens_insert (ms : gmap string ModelUsage) model v :
  modelTokens (<[model := v]> ms)
  = mu_tokens v + modelTokens ms
    - match ms !! model with Some cur => mu_tokens cur | None => 0 end.
Proof.
  unfold modelTokens. destruct (ms !! model) as [cur|] eqn:Hl.
  - rewrite <- insert_delete_eq.
    rewrite map_fold_insert_L;
      [|intros; apply modelTokens_commutes|apply lookup_delete_eq].
    rewrite (map_fold_delete_L _ _ model cur ms);
      [|intros; apply modelTokens_commutes|exact Hl].
    lia.
  - rewrite map_fold_insert_L; [|intros; apply modelTokens_commutes|exact Hl]. lia.
Qed.

Lemma modelStep_tokens t c n ms model :
  modelTokens (modelStep t c n ms model) = modelTokens ms + t / Z.of_nat n.
Proof.
  unfold modelStep. rewrite modelTokens_insert.
  destruct (ms !! model); simpl; lia.
Qed.

Lemma modelStep_fold_tokens t c n models ms :
  modelTokens (fold_left (modelStep t c n) models ms)
  = modelTokens ms + Z.of_nat (length models) * (t / Z.of_nat n).
Proof.
  revert ms. induction models as [|m l IH]; intros ms.
  - simpl. lia.
  - cbn [fold_left length]. rewrite IH, modelStep_tokens. lia.
Qed.

Lemma addBlock_models b d :
  0 <= getTotalTokensFromBlock b ->
  modelTokens (du_models d) <= du_totalTokens d ->
  modelTokens (du_models (addBlock b d)) <= du_totalTokens (addBlock b d).
Proof.
  intros Ht Hd. unfold addBlock. cbn [du_models du_totalTokens].
  rewrite modelStep_fold_tokens.
  set (n := length (List.filter (fun m => negb (isSynthetic m)) (models b))).
  assert (Z.of_nat n * (getTotalTokensFromBlock b / Z.of_nat n)
          <= getTotalTokensFromBlock b).
  { destruct n as [|k]; [simpl; lia|]. apply Z.mul_div_le. lia. }
  lia.
Qed.

Lemma modelStep_other t c n ms model name :
  model <> name -> modelStep t c n ms model !! name = ms !! name.
Proof. intros Hne. unfold modelStep. apply lookup_insert_ne. exact Hne. Qed.

Lemma addBlock_synthetic b d :
  du_models d !! "<synthetic>" = None ->
  du_models (addBlock b d) !! "<synthetic>" = None.
Proof.
  intros Hd. unfold addBlock. cbn [du_models].
  set (real := List.filter (fun m => negb (isSynthetic m)) (models b)).
  assert (Hreal : Forall (fun m => m <> "<synthetic>") real).
  { apply Forall_forall. intros m Hm. apply list_elem_of_In in Hm.
    apply filter_In in Hm as [_ Hm]. unfold isSynthetic in Hm.
    intros ->. simpl in Hm. discriminate. }
  generalize (length real). intros n.
  revert Hd. generalize (du_models d). induction Hreal as [|m l Hm _ IH]; intros ms Hms.
  - exact Hms.
  - cbn [fold_left]. apply IH. rewrite modelStep_other; assumption.
Qed.

(** A property of days that the empty day has and every block keeps holds
    of every day folded from the blocks. *)
Lemma convertBlocksToDailyUsage_Forall (P : DailyUsage -> Prop) (Q : SessionBlock -> Prop) blocks :
  (forall date, P {| du_date := date; du_totalTokens := 0;
                     du_totalCost := 0; du_models := ∅ |}) ->
  (forall b d, Q b -> P d -> P (addBlock b d)) ->
  (forall b, In b blocks -> Q b) ->
  Forall P (convertBlocksToDailyUsage blocks).
Proof.
  intros Hempty Hadd HQ. unfold convertBlocksToDailyUsage.
  eapply Permutation_Forall; [symmetry; apply sortByDate_Permutation|].
  assert (H : forall dm, Forall P dm -> Forall P (fold_left dailyStep blocks dm)).
  { induction blocks as [|b l IH]; intros dm Hdm; [exact Hdm|].
    cbn [fold_left]. apply IH; [intros x Hx; apply HQ; right; exact Hx|].
    rewrite dailyStep_unfold. destruct (gap b); [exact Hdm|].
    assert (Hwith : Forall P (withDay (JSDate.isoDate (startTime b)) dm)).
    { unfold withDay. destruct (dailyHas _ dm); [exact Hdm|].
      apply Forall_app. split; [exact Hdm|]. constructor; [apply Hempty|constructor]. }
    unfold dailyUpdate. apply Forall_forall. intros d Hd.
    apply list_elem_of_In in Hd. apply in_map_iff in Hd as (d0 & <- & Hd0).
    rewrite Forall_forall in Hwith.
    specialize (Hwith d0 (proj2 (list_elem_of_In _ _) Hd0)).
    destruct (String.eqb (du_date d0) _); [|exact Hwith].
    apply Hadd; [|exact Hwith]. apply HQ. left. reflexivity. }
  apply H. constructor.
Qed.

(** X14. With token counts that are not negative, the tokens attributed to
    the models of a folded day never add up to more than the total of that
    day: dividing a block evenly among its models rounds down. *)
Theorem convertBlocksToDailyUsage_models_bounded blocks :
  (forall b, In b blocks -> 0 <= getTotalTokensFromBlock b) ->
  Forall (fun d => modelTokens (du_models d) <= du_totalTokens d)
         (convertBlocksToDailyUsage blocks).
Proof.
  intros Hall.
  apply (convertBlocksToDailyUsage_Forall _
           (fun b => 0 <= getTotalTokensFromBlock b)).
  - intros date. simpl. unfold modelTokens. rewrite map_fold_empty. lia.
  - intros b d Hb Hd. apply addBlock_models; assumption.
  - exact Hall.
Qed.

(** X15. No folded day lists the synthetic model. *)
Theorem convertBlocksToDailyUsage_no_synthetic blocks :
  Forall (fun d => du_models d !! "<synthetic>" = None)
         (convertBlocksToDailyUsage blocks).
Proof.
  apply (convertBlocksToDailyUsage_Forall _ (fun _ => True)).
  - intros date. simpl. apply lookup_empty.
  - intros b d _ Hd. apply addBlock_synthetic. exact Hd.
  - intros; exact I.
Qed.

(** ** The days supplied by the loader *)

Lemma find_snoc {A : Type} (p : A -> bool) (l : list A) (x : A) :
  List.find p (l ++ [x])
  = match List.find p l with
    | Some y => Some y
    | None => if p x then Some x else None
    end.
Proof.
  induction l as [|a l IH]; simpl; [reflexivity|].
  destruct (p a); [reflexivity|exact IH].
Qed.

Lemma breakdown_fold_lookup (l : list ModelBreakdown) (acc : gmap string ModelUsage) name :
  fold_left breakdownStep l acc !! name
  = match List.find (fun mb => String.eqb (mb_modelName mb) name) (rev l) with
    | Some mb => Some (usageOfBreakdown mb)
    | None => acc !! name
    end.
Proof.
  revert acc. induction l as [|mb l IH]; intros acc; [reflexivity|].
  cbn [fold_left rev]. rewrite IH, find_snoc.
  destruct (List.find _ (rev l)); [reflexivity|].
  unfold breakdownStep.
  destruct (String.eqb_spec (mb_modelName mb) name) as [->|N].
  - rewrite lookup_insert_eq. reflexivity.
  - rewrite lookup_insert_ne by exact N. reflexivity.
Qed.

Lemma find_filter_implied {A : Type} (p q : A -> bool) (l : list A) :
  (forall x, p x = true -> q x = true) ->
  List.find p (List.filter q l) = List.find p l.
Proof.
  intros Himp. induction l as [|a l IH]; simpl; [reflexivity|].
  destruct (q a) eqn:Hq; simpl.
  - rewrite IH. reflexivity.
  - destruct (p a) eqn:Hp; [|exact IH].
    rewrite (Himp a Hp) in Hq. discriminate.
Qed.

Lemma filter_rev_bool {A : Type} (q : A -> bool) (l : list A) :
  rev (List.filter q l) = List.filter q (rev l).
Proof.
  induction l as [|a l IH]; simpl; [reflexivity|].
  rewrite List.filter_app. simpl. destruct (q a); simpl.
  - rewrite IH. reflexivity.
  - rewrite IH, app_nil_r. reflexivity.
Qed.

(** X16. The models of a day supplied by the loader never include the
    synthetic model, and a model that occurs in several breakdowns of the
    day carries the figures of the last of them: breakdowns overwrite each
    other, they are not added up. *)
Theorem processDay_models day name :
  du_models (processDay day) !! "<synthetic>" = None
  /\ (name <> "<synthetic>" ->
      du_models (processDay day) !! name
      = usageOfBreakdown
          <$> List.find (fun mb => String.eqb (mb_modelName mb) name)
                        (rev (dd_modelBreakdowns day))).
Proof.
  unfold processDay. cbn [du_models].
  set (real := fun mb => negb (isSynthetic (mb_modelName mb))).
  split.
  - rewrite breakdown_fold_lookup, filter_rev_bool.
    destruct (List.find _ (List.filter real (rev (dd_modelBreakdowns day))))
      as [mb|] eqn:Hf; [|apply lookup_empty].
    exfalso. apply find_some in Hf as [Hin He].
    apply filter_In in Hin as [_ Hreal]. apply String.eqb_eq in He.
    unfold real, isSynthetic in Hreal. rewrite He in Hreal. discriminate.
  - intros Hname. rewrite breakdown_fold_lookup, filter_rev_bool.
    rewrite find_filter_implied.
    + destruct (List.find _ (rev (dd_modelBreakdowns day))); [reflexivity|].
      rewrite lookup_empty. reflexivity.
    + intros mb He. apply String.eqb_eq in He. unfold real, isSynthetic.
      rewrite He. destruct (String.eqb_spec name "<synthetic>"); [contradiction|reflexivity].
Qed.

Lemma quot_lower_bound (n : Z) (x : Q) :
  (inject_Z n <= x)%Q -> n <= Z.quot (Qnum x) (Zpos (Qden x)).
Proof.
  destruct x as [num den]. unfold Qle, inject_Z. simpl. intros H.
  pose proof (Z.quot_rem' num (Zpos den)) as Hqr.
  destruct (Z_le_gt_dec 0 num) as [Hpos|Hneg].
  - pose proof (Z.rem_bound_pos num (Zpos den) Hpos ltac:(lia)). nia.
  - pose proof (Z.rem_bound_pos_neg num (Zpos den) ltac:(lia) ltac:(lia)). nia.
Qed.

(** ** Aggregation by model *)

Lemma Zsum_app (l k : list Z) :
  fold_right Z.add 0 (l ++ k) = fold_right Z.add 0 l + fold_right Z.add 0 k.
Proof. induction l as [|x l IH]; simpl; lia. Qed.

Lemma aggregateModelData_tokens mb models :
  modelTokens (aggregateModelData mb models)
  = modelTokens models + aggregatedTokens mb.
Proof.
  unfold aggregateModelData, aggregatedTokens. cbv zeta.
  rewrite modelTokens_insert.
  destruct (models !! _); simpl; lia.
Qed.

Lemma aggregateModelData_no_empty_name mb models :
  models !! "" = None -> aggregateModelData mb models !! "" = None.
Proof.
  intros H. unfold aggregateModelData. cbv zeta.
  destruct (String.eqb_spec (mb_modelName mb) "") as [E|N].
  - rewrite lookup_insert_ne by discriminate. exact H.
  - rewrite lookup_insert_ne by exact N. exact H.
Qed.

Lemma aggregate_fold l models :
  modelTokens (fold_left (fun models mb => aggregateModelData mb models) l models)
  = modelTokens models + fold_right Z.add 0 (map aggregatedTokens l)
  /\ (models !! "" = None ->
      fold_left (fun models mb => aggregateModelData mb models) l models !! ""
      = None).
Proof.
  revert models. induction l as [|mb l IH]; intros models; cbn [fold_left map fold_right].
  - split; [lia|intros H; exact H].
  - destruct (IH (aggregateModelData mb models)) as [IHt IHn]. split.
    + rewrite IHt, aggregateModelData_tokens. lia.
    + intros H. apply IHn, aggregateModelData_no_empty_name, H.
Qed.

Lemma processItemModelBreakdowns_fold item models :
  modelTokens (processItemModelBreakdowns item models)
  = modelTokens models
    + fold_right Z.add 0
        (map aggregatedTokens (default [] (item_modelBreakdowns item)))
  /\ (models !! "" = None -> processItemModelBreakdowns item models !! "" = None).
Proof.
  unfold processItemModelBreakdowns.
  destruct (item_modelBreakdowns item) as [l|]; cbn [default].
  - apply aggregate_fold.
  - split; [simpl; lia|intros H; exact H].
Qed.

(** X25. Grouping usage items by model adds up: the tokens of all the
    entries are the input, output and cache-creation tokens of all the
    breakdowns of all the items (cache-read tokens are not counted, and an
    item without breakdowns adds nothing), and no entry is filed under the
    empty name. *)
Theorem groupByModel_conserves data :
  modelTokens (groupByModel data)
  = fold_right Z.add 0 (map aggregatedTokens (breakdownsOf data))
  /\ groupByModel data !! "" = None.
Proof.
  unfold groupByModel, breakdownsOf.
  assert (H : forall models,
             modelTokens
               (fold_left (fun models item => processItemModelBreakdowns item models)
                          data models)
             = modelTokens models
               + fold_right Z.add 0
                   (map aggregatedTokens
                      (concat (map (fun item => default [] (item_modelBreakdowns item))
                                   data)))
             /\ (models !! "" = None ->
                 fold_left (fun models item => processItemModelBreakdowns item models)
                           data models !! "" = None)).
  { induction data as [|item data IH]; intros models; cbn [fold_left map concat].
    - split; [simpl; lia|intros H; exact H].
    - destruct (IH (processItemModelBreakdowns item models)) as [IHt IHn].
      destruct (processItemModelBreakdowns_fold item models) as [Ht Hn]. split.
      + rewrite IHt, Ht, map_app, Zsum_app. lia.
      + intros H. apply IHn, Hn, H. }
  destruct (H ∅) as [Ht Hn]. split.
  - rewrite Ht. unfold modelTokens. rewrite map_fold_empty. lia.
  - apply Hn, lookup_empty.
Qed.

(** ** The depletion text *)

(** X26. The depletion text is absent exactly when the burn rate is not
    positive and reads 'Depleted' exactly when the rate is positive and
    nothing remains; a depletion instant is given only for a positive rate
    with tokens remaining, and is never before [now]. *)
Theorem calculatePredictedDepletion_cases now used limit burnRate :
  (calculatePredictedDepletion now used limit burnRate = Normal None
   <-> (burnRate <= 0)%Q)
  /\ (calculatePredictedDepletion now used limit burnRate = Normal (Some DepletedText)
      <-> (0 < burnRate)%Q /\ limit <= used)
  /\ (forall t,
        calculatePredictedDepletion now used limit burnRate
        = Normal (Some (DepletionAt t)) ->
        (0 < burnRate)%Q /\ used < limit /\ now <= t).
Proof.
  unfold calculatePredictedDepletion.
  destruct (Qle_bool burnRate 0) eqn:Hb.
  - apply Qle_bool_iff in Hb.
    split; [split; [intros _; exact Hb|reflexivity]|].
    split; [split; [discriminate|intros [H _]; exfalso; exact (Qlt_not_le _ _ H Hb)]|].
    discriminate.
  - apply Qle_bool_false_lt in Hb.
    destruct (Z.leb_spec (limit - used) 0) as [Hr|Hr].
    + split; [split; [discriminate|intros H; exfalso; exact (Qlt_not_le _ _ Hb H)]|].
      split; [split; [intros _; split; [exact Hb|lia]|reflexivity]|]. discriminate.
    + assert (Hx : (inject_Z now
                    <= inject_Z now
                       + inject_Z (limit - used) / burnRate * 60 * 60 * 1000)%Q).
      { rewrite <- (Qplus_0_r (inject_Z now)) at 1.
        apply Qplus_le_compat; [apply Qle_refl|].
        repeat (apply Qmult_le_0_compat; [|discriminate]).
        apply Qle_shift_div_l; [exact Hb|]. rewrite Qmult_0_l.
        change 0%Q with (inject_Z 0). rewrite <- Zle_Qle. lia. }
      remember (inject_Z now + inject_Z (limit - used) / burnRate * 60 * 60 * 1000)%Q
        as x eqn:Ex.
      destruct (JS.timeClip x) as [t|] eqn:Hclip.
      * split; [split; [discriminate|intros H; exfalso; exact (Qlt_not_le _ _ Hb H)]|].
        split; [split; [discriminate|intros [_ H]; lia]|].
        intros t' [= <-]. split; [exact Hb|]. split; [lia|].
        unfold JS.timeClip in Hclip.
        destruct (Qle_bool _ _); [|discriminate]. injection Hclip as <-.
        apply quot_lower_bound. exact Hx.
      * split; [split; [discriminate|intros H; exfalso; exact (Qlt_not_le _ _ Hb H)]|].
        split; [split; [discriminate|intros [_ H]; lia]|]. discriminate.
Qed.

(** ** Further properties of the service *)

Section ServiceProperties.

Context `{RT : JSRuntime} `{RS : ResetTimeServiceI} `{ST : SessionTrackerI}.

(** *** The countdown to the end of the active block *)

Lemma minutes_of_hour (t : Z) :
  0 <= t -> (t mod (1000 * 60 * 60)) / (1000 * 60) = (t / 60000) mod 60.
Proof. intros H. Z.div_mod_to_equations. lia. Qed.

(** X17. With an active block on record, the time until the reset is the
    time left to the end of that block, never negative, and the message
    reads "Reset available" once the end is reached, "Less than 1 minute
    left" below one minute, the whole minutes below one hour, and from one
    hour on the whole hours and the minutes beyond them, which are fewer
    than 60. *)
Theorem getTimeUntilActualReset_countdown now s b :
  currentActiveBlock s = Some b ->
  nextResetTime (getTimeUntilActualReset now s) = Some (endTime b)
  /\ timeUntilReset (getTimeUntilActualReset now s) = Z.max 0 (endTime b - now)
  /\ (endTime b <= now ->
      formattedTimeRemaining (getTimeUntilActualReset now s) = "Reset available")
  /\ (now < endTime b < now + 60000 ->
      formattedTimeRemaining (getTimeUntilActualReset now s)
      = "Less than 1 minute left")
  /\ (now + 60000 <= endTime b < now + 3600000 ->
      formattedTimeRemaining (getTimeUntilActualReset now s)
      = JSDate.numberToString ((endTime b - now) / 60000) +:+ " minutes left")
  /\ (now + 3600000 <= endTime b ->
      formattedTimeRemaining (getTimeUntilActualReset now s)
      = JSDate.numberToString ((endTime b - now) / 3600000) +:+ " hours "
        +:+ JSDate.numberToString (((endTime b - now) / 60000) mod 60)
        +:+ " minutes left"
      /\ 0 <= ((endTime b - now) / 60000) mod 60 < 60).
Proof.
  intros Hb. unfold getTimeUntilActualReset, getActualNextResetTime. rewrite Hb.
  cbn [nextResetTime timeUntilReset formattedTimeRemaining].
  change (1000 * 60 * 60) with 3600000. change (1000 * 60) with 60000.
  split; [reflexivity|]. split; [reflexivity|].
  set (rem := Z.max 0 (endTime b - now)).
  split; [|split; [|split]].
  - intros H. destruct (Z.leb_spec rem 0); [reflexivity|subst rem; lia].
  - intros H. assert (E : rem = endTime b - now) by (subst rem; lia).
    destruct (Z.leb_spec rem 0); [lia|].
    rewrite (Z.div_small rem 3600000) by lia.
    rewrite (Z.mod_small rem 3600000) by lia.
    rewrite (Z.div_small rem 60000) by lia. reflexivity.
  - intros H. assert (E : rem = endTime b - now) by (subst rem; lia).
    destruct (Z.leb_spec rem 0); [lia|].
    rewrite (Z.div_small rem 3600000) by lia.
    rewrite (Z.mod_small rem 3600000) by lia.
    assert (0 < rem / 60000) by (apply Z.div_str_pos; lia).
    destruct (Z.ltb_spec 0 (rem / 60000)); [|lia].
    simpl. rewrite E. reflexivity.
  - intros H. assert (E : rem = endTime b - now) by (subst rem; lia).
    destruct (Z.leb_spec rem 0); [lia|].
    assert (0 < rem / 3600000) by (apply Z.div_str_pos; lia).
    destruct (Z.ltb_spec 0 (rem / 3600000)); [|lia].
    pose proof (minutes_of_hour rem ltac:(lia)) as Hm.
    change (1000 * 60 * 60) with 3600000 in Hm. change (1000 * 60) with 60000 in Hm.
    rewrite Hm, E. split; [reflexivity|]. apply Z.mod_pos_bound. lia.
Qed.

(** *** The projected depletion *)

Lemma round1_nonneg (x : Q) : (0 <= x)%Q -> (0 <= JS.round1 x)%Q.
Proof.
  intros H. unfold JS.round1, JS.round.
  apply Qle_shift_div_l; [reflexivity|]. rewrite Qmult_0_l.
  change 0%Q with (inject_Z 0). rewrite <- Zle_Qle.
  change 0 with (Qfloor 0). apply Qfloor_resp_le.
  assert (0 <= x * 10)%Q by (apply Qmult_le_0_compat; [exact H|discriminate]).
  change 0%Q with (0 + 0)%Q. apply Qplus_le_compat; [assumption|discriminate].
Qed.

(** X18. A prediction that is produced projects no depletion exactly when
    the current rate is not positive; a projected depletion instant is
    never before [now], and the days remaining are never negative. *)
Theorem calculatePredictionInfo_depletion now used limit v ri s p :
  calculatePredictionInfo now used limit v ri s = Normal p ->
  (depletionTime p = None <-> ~ (0 < current v)%Q)
  /\ (forall t, depletionTime p = Some t -> now <= t)
  /\ (0 <= daysRemaining p)%Q.
Proof.
  unfold calculatePredictionInfo.
  assert (Hrem : (0 <= inject_Z (Z.max 0 (limit - used)))%Q).
  { change 0%Q with (inject_Z 0). rewrite <- Zle_Qle. lia. }
  destruct (JS.Qlt_bool 0 (current v)) eqn:Hcur.
  - apply Qlt_bool_iff in Hcur.
    assert (Hh : (0 <= inject_Z (Z.max 0 (limit - used)) / current v)%Q).
    { apply Qle_shift_div_l; [exact Hcur|]. rewrite Qmult_0_l. exact Hrem. }
    assert (Hx : (inject_Z now
                  <= inject_Z now
                     + inject_Z (Z.max 0 (limit - used)) / current v * 60 * 60 * 1000)%Q).
    { rewrite <- (Qplus_0_r (inject_Z now)) at 1.
      apply Qplus_le_compat; [apply Qle_refl|].
      repeat (apply Qmult_le_0_compat; [|discriminate]). exact Hh. }
    remember (inject_Z now
              + inject_Z (Z.max 0 (limit - used)) / current v * 60 * 60 * 1000)%Q
      as x eqn:Ex.
    destruct (JS.timeClip x) as [t|] eqn:Hclip; [|discriminate].
    intros [= <-]. cbn [depletionTime daysRemaining].
    split; [split; [discriminate|intros Hn; contradiction]|].
    split.
    + intros t' [= <-]. unfold JS.timeClip in Hclip.
      destruct (Qle_bool _ _); [|discriminate]. injection Hclip as <-.
      apply quot_lower_bound. exact Hx.
    + apply round1_nonneg. apply Qle_shift_div_l; [reflexivity|].
      rewrite Qmult_0_l. exact Hh.
  - apply Qlt_bool_false_iff in Hcur.
    intros [= <-]. cbn [depletionTime daysRemaining].
    split; [split; [intros _ Hc; exact (Qlt_not_le _ _ Hc Hcur)|reflexivity]|].
    split; [discriminate|]. apply round1_nonneg. discriminate.
Qed.

(** *** What a call changes in the service *)

Lemma getDefaultStats_state now dailyData s :
  snd (getDefaultStats now dailyData s)
  = set_sessionTracker (snd (updateFromBlocks now [] (sessionTracker s))) s.
Proof.
  unfold getDefaultStats.
  destruct (updateFromBlocks now [] (sessionTracker s)). reflexivity.
Qed.

Lemma resolveLimit_frame blocks used s :
  cachedStats (resolveLimit blocks used s) = cachedStats s
  /\ lastUpdate (resolveLimit blocks used s) = lastUpdate s
  /\ historicalBlocks (resolveLimit blocks used s) = historicalBlocks s
  /\ currentActiveBlock (resolveLimit blocks used s) = currentActiveBlock s
  /\ sessionTracker (resolveLimit blocks used s) = sessionTracker s
  /\ resetTimeService (resolveLimit blocks used s) = resetTimeService s.
Proof.
  unfold resolveLimit.
  destruct (bool_decide (currentPlan s = Custom)
            || bool_decide (currentPlan s = Pro) && (7000 <? used)).
  - destruct ((7000 <? used)
              && bool_decide
                   (currentPlan (set_detectedTokenLimit (getMaxTokensFromBlocks blocks) s)
                    = Pro)); repeat split.
  - repeat split.
Qed.

Lemma resolveLimit_plan blocks used s :
  currentPlan (resolveLimit blocks used s) = currentPlan s
  \/ (currentPlan s = Pro /\ 7000 < used
      /\ currentPlan (resolveLimit blocks used s) = Custom).
Proof.
  destruct (currentPlan s) eqn:Hp.
  - destruct (Z.ltb_spec 7000 used) as [Hu|Hu].
    + right. split; [reflexivity|]. split; [exact Hu|].
      apply resolveLimit_auto. right. split; assumption.
    + left. rewrite <- Hp. apply resolveLimit_fixed.
      unfold autoDetects. rewrite Hp. intros [H|[_ H]]; [discriminate|lia].
  - left. rewrite <- Hp. apply resolveLimit_fixed.
    unfold autoDetects. rewrite Hp. intros [H|[H _]]; discriminate.
  - left. rewrite <- Hp. apply resolveLimit_fixed.
    unfold autoDetects. rewrite Hp. intros [H|[H _]]; discriminate.
  - left. apply resolveLimit_auto. left. exact Hp.
Qed.

Lemma resolveLimit_positive blocks used s :
  0 < detectedTokenLimit (resolveLimit blocks used s).
Proof.
  destruct (currentPlan s) eqn:Hp.
  - destruct (Z.ltb_spec 7000 used) as [Hu|Hu].
    + rewrite (proj1 (resolveLimit_auto blocks used s (or_intror (conj Hp Hu)))).
      apply getMaxTokensFromBlocks_pos.
    + rewrite (proj1 (resolveLimit_fixed blocks used s
                        ltac:(unfold autoDetects; rewrite Hp;
                              intros [H|[_ H]]; [discriminate|lia]))).
      rewrite Hp. reflexivity.
  - rewrite (proj1 (resolveLimit_fixed blocks used s
                      ltac:(unfold autoDetects; rewrite Hp;
                            intros [H|[H _]]; discriminate))).
    rewrite Hp. reflexivity.
  - rewrite (proj1 (resolveLimit_fixed blocks used s
                      ltac:(unfold autoDetects; rewrite Hp;
                            intros [H|[H _]]; discriminate))).
    rewrite Hp. reflexivity.
  - rewrite (proj1 (resolveLimit_auto blocks used s (or_introl Hp))).
    apply getMaxTokensFromBlocks_pos.
Qed.

Lemma parseBlocksData_inactive now blocks dailyData s :
  findActiveBlock blocks = None ->
  parseBlocksData now blocks dailyData s
  = (Normal (fst (getDefaultStats now dailyData (set_currentActiveBlock None s))),
     snd (getDefaultStats now dailyData (set_currentActiveBlock None s))).
Proof.
  intros Hnone. unfold parseBlocksData. rewrite Hnone.
  destruct (getDefaultStats now dailyData (set_currentActiveBlock None s)).
  reflexivity.
Qed.

(** The state after a recomputation from the blocks, but for the tracker. *)
Lemma parseBlocksData_state now blocks dailyData s :
  exists tracker,
    snd (parseBlocksData now blocks dailyData s)
    = set_sessionTracker tracker
        match findActiveBlock blocks with
        | None => set_currentActiveBlock None s
        | Some ab =>
            resolveLimit blocks (getTotalTokensFromBlock ab)
                         (set_currentActiveBlock (Some ab) s)
        end.
Proof.
  destruct (findActiveBlock blocks) as [ab|] eqn:Hab.
  - unfold parseBlocksData. rewrite Hab.
    set (s1 := resolveLimit blocks (getTotalTokensFromBlock ab)
                            (set_currentActiveBlock (Some ab) s)).
    destruct (calculatePredictionInfo now (getTotalTokensFromBlock ab)
                (detectedTokenLimit s1) _ _ s1).
    + destruct (updateFromBlocks now (convertSessionBlocksToCC blocks)
                                 (sessionTracker s1)) as [tracking tracker].
      exists tracker. reflexivity.
    + exists (sessionTracker s1). destruct s1. reflexivity.
  - rewrite (parseBlocksData_inactive _ _ _ _ Hab), getDefaultStats_state.
    eexists. reflexivity.
Qed.

Lemma findActiveBlock_nonempty blocks ab :
  findActiveBlock blocks = Some ab -> blocks <> [].
Proof. intros H ->. discriminate. Qed.

(** The service after a recomputation from a non-empty block list. *)
Lemma recompute_blocks_state now blocks dailyData s :
  blocks <> [] ->
  exists tracker cache updated history,
    after (recompute now (Loaded (Some blocks) dailyData) s)
    = set_historicalBlocks history
        (set_lastUpdate updated
           (set_cachedStats cache
              (set_sessionTracker tracker
                 match findActiveBlock blocks with
                 | None => set_currentActiveBlock None s
                 | Some ab =>
                     resolveLimit blocks (getTotalTokensFromBlock ab)
                                  (set_currentActiveBlock (Some ab) s)
                 end))).
Proof.
  intros Hne. unfold recompute. destruct blocks as [|b blocks]; [contradiction|].
  destruct (parseBlocksData_state now (b :: blocks) dailyData s) as [tracker Hs].
  destruct (parseBlocksData now (b :: blocks) dailyData s) as [[stats|] s'].
  - cbn [snd] in Hs. subst s'. cbn [after].
    exists tracker, (Some stats), now, (b :: blocks). reflexivity.
  - cbn [snd] in Hs. subst s'.
    pose proof (getDefaultStats_state now None
                  (set_sessionTracker tracker
                     match findActiveBlock (b :: blocks) with
                     | None => set_currentActiveBlock None s
                     | Some ab =>
                         resolveLimit (b :: blocks) (getTotalTokensFromBlock ab)
                                      (set_currentActiveBlock (Some ab) s)
                     end)) as Hd.
    destruct (getDefaultStats now None _) as [stats s'']. cbn [snd] in Hd.
    cbn [after]. subst s''.
    set (inner := match findActiveBlock (b :: blocks) with
                  | None => set_currentActiveBlock None s
                  | Some ab =>
                      resolveLimit (b :: blocks) (getTotalTokensFromBlock ab)
                                   (set_currentActiveBlock (Some ab) s)
                  end).
    exists (snd (updateFromBlocks now [] tracker)),
           (cachedStats inner), (lastUpdate inner), (historicalBlocks inner).
    destruct inner. reflexivity.
Qed.

(** The service after a recomputation that had nothing to compute from. *)
Lemma recompute_nothing_state now load s :
  loadedNothing load ->
  after (recompute now load s)
  = set_sessionTracker (snd (updateFromBlocks now [] (sessionTracker s))) s.
Proof.
  intros Hn. unfold recompute.
  destruct load as [|[[|b blocks]|] dailyData]; try contradiction.
  - rewrite <- (getDefaultStats_state now None s).
    destruct (getDefaultStats now None s). reflexivity.
  - rewrite <- (getDefaultStats_state now dailyData s).
    destruct (getDefaultStats now dailyData s). reflexivity.
  - rewrite <- (getDefaultStats_state now dailyData s).
    destruct (getDefaultStats now dailyData s). reflexivity.
Qed.

Lemma getUsageStats_cases now load s :
  (getUsageStats now load s
   = {| snapshot := default (snapshot (recompute now load s)) (cachedStats s);
        after := s; loaderInvoked := false |}
   /\ cachedStats s <> None)
  \/ getUsageStats now load s = recompute now load s.
Proof.
  unfold getUsageStats. destruct (cachedStats s) as [cached|]; [|right; reflexivity].
  destruct (now - lastUpdate s <? CACHE_DURATION); [|right; reflexivity].
  left. split; [reflexivity|discriminate].
Qed.

(** X19. A call of [getUsageStats] never changes the current plan, except
    to promote Pro to Custom, and it does that only on a recomputation that
    finds an active block of more than 7,000 tokens. A plan other than Pro
    is never changed. *)
Theorem getUsageStats_plan now load s :
  currentPlan (after (getUsageStats now load s)) = currentPlan s
  \/ (currentPlan s = Pro
      /\ currentPlan (after (getUsageStats now load s)) = Custom
      /\ loaderInvoked (getUsageStats now load s) = true
      /\ exists blocks dailyData ab,
           load = Loaded (Some blocks) dailyData
           /\ findActiveBlock blocks = Some ab
           /\ 7000 < getTotalTokensFromBlock ab).
Proof.
  destruct (getUsageStats_cases now load s) as [[-> _]| ->]; [left; reflexivity|].
  destruct load as [|[[|b blocks]|] dailyData].
  - left. rewrite recompute_nothing_state by exact I. reflexivity.
  - left. rewrite recompute_nothing_state by exact I. reflexivity.
  - destruct (recompute_blocks_state now (b :: blocks) dailyData s)
      as (tr & c & u & h & ->); [discriminate|].
    cbn [currentPlan set_historicalBlocks set_lastUpdate set_cachedStats
         set_sessionTracker].
    destruct (findActiveBlock (b :: blocks)) as [ab|] eqn:Hab; [|left; reflexivity].
    destruct (resolveLimit_plan (b :: blocks) (getTotalTokensFromBlock ab)
                (set_currentActiveBlock (Some ab) s)) as [E|(Hp & Hu & E)].
    + left. exact E.
    + right. split; [exact Hp|]. split; [exact E|].
      split; [apply recompute_invokes|].
      exists (b :: blocks), dailyData, ab. repeat split; assumption.
  - left. rewrite recompute_nothing_state by exact I. reflexivity.
Qed.

(** X20. A refresh for which the loader rejects or hands back no blocks
    changes nothing in the service but the session tracker: the cached
    snapshot and its time stamp, the recorded blocks, the active block on
    record, the plan and the detected limit stay as they were. *)
Theorem failed_refresh_keeps_state now load s :
  loadedNothing load ->
  cachedStats (after (getUsageStats now load s)) = cachedStats s
  /\ lastUpdate (after (getUsageStats now load s)) = lastUpdate s
  /\ historicalBlocks (after (getUsageStats now load s)) = historicalBlocks s
  /\ currentActiveBlock (after (getUsageStats now load s)) = currentActiveBlock s
  /\ currentPlan (after (getUsageStats now load s)) = currentPlan s
  /\ detectedTokenLimit (after (getUsageStats now load s)) = detectedTokenLimit s
  /\ resetTimeService (after (getUsageStats now load s)) = resetTimeService s.
Proof.
  intros Hn.
  destruct (getUsageStats_cases now load s) as [[-> _]| ->]; [repeat split|].
  rewrite (recompute_nothing_state now load s Hn). repeat split.
Qed.

(** X21. When the prediction of a recomputation raises, [getUsageStats]
    still answers, with the default snapshot: no tokens used and 0 percent
    although a block is active, nothing is cached, yet the active block
    stays on record and the snapshot counts down to its end. *)
Theorem getUsageStats_prediction_raises now blocks dailyData s s' ab :
  loaderInvoked (getUsageStats now (Loaded (Some blocks) dailyData) s) = true ->
  findActiveBlock blocks = Some ab ->
  parseBlocksData now blocks dailyData s = (Throw, s') ->
  tokensUsed (snapshot (getUsageStats now (Loaded (Some blocks) dailyData) s)) = 0
  /\ percentageUsed (snapshot (getUsageStats now (Loaded (Some blocks) dailyData) s))
     = 0%Q
  /\ nextResetTime
       (actualResetInfo
          (snapshot (getUsageStats now (Loaded (Some blocks) dailyData) s)))
     = Some (endTime ab)
  /\ cachedStats (after (getUsageStats now (Loaded (Some blocks) dailyData) s))
     = cachedStats s
  /\ lastUpdate (after (getUsageStats now (Loaded (Some blocks) dailyData) s))
     = lastUpdate s
  /\ currentActiveBlock (after (getUsageStats now (Loaded (Some blocks) dailyData) s))
     = Some ab.
Proof.
  intros Hmiss Hab Hthrow. rewrite (getUsageStats_miss _ _ _ Hmiss).
  pose proof (findActiveBlock_nonempty _ _ Hab) as Hne.
  destruct (parseBlocksData_active now blocks dailyData s ab Hab)
    as (_ & _ & Hact & _ & _).
  destruct (parseBlocksData_state now blocks dailyData s) as [tracker Hs].
  rewrite Hthrow in Hact, Hs. cbn [snd] in Hact, Hs. rewrite Hab in Hs.
  destruct (resolveLimit_frame blocks (getTotalTokensFromBlock ab)
              (set_currentActiveBlock (Some ab) s)) as (Hc & Hu & _ & Ha & _).
  unfold recompute. destruct blocks as [|b blocks]; [contradiction|].
  rewrite Hthrow.
  pose proof (getDefaultStats_zeroed now None s') as (Hz1 & Hz2 & _ & _ & _ & _ & Hz3).
  pose proof (getDefaultStats_state now None s') as Hd.
  destruct (getDefaultStats now None s') as [stats s''].
  cbn [fst snd] in *. cbn [snapshot after].
  split; [exact Hz1|]. split; [exact Hz2|]. split.
  - rewrite Hz3. unfold getTimeUntilActualReset, getActualNextResetTime.
    rewrite Hact, Ha. reflexivity.
  - subst s'' s'. cbn [cachedStats lastUpdate currentActiveBlock set_sessionTracker].
    rewrite Hc, Hu, Ha. repeat split.
Qed.

(** X22. A recomputation from a non-empty block list none of whose blocks
    is both active and no gap records that no block is active, answers with
    a zero-usage snapshot that reads "No active session", and caches that
    snapshot; the session tracker is refreshed with an empty list, not with
    the blocks. *)
Theorem getUsageStats_no_active_block now blocks dailyData s :
  loaderInvoked (getUsageStats now (Loaded (Some blocks) dailyData) s) = true ->
  blocks <> [] ->
  findActiveBlock blocks = None ->
  tokensUsed (snapshot (getUsageStats now (Loaded (Some blocks) dailyData) s)) = 0
  /\ formattedTimeRemaining
       (actualResetInfo
          (snapshot (getUsageStats now (Loaded (Some blocks) dailyData) s)))
     = "No active session"
  /\ currentActiveBlock (after (getUsageStats now (Loaded (Some blocks) dailyData) s))
     = None
  /\ cachedStats (after (getUsageStats now (Loaded (Some blocks) dailyData) s))
     = Some (snapshot (getUsageStats now (Loaded (Some blocks) dailyData) s))
  /\ lastUpdate (after (getUsageStats now (Loaded (Some blocks) dailyData) s)) = now
  /\ sessionTracker (after (getUsageStats now (Loaded (Some blocks) dailyData) s))
     = snd (updateFromBlocks now [] (sessionTracker s))
  /\ sessionTracking (snapshot (getUsageStats now (Loaded (Some blocks) dailyData) s))
     = fst (updateFromBlocks now [] (sessionTracker s)).
Proof.
  intros Hmiss Hne Hnone. rewrite (getUsageStats_miss _ _ _ Hmiss).
  pose proof (parseBlocksData_inactive now blocks dailyData s Hnone) as Hparse.
  rewrite (recompute_stores _ _ _ _ _ _ Hne Hparse). cbn [snapshot after].
  destruct (getDefaultStats_zeroed now dailyData (set_currentActiveBlock None s))
    as (Hz1 & _ & _ & _ & _ & _ & Hz3).
  rewrite getDefaultStats_state.
  split; [exact Hz1|]. split; [rewrite Hz3; reflexivity|].
  split; [reflexivity|]. split; [reflexivity|]. split; [reflexivity|].
  split; [reflexivity|].
  unfold getDefaultStats. cbn [sessionTracker set_currentActiveBlock].
  destruct (updateFromBlocks now [] (sessionTracker s)). reflexivity.
Qed.

(** *** Snapshots *)

Lemma getDefaultStats_consistent now dailyData s :
  consistent (fst (getDefaultStats now dailyData s)).
Proof.
  destruct (getDefaultStats_zeroed now dailyData s) as (Hu & Hp & _ & _ & _ & Hl & _).
  assert (Hrem : tokensRemaining (fst (getDefaultStats now dailyData s))
                 = getTokenLimit (currentPlan s)).
  { unfold getDefaultStats.
    destruct (updateFromBlocks now [] (sessionTracker s)). reflexivity. }
  assert (Hpos : 0 < getTokenLimit (currentPlan s)).
  { destruct (currentPlan s); reflexivity. }
  unfold consistent. rewrite Hu, Hp, Hl, Hrem.
  split; [exact Hpos|]. split; [lia|].
  assert (E : (inject_Z 0 / inject_Z (getTokenLimit (currentPlan s)) * 100 == 0)%Q).
  { unfold Qdiv. change (inject_Z 0) with 0%Q. ring. }
  unfold JS.min. rewrite E. reflexivity.
Qed.

Lemma parseBlocksData_consistent now blocks dailyData s stats :
  fst (parseBlocksData now blocks dailyData s) = Normal stats -> consistent stats.
Proof.
  destruct (findActiveBlock blocks) as [ab|] eqn:Hab.
  - unfold parseBlocksData. rewrite Hab.
    set (s1 := resolveLimit blocks (getTotalTokensFromBlock ab)
                            (set_currentActiveBlock (Some ab) s)).
    pose proof (resolveLimit_positive blocks (getTotalTokensFromBlock ab)
                  (set_currentActiveBlock (Some ab) s)) as Hpos.
    fold s1 in Hpos.
    destruct (calculatePredictionInfo now _ (detectedTokenLimit s1) _ _ s1);
      [|discriminate].
    destruct (updateFromBlocks now _ (sessionTracker s1)).
    cbn [fst]. intros [= <-]. unfold consistent.
    cbn [tokenLimit tokensRemaining tokensUsed percentageUsed].
    split; [exact Hpos|]. split; reflexivity.
  - rewrite (parseBlocksData_inactive _ _ _ _ Hab). cbn [fst]. intros [= <-].
    apply getDefaultStats_consistent.
Qed.

Lemma recompute_consistent now load s : consistent (snapshot (recompute now load s)).
Proof.
  unfold recompute. destruct load as [|[[|b blocks]|] dailyData].
  - pose proof (getDefaultStats_consistent now None s) as H.
    destruct (getDefaultStats now None s). exact H.
  - pose proof (getDefaultStats_consistent now dailyData s) as H.
    destruct (getDefaultStats now dailyData s). exact H.
  - pose proof (parseBlocksData_consistent now (b :: blocks) dailyData s) as H.
    destruct (parseBlocksData now (b :: blocks) dailyData s) as [[stats|] s'].
    + apply H. reflexivity.
    + pose proof (getDefaultStats_consistent now None s') as H'.
      destruct (getDefaultStats now None s'). exact H'.
  - pose proof (getDefaultStats_consistent now dailyData s) as H.
    destruct (getDefaultStats now dailyData s). exact H.
Qed.

Lemma parseBlocksData_cache now blocks dailyData s :
  cachedStats (snd (parseBlocksData now blocks dailyData s)) = cachedStats s
  /\ lastUpdate (snd (parseBlocksData now blocks dailyData s)) = lastUpdate s.
Proof.
  destruct (parseBlocksData_state now blocks dailyData s) as [tr ->].
  cbn [cachedStats lastUpdate set_sessionTracker].
  destruct (findActiveBlock blocks) as [ab|]; [|split; reflexivity].
  destruct (resolveLimit_frame blocks (getTotalTokensFromBlock ab)
              (set_currentActiveBlock (Some ab) s)) as (Hc & Hu & _).
  rewrite Hc, Hu. split; reflexivity.
Qed.

Lemma recompute_cache_consistent now load s :
  cacheConsistent s -> cacheConsistent (after (recompute now load s)).
Proof.
  intros Hinv. destruct load as [|[[|b blocks]|] dailyData].
  - rewrite recompute_nothing_state by exact I. exact Hinv.
  - rewrite recompute_nothing_state by exact I. exact Hinv.
  - unfold recompute.
    pose proof (parseBlocksData_consistent now (b :: blocks) dailyData s) as Hc.
    pose proof (parseBlocksData_cache now (b :: blocks) dailyData s) as [Hk _].
    destruct (parseBlocksData now (b :: blocks) dailyData s) as [[stats|] s'].
    + intros cached. cbn. intros [= <-]. apply Hc. reflexivity.
    + cbn [snd] in Hk.
      pose proof (getDefaultStats_state now None s') as Hd.
      destruct (getDefaultStats now None s') as [stats s'']. cbn [snd] in Hd.
      cbn [after]. subst s''. intros cached Hcached. apply Hinv.
      rewrite <- Hk. exact Hcached.
  - rewrite recompute_nothing_state by exact I. exact Hinv.
Qed.

Lemma getUsageStats_consistent now load s :
  cacheConsistent s ->
  consistent (snapshot (getUsageStats now load s))
  /\ cacheConsistent (after (getUsageStats now load s)).
Proof.
  intros Hinv. unfold getUsageStats.
  assert (Hre : consistent (snapshot (recompute now load s))
                /\ cacheConsistent (after (recompute now load s))).
  { split; [apply recompute_consistent|apply recompute_cache_consistent, Hinv]. }
  destruct (cachedStats s) as [cached|] eqn:Hc; [|exact Hre].
  destruct (now - lastUpdate s <? CACHE_DURATION); [|exact Hre].
  split; [apply Hinv; exact Hc|exact Hinv].
Qed.

Lemma runCalls_consistent calls s :
  cacheConsistent s -> cacheConsistent (runCalls calls s).
Proof.
  unfold runCalls. revert s. induction calls as [|c calls IH]; intros s Hinv.
  - exact Hinv.
  - cbn [fold_left]. apply IH. destruct c as [now load|config]; cbn [callStep].
    + apply getUsageStats_consistent, Hinv.
    + intros cached Hc. discriminate Hc.
Qed.

Lemma ratio_full (u l : Z) :
  0 < l -> ((100 <= inject_Z u / inject_Z l * 100)%Q <-> l <= u).
Proof.
  intros Hl. destruct l as [|pl|pl]; try lia.
  unfold Qle, Qdiv, Qmult, Qinv, inject_Z. simpl.
  rewrite !Pos.mul_1_r. lia.
Qed.

Lemma consistent_bounds stats :
  consistent stats ->
  0 < tokenLimit stats
  /\ 0 <= tokensRemaining stats
  /\ (percentageUsed stats <= 100)%Q
  /\ (tokensRemaining stats = 0 <-> tokenLimit stats <= tokensUsed stats)
  /\ ((percentageUsed stats == 100)%Q <-> tokenLimit stats <= tokensUsed stats).
Proof.
  intros (Hl & Hr & Hp).
  split; [exact Hl|]. split; [lia|].
  set (x := (inject_Z (tokensUsed stats) / inject_Z (tokenLimit stats) * 100)%Q) in *.
  pose proof (ratio_full (tokensUsed stats) (tokenLimit stats) Hl) as Hfull.
  fold x in Hfull. unfold JS.min in Hp.
  destruct (Qle_bool 100 x) eqn:Hb.
  - apply Qle_bool_iff in Hb as Hx.
    split; [rewrite Hp; apply Qle_refl|]. split; [lia|].
    split; [intros _; apply Hfull; exact Hx|intros _; exact Hp].
  - apply Qle_bool_false_lt in Hb as Hx.
    split; [rewrite Hp; apply Qlt_le_weak; exact Hx|].
    assert (Hnot : ~ tokenLimit stats <= tokensUsed stats).
    { intros H. apply Hfull in H. exact (Qlt_not_le _ _ Hx H). }
    split; [lia|]. split; [|intros H; contradiction].
    intros E. exfalso. rewrite Hp in E. rewrite E in Hx. exact (Qlt_irrefl _ Hx).
Qed.

(** X23. Whatever calls of [getUsageStats] and [updateConfiguration] came
    before, a snapshot returned by [getUsageStats], fresh or cached, has a
    positive token limit, remaining tokens that are not negative and a
    percentage of at most 100; the remaining tokens are 0, and the
    percentage is 100, exactly when the usage has reached the limit. *)
Theorem snapshots_stay_consistent calls rs st now load :
  let stats := snapshot (getUsageStats now load (runCalls calls (newService rs st))) in
  0 < tokenLimit stats
  /\ 0 <= tokensRemaining stats
  /\ (percentageUsed stats <= 100)%Q
  /\ (tokensRemaining stats = 0 <-> tokenLimit stats <= tokensUsed stats)
  /\ ((percentageUsed stats == 100)%Q <-> tokenLimit stats <= tokensUsed stats).
Proof.
  intros stats. apply consistent_bounds. subst stats.
  apply getUsageStats_consistent, runCalls_consistent.
  intros cached Hc. discriminate Hc.
Qed.

(** X24. After the user selected the Max5 or the Max20 plan, the next
    recomputation that finds an active block keeps that plan and uses its
    fixed limit whatever the usage and the history, and the snapshot
    reports both. *)
Theorem fixed_plan_pins_limit config p now blocks dailyData s ab :
  cfg_plan config = Some (Fixed p) ->
  p = Max5 \/ p = Max20 ->
  findActiveBlock blocks = Some ab ->
  loaderInvoked
    (getUsageStats now (Loaded (Some blocks) dailyData) (updateConfiguration config s))
  = true
  /\ currentPlan
       (after (getUsageStats now (Loaded (Some blocks) dailyData)
                 (updateConfiguration config s))) = p
  /\ detectedTokenLimit
       (after (getUsageStats now (Loaded (Some blocks) dailyData)
                 (updateConfiguration config s))) = getTokenLimit p
  /\ tokenLimit
       (snapshot (getUsageStats now (Loaded (Some blocks) dailyData)
                    (updateConfiguration config s))) = getTokenLimit p
  /\ stats_currentPlan
       (snapshot (getUsageStats now (Loaded (Some blocks) dailyData)
                    (updateConfiguration config s))) = p.
Proof.
  intros Hcfg Hp Hab.
  set (s0 := updateConfiguration config s).
  assert (Hplan0 : currentPlan s0 = p).
  { subst s0. unfold updateConfiguration. rewrite Hcfg. reflexivity. }
  assert (Hmiss : getUsageStats now (Loaded (Some blocks) dailyData) s0
                  = recompute now (Loaded (Some blocks) dailyData) s0).
  { unfold getUsageStats. reflexivity. }
  rewrite Hmiss. split; [apply recompute_invokes|].
  assert (Hfixed : ~ autoDetects
                     (currentPlan (set_currentActiveBlock (Some ab) s0))
                     (getTotalTokensFromBlock ab)).
  { cbn [currentPlan set_currentActiveBlock]. rewrite Hplan0.
    intros [H|[H _]]; destruct Hp; congruence. }
  destruct (resolveLimit_fixed blocks _ _ Hfixed) as [Hl1 Hp1].
  cbn [currentPlan set_currentActiveBlock] in Hl1, Hp1. rewrite Hplan0 in Hl1, Hp1.
  destruct (parseBlocksData_active now blocks dailyData s0 ab Hab)
    as (Hplan & Hlimit & _ & Hstats & _).
  rewrite Hp1 in Hplan. rewrite Hl1 in Hlimit.
  pose proof (findActiveBlock_nonempty _ _ Hab) as Hne.
  unfold recompute. destruct blocks as [|b blocks]; [contradiction|].
  destruct (parseBlocksData now (b :: blocks) dailyData s0) as [[stats|] s'].
  - cbn [fst snd] in *. destruct (Hstats stats eq_refl) as (Ht & Hq & _).
    cbn [snapshot after]. rewrite Ht, Hq, Hl1, Hp1.
    split; [exact Hplan|]. split; [exact Hlimit|]. split; reflexivity.
  - cbn [fst snd] in *.
    pose proof (getDefaultStats_zeroed now None s') as (_ & _ & _ & _ & _ & Hz & _).
    pose proof (getDefaultStats_state now None s') as Hd.
    assert (Hsp : stats_currentPlan (fst (getDefaultStats now None s')) = currentPlan s').
    { unfold getDefaultStats.
      destruct (updateFromBlocks now [] (sessionTracker s')). reflexivity. }
    destruct (getDefaultStats now None s') as [stats s''].
    cbn [fst snd] in *. cbn [snapshot after]. subst s''.
    cbn [currentPlan detectedTokenLimit set_sessionTracker].
    rewrite Hz, Hsp, Hplan.
    split; [reflexivity|]. split; [exact Hlimit|]. split; reflexivity.
Qed.

(** *** The menu bar *)

Lemma ratio_ge (k u l : Z) :
  0 < l -> ((inject_Z k <= inject_Z u / inject_Z l * 100)%Q <-> k * l <= 100 * u).
Proof.
  intros Hl. destruct l as [|pl|pl]; try lia.
  unfold Qle, Qdiv, Qmult, Qinv, inject_Z. simpl.
  rewrite !Pos.mul_1_r. lia.
Qed.

Lemma min100_ge (k : Z) (x : Q) :
  k <= 100 -> ((inject_Z k <= JS.min 100 x)%Q <-> (inject_Z k <= x)%Q).
Proof.
  intros Hk. unfold JS.min.
  assert (Hk' : (inject_Z k <= 100)%Q).
  { change 100%Q with (inject_Z 100). rewrite <- Zle_Qle. exact Hk. }
  destruct (Qle_bool 100 x) eqn:Hb; [|reflexivity].
  apply Qle_bool_iff in Hb. split; intros _; [|exact Hk'].
  eapply Qle_trans; [exact Hk'|exact Hb].
Qed.

Lemma consistent_percentage_ge stats (k : Z) :
  consistent stats -> k <= 100 ->
  ((inject_Z k <= percentageUsed stats)%Q
   <-> k * tokenLimit stats <= 100 * tokensUsed stats).
Proof.
  intros (Hl & _ & Hp) Hk. rewrite Hp, (min100_ge k _ Hk). apply ratio_ge, Hl.
Qed.

(** X27. Whatever calls came before, the status shown in the menu bar is
    decided by the tokens alone: critical exactly when the tokens used are
    at least 90 percent of the limit, a warning exactly from 70 to below
    90 percent, and safe exactly below 70 percent. *)
Theorem getMenuBarData_status calls rs st now load :
  let m := fst (getMenuBarData now load (runCalls calls (newService rs st))) in
  (menu_status m = critical <-> 90 * menu_tokenLimit m <= 100 * menu_tokensUsed m)
  /\ (menu_status m = warning
      <-> 70 * menu_tokenLimit m <= 100 * menu_tokensUsed m
          /\ 100 * menu_tokensUsed m < 90 * menu_tokenLimit m)
  /\ (menu_status m = safe <-> 100 * menu_tokensUsed m < 70 * menu_tokenLimit m).
Proof.
  intros m. subst m. unfold getMenuBarData.
  cbn [fst menu_status menu_tokenLimit menu_tokensUsed].
  set (stats := snapshot (getUsageStats now load (runCalls calls (newService rs st)))).
  assert (Hc : consistent stats).
  { subst stats. apply getUsageStats_consistent, runCalls_consistent.
    intros cached H. discriminate H. }
  pose proof (consistent_percentage_ge stats 90 Hc ltac:(lia)) as H90.
  pose proof (consistent_percentage_ge stats 70 Hc ltac:(lia)) as H70.
  change (inject_Z 90) with 90%Q in H90. change (inject_Z 70) with 70%Q in H70.
  assert (L90 : (percentageUsed stats < 90)%Q
                <-> 100 * tokensUsed stats < 90 * tokenLimit stats).
  { split.
    - intros H. destruct (Z_lt_le_dec (100 * tokensUsed stats) (90 * tokenLimit stats))
        as [Hlt|Hge]; [exact Hlt|].
      exfalso. apply (Qlt_not_le _ _ H), H90, Hge.
    - intros H. apply Qnot_le_lt. intros Hle. apply H90 in Hle. lia. }
  assert (L70 : (percentageUsed stats < 70)%Q
                <-> 100 * tokensUsed stats < 70 * tokenLimit stats).
  { split.
    - intros H. destruct (Z_lt_le_dec (100 * tokensUsed stats) (70 * tokenLimit stats))
        as [Hlt|Hge]; [exact Hlt|].
      exfalso. apply (Qlt_not_le _ _ H), H70, Hge.
    - intros H. apply Qnot_le_lt. intros Hle. apply H70 in Hle. lia. }
  assert (Hpos : 0 < tokenLimit stats) by apply Hc.
  destruct (getUsageStatus_cases (percentageUsed stats))
    as [[-> Hq]|[[-> [Hq1 Hq2]]|[-> Hq]]].
  - apply H90 in Hq. split; [split; [intros _; exact Hq|reflexivity]|].
    split; (split; [discriminate|lia]).
  - apply H70 in Hq1. apply L90 in Hq2.
    split; [split; [discriminate|lia]|].
    split; [split; [intros _; split; assumption|reflexivity]|].
    split; [discriminate|lia].
  - apply L70 in Hq.
    split; [split; [discriminate|lia]|].
    split; [split; [discriminate|lia]|].
    split; [intros _; exact Hq|reflexivity].
Qed.

(** *** Calls that overlap *)

(** X28. Nothing guards a refresh in flight: while a call that missed the
    cache waits for its loader the service is as it was, so a call that
    starts meanwhile, at the same or a later instant, misses the cache as
    well and invokes the loader again. *)
Theorem overlapping_calls_both_load t1 t2 s :
  startUsageStats t1 s = Awaiting t1 ->
  t1 <= t2 ->
  startUsageStats t2 s = Awaiting t2.
Proof.
  unfold startUsageStats, CACHE_DURATION. intros Hmiss Hle.
  destruct (cachedStats s) as [cached|]; [|reflexivity].
  destruct (Z.ltb_spec (t1 - lastUpdate s) 3000); [discriminate Hmiss|].
  destruct (Z.ltb_spec (t2 - lastUpdate s) 3000); [lia|reflexivity].
Qed.

End ServiceProperties.

(** ** The engine on concrete inputs *)

#[local] Existing Instance Demo.runtime.
#[local] Existing Instance Demo.resetService.
#[local] Existing Instance Demo.tracker.

(** A block of 1,200 tokens that ran for two hours, 30 minutes of them in
    the trailing hour: 300 tokens in the hour, 5 per minute. *)
Example twoHourBlock_rate :
  Binary64.calculateHourlyBurnRate 10000000 [twoHourBlock] = Double.ofZ 5.
Proof. vm_compute. reflexivity. Qed.

Lemma calculateHourlyBurnRate_spec_witness :
  gap twoHourBlock = false
  /\ Binary64.effectiveEnd 10000000 twoHourBlock - startTime twoHourBlock
     = 2 * 60 * 60000
  /\ Binary64.overlap 10000000 twoHourBlock = 30 * 60000
  /\ Binary64.totalTokens twoHourBlock = 1200
  /\ Binary64.counted 10000000 twoHourBlock = true
  /\ Binary64.share 10000000 twoHourBlock = Double.ofZ 300
  /\ Binary64.burnStep 10000000 Double.zero twoHourBlock
     = (Double.zero + Double.ofZ 300)%D.
Proof.
  do 4 (split; [reflexivity|]).
  apply (proj2 (calculateHourlyBurnRate_spec 10000000 [twoHourBlock])
               twoHourBlock Double.zero); reflexivity.
Defined.

(** The numbers are doubles: a tenth and two tenths add up to more than
    three tenths. *)
Example tenths :
  (Double.ofZ 3 / Double.ofZ 10
   <? Double.ofZ 1 / Double.ofZ 10 + Double.ofZ 2 / Double.ofZ 10)%D = true.
Proof. vm_compute. reflexivity. Qed.

(** [Math.round] takes a half upwards, and keeps the sign of a zero. *)
Example math_round :
  Double.round (Double.ofZ 5 / Double.ofZ 2)%D = Double.ofZ 3
  /\ Double.round (Double.ofZ (-5) / Double.ofZ 2)%D = Double.ofZ (-2)
  /\ Double.round (Double.ofZ 7 / Double.ofZ 5)%D = Double.ofZ 1
  /\ Double.round (Double.ofZ (-1) / Double.ofZ 4)%D = S754_zero true
  /\ Double.round (Double.ofZ 12) = Double.ofZ 12.
Proof. repeat split; vm_compute; reflexivity. Qed.

(** Two blocks of one day that cost a tenth and two tenths of a dollar:
    the cost of the day is above three tenths. *)
Example daily_cost_rounds :
  map (fun d => (Double.ofZ 3 / Double.ofZ 10 <? du_totalCost d)%D)
      (convertBlocksToDailyUsage
         [withCost (Double.ofZ 1 / Double.ofZ 10)%D (closedBlock 1000000 19000000 100);
          withCost (Double.ofZ 2 / Double.ofZ 10)%D (closedBlock 40000000 58000000 20)])
  = [true].
Proof. vm_compute. reflexivity. Qed.

(** One active block of 483 tokens that started 30 minutes ago: the rate
    is the double 8.05, and 60 times it is above 483. *)
Example one_active_block_rate :
  Binary64.calculateHourlyBurnRate 100000000 [activeBlock 98200000 116200000 483]
  = (Double.ofZ 805 / Double.ofZ 100)%D
  /\ (Double.ofZ 483
      <? Binary64.calculateHourlyBurnRate 100000000
           [activeBlock 98200000 116200000 483] * Double.ofZ 60)%D = true.
Proof. split; vm_compute; reflexivity. Qed.

(** The sum is taken in the order of the blocks, and the order shows: the
    three blocks that overlap the trailing hour by 6, 12 and 18 minutes
    give 0.010000000000000002 tokens per minute in this order and 0.01 in
    the reverse order. *)
Example burn_rate_depends_on_order :
  Binary64.calculateHourlyBurnRate 100000000
    [eighteenMinutes; twelveMinutes; sixMinutes]
  = (Double.ofZ 1 / Double.ofZ 100)%D
  /\ (Double.ofZ 1 / Double.ofZ 100
      <? Binary64.calculateHourlyBurnRate 100000000
           [sixMinutes; twelveMinutes; eighteenMinutes])%D = true.
Proof. split; vm_compute; reflexivity. Qed.

(** 483 tokens in the trailing hour against 420 per hour over the day: the
    current rate comes out above 483, the trend percent above 15 and the
    trend is increasing, while the report reads 15. *)
Example edge_of_the_trend :
  Binary64.trend
    (Binary64.calculateVelocityFromBlocks 100000000 edgeSession
       (Binary64.calculateHourlyBurnRate 100000000 edgeSession)) = increasing
  /\ Binary64.trendPercent
       (Binary64.calculateVelocityFromBlocks 100000000 edgeSession
          (Binary64.calculateHourlyBurnRate 100000000 edgeSession))
     = Double.ofZ 15.
Proof. split; vm_compute; reflexivity. Qed.


(** For every 24-hour total from 1 to 400 tokens, a current rate 20% above
    the 24-hour average is increasing and one 10% above it is stable. *)
Example rise_of_a_fifth_and_of_a_tenth :
  forallb
    (fun t =>
       let average := (Double.ofZ t / Double.ofZ 24)%D in
       let above (percent : Z) :=
         (average * (Double.ofZ (100 + percent) / Double.ofZ 100) / Double.ofZ 60)%D in
       bool_decide
         (Binary64.trend
            (Binary64.calculateVelocityFromBlocks 86400000
               [closedBlock 10000000 28000000 t] (above 20)) = increasing)
       && bool_decide
            (Binary64.trend
               (Binary64.calculateVelocityFromBlocks 86400000
                  [closedBlock 10000000 28000000 t] (above 10)) = stable))
    (map Z.of_nat (seq 1 400))
  = true.
Proof. vm_compute. reflexivity. Qed.

(** Counterexample to C2 as stated: under the Custom plan, with a non-gap,
    non-active block on record whose total is 0, the limit is 7,000 and not
    the maximum total over these blocks, which is 0. *)
Lemma limit_of_empty_history :
  findActiveBlock emptyHistory = Some (activeBlock 0 18000000 100)
  /\ currentPlan customService = Custom
  /\ historicalTotals emptyHistory = [0]
  /\ historicalLimit_spec emptyHistory = 0
  /\ detectedTokenLimit (snd (parseBlocksData 1000 emptyHistory None customService))
     = 7000
  /\ detectedTokenLimit (snd (parseBlocksData 1000 emptyHistory None customService))
     <> historicalLimit_spec emptyHistory.
Proof. repeat split; try reflexivity. vm_compute. discriminate. Qed.

Lemma parseBlocksData_limit_resolution_witness :
  findActiveBlock busyHistory = Some (activeBlock 0 18000000 7500)
  /\ autoDetects (currentPlan service0)
                 (getTotalTokensFromBlock (activeBlock 0 18000000 7500))
  /\ (exists t, In t (historicalTotals busyHistory) /\ 0 < t)
  /\ In (detectedTokenLimit (snd (parseBlocksData 1000 busyHistory None service0)))
        (historicalTotals busyHistory)
  /\ currentPlan (snd (parseBlocksData 1000 busyHistory None service0)) = Custom.
Proof.
  assert (Hab : findActiveBlock busyHistory = Some (activeBlock 0 18000000 7500))
    by reflexivity.
  assert (Hauto : autoDetects (currentPlan service0)
                    (getTotalTokensFromBlock (activeBlock 0 18000000 7500))).
  { right. split; [reflexivity|]. vm_compute. reflexivity. }
  assert (Hpos : exists t, In t (historicalTotals busyHistory) /\ 0 < t).
  { exists 9000. split; [left; reflexivity|reflexivity]. }
  split; [exact Hab|]. split; [exact Hauto|]. split; [exact Hpos|].
  destruct (parseBlocksData_limit_resolution 1000 busyHistory None service0 _ Hab)
    as (Hyes & _ & _).
  destruct (Hyes Hauto) as (Hmax & _ & Hplan).
  split; [exact (proj1 (Hmax Hpos))|exact Hplan].
Defined.

(** Counterexample to C3 as stated: the limit falls back to 7,000, not to
    500,000. *)
Lemma promoted_limit_is_pro_threshold :
  findActiveBlock noHistory = Some (activeBlock 0 18000000 7500)
  /\ getTotalTokensFromBlock (activeBlock 0 18000000 7500) = 7500
  /\ currentPlan service0 = Pro
  /\ historicalTotals noHistory = []
  /\ currentPlan (snd (parseBlocksData 1000 noHistory None service0)) = Custom
  /\ detectedTokenLimit (snd (parseBlocksData 1000 noHistory None service0)) = 7000
  /\ (exists stats, fst (parseBlocksData 1000 noHistory None service0) = Normal stats
                    /\ tokenLimit stats = 7000)
  /\ detectedTokenLimit (snd (parseBlocksData 1000 noHistory None service0))
     <> 500000.
Proof.
  repeat split; try reflexivity.
  - eexists. split; [vm_compute; reflexivity|reflexivity].
  - vm_compute. discriminate.
Qed.

Lemma parseBlocksData_promotes_without_history_witness :
  findActiveBlock noHistory = Some (activeBlock 0 18000000 7500)
  /\ getTotalTokensFromBlock (activeBlock 0 18000000 7500) = 7500
  /\ currentPlan service0 = Pro
  /\ historicalTotals noHistory = []
  /\ currentPlan (snd (parseBlocksData 1000 noHistory None service0)) = Custom
  /\ detectedTokenLimit (snd (parseBlocksData 1000 noHistory None service0)) = 7000.
Proof.
  do 4 (split; [reflexivity|]).
  destruct (parseBlocksData_promotes_without_history 1000 noHistory None service0
              (activeBlock 0 18000000 7500)
              eq_refl eq_refl eq_refl eq_refl) as (Hp & Hl & _).
  split; [exact Hp|exact Hl].
Defined.

Lemma getUsageStats_loader_rejects_witness :
  loaderInvoked (getUsageStats 1000 Rejected service0) = true
  /\ tokensUsed (snapshot (getUsageStats 1000 Rejected service0)) = 0
  /\ percentageUsed (snapshot (getUsageStats 1000 Rejected service0)) = 0%Q
  /\ thisWeek (snapshot (getUsageStats 1000 Rejected service0)) = []
  /\ thisMonth (snapshot (getUsageStats 1000 Rejected service0)) = []
  /\ onTrackForReset (prediction (snapshot (getUsageStats 1000 Rejected service0)))
     = true.
Proof.
  split; [reflexivity|].
  exact (proj2 (getUsageStats_loader_rejects 1000 service0 eq_refl)).
Defined.

(** Counterexample to C6 as stated: with a current rate of 0 and a trend
    percent of -100 the confidence is 50, where starting at 50 and
    subtracting 20 for the volatile trend gives 30. *)
Lemma confidence_of_idle_session :
  (current idleVelocity == 0)%Q
  /\ (0 < average24h idleVelocity)%Q
  /\ (trendPercent idleVelocity == -(100))%Q
  /\ (exists p,
        calculatePredictionInfo 86400000 100 7000 idleVelocity
          (calculateResetInfo 86400000 tt) service0 = Normal p
        /\ confidence p = 50
        /\ confidence p <> JS.round (confidence_spec idleVelocity))
  /\ JS.round (confidence_spec idleVelocity) = 30.
Proof.
  split; [reflexivity|]. split; [reflexivity|]. split; [reflexivity|].
  split; [|reflexivity].
  eexists. split; [vm_compute; reflexivity|].
  split; [reflexivity|]. vm_compute. discriminate.
Qed.

Lemma calculatePredictionInfo_confidence_witness :
  exists p,
    calculatePredictionInfo 86400000 100 7000 risingVelocity
      (calculateResetInfo 86400000 tt) service0 = Normal p
    /\ confidence p = JS.round (confidence_nested risingVelocity)
    /\ confidence p = 80.
Proof.
  eexists. split; [vm_compute; reflexivity|].
  split.
  - refine (proj1 (calculatePredictionInfo_confidence 86400000 100 7000
                     risingVelocity (calculateResetInfo 86400000 tt) service0 _ _)).
    vm_compute. reflexivity.
  - reflexivity.
Defined.

(** Counterexample to C7 as stated. A first call whose loader rejects
    stores nothing, so a second call one second later invokes the loader
    again and returns another snapshot. And a second call that starts one
    second after the first, while the first still waits for its loader,
    misses the cache as the first did and invokes the loader as well. *)
Lemma second_call_invokes_loader :
  2000 - 1000 < 3000
  /\ loaderInvoked
       (getUsageStats 2000 (Loaded (Some oneSession) None)
          (after (getUsageStats 1000 Rejected service0))) = true
  /\ tokensUsed (snapshot (getUsageStats 1000 Rejected service0)) = 0
  /\ tokensUsed
       (snapshot (getUsageStats 2000 (Loaded (Some oneSession) None)
                    (after (getUsageStats 1000 Rejected service0)))) = 100
  /\ snapshot (getUsageStats 2000 (Loaded (Some oneSession) None)
                 (after (getUsageStats 1000 Rejected service0)))
     <> snapshot (getUsageStats 1000 Rejected service0)
  /\ startUsageStats 1000 service0 = Awaiting 1000
  /\ startUsageStats 2000 service0 = Awaiting 2000.
Proof.
  split; [reflexivity|]. split; [reflexivity|]. split; [reflexivity|].
  split; [reflexivity|]. split; [|split; reflexivity].
  intros E. apply (f_equal tokensUsed) in E. vm_compute in E. discriminate E.
Qed.

Lemma getUsageStats_second_call_cached_witness :
  oneSession <> []
  /\ 2500 - 1000 < 3000
  /\ startUsageStats 2500
       (snd (resumeUsageStats 1000 1400 (Loaded (Some oneSession) None) service0))
     = Served (fst (resumeUsageStats 1000 1400 (Loaded (Some oneSession) None)
                      service0))
  /\ loaderInvoked
       (getUsageStats 2500 Rejected
          (snd (resumeUsageStats 1000 1400 (Loaded (Some oneSession) None)
                  service0))) = false.
Proof.
  split; [discriminate|]. split; [reflexivity|].
  assert (Hparse : parseBlocksData 1400 oneSession None service0
                   = (Normal (fst (resumeUsageStats 1000 1400
                                     (Loaded (Some oneSession) None) service0)),
                      snd (parseBlocksData 1400 oneSession None service0)))
    by (vm_compute; reflexivity).
  destruct (getUsageStats_second_call_cached 1000 1400 oneSession None service0
              _ _ 2500 Rejected ltac:(discriminate) Hparse eq_refl)
    as (_ & Hserved & Hcall).
  split; [exact Hserved|]. rewrite Hcall. reflexivity.
Defined.

Example refreshedService_serves_cache :
  loaderInvoked (getUsageStats 1 Rejected refreshedService) = false.
Proof. reflexivity. Qed.


(** C9. After a refresh that saw an active block, a call at least 3
    seconds later in which the loader returns zero blocks yields a snapshot
    with no tokens used and 0 percent used whose reset view still counts
    down to the end of that block instead of reading "No active session". *)
Theorem zero_blocks_after_active_session :
  loaderInvoked (getUsageStats 10000 (Loaded (Some []) None) refreshedService) = true
  /\ tokensUsed
       (snapshot (getUsageStats 10000 (Loaded (Some []) None) refreshedService)) = 0
  /\ percentageUsed
       (snapshot (getUsageStats 10000 (Loaded (Some []) None) refreshedService)) = 0%Q
  /\ formattedTimeRemaining
       (actualResetInfo
          (snapshot (getUsageStats 10000 (Loaded (Some []) None) refreshedService)))
     = "4 hours 59 minutes left"
  /\ formattedTimeRemaining
       (actualResetInfo
          (snapshot (getUsageStats 10000 (Loaded (Some []) None) refreshedService)))
     <> "No active session".
Proof.
  split; [reflexivity|]. split; [reflexivity|]. split; [reflexivity|].
  split; [vm_compute; reflexivity|].
  vm_compute. discriminate.
Qed.

(** ** The scenarios of the specification, evaluated *)

(** An active block of 5,000 tokens under the Pro plan: 5000/7000 of the
    limit, that is 71.4 percent, and the status [warning]. *)
Example pro_plan_five_thousand :
  (menu_percentageUsed
     (fst (getMenuBarData 1000
             (Loaded (Some [activeBlock 0 18000000 5000]) None) service0))
   == 500 # 7)%Q
  /\ menu_status
       (fst (getMenuBarData 1000
               (Loaded (Some [activeBlock 0 18000000 5000]) None) service0))
     = warning.
Proof. split; vm_compute; reflexivity. Qed.

(** Two blocks of one day and one of the next, with a gap in between, fold
    into two days in date order. *)
Example daily_fold :
  map (fun d => (du_date d, du_totalTokens d))
      (convertBlocksToDailyUsage
         [closedBlock 90000000 108000000 30;
          closedBlock 1000000 19000000 100;
          {| id := "gap"; startTime := 19000000; endTime := 40000000;
             actualEndTime := None; isActive := false; isGap := Some true;
             entries := []; tokenCounts := mkTokens 0; costUSD := 0;
             models := [] |};
          closedBlock 40000000 58000000 20])
  = [("1970-01-01", 120); ("1970-01-02", 30)].
Proof. vm_compute. reflexivity. Qed.

(** With no active block on record, zero blocks read "No active session". *)
Example zero_blocks_on_a_fresh_service :
  formattedTimeRemaining
    (actualResetInfo
       (snapshot (getUsageStats 10000 (Loaded (Some []) None) service0)))
  = "No active session".
Proof. reflexivity. Qed.

(** ** Further properties on concrete inputs *)

Lemma getPlanByTokenLimit_round_trip_witness :
  PLAN_DEFINITIONS !! "Max5" = Some max5Plan
  /\ pd_name max5Plan = "Max5"
  /\ getPlanByTokenLimit (pd_tokenLimit max5Plan) = max5Plan.
Proof.
  split; [reflexivity|].
  exact (getPlanByTokenLimit_round_trip "Max5" max5Plan eq_refl).
Defined.

Lemma getPlanByTokenLimit_smallest_witness :
  20000 <= 140000
  /\ PLAN_DEFINITIONS !! "Max20" = Some max20Plan
  /\ 20000 <= pd_tokenLimit max20Plan
  /\ pd_tokenLimit (getPlanByTokenLimit 20000) <= pd_tokenLimit max20Plan.
Proof.
  split; [lia|]. split; [reflexivity|]. split; [simpl; lia|].
  refine (proj2 (proj1 (proj2 (getPlanByTokenLimit_smallest 20000)) _)
                "Max20" max20Plan eq_refl _); simpl; lia.
Defined.

Lemma aggregates_ignore_block_order_witness :
  Permutation busyHistory shuffledHistory
  /\ getMaxTokensFromBlocks busyHistory = getMaxTokensFromBlocks shuffledHistory
  /\ tokens24h 1000 busyHistory = tokens24h 1000 shuffledHistory.
Proof.
  assert (Hp : Permutation busyHistory shuffledHistory) by apply perm_swap.
  split; [exact Hp|].
  destruct (aggregates_ignore_block_order 1000 busyHistory shuffledHistory 0%Q
              Double.zero Hp)
    as (Hm & H24 & _).
  split; [exact Hm|exact H24].
Defined.

Lemma busyHistory_counts b : In b busyHistory -> 0 <= getTotalTokensFromBlock b.
Proof. intros [<-|[<-|[]]]; vm_compute; discriminate. Qed.

Lemma velocity_windows_nested_witness :
  (forall b, In b busyHistory -> 0 <= getTotalTokensFromBlock b)
  /\ 0 <= tokens24h 1000 busyHistory <= tokens7d 1000 busyHistory.
Proof.
  split; [exact busyHistory_counts|].
  exact (velocity_windows_nested 1000 busyHistory busyHistory_counts).
Defined.

Lemma idle_hour_is_decreasing_witness :
  (calculateHourlyBurnRate 86400000 idleBlocks == 0)%Q
  /\ 0 < tokens24h 86400000 idleBlocks
  /\ trend idleVelocity = decreasing.
Proof.
  split; [reflexivity|]. split; [reflexivity|].
  refine (proj1 (proj2 (idle_hour_is_decreasing 86400000 idleBlocks
                          (calculateHourlyBurnRate 86400000 idleBlocks) _ _)));
    reflexivity.
Defined.

Lemma empty_day_is_stable_witness :
  tokens24h 86400000 [] <= 0
  /\ trend (calculateVelocityFromBlocks 86400000 [] (5 # 1)) = stable.
Proof.
  split; [reflexivity|].
  refine (proj1 (proj2 (empty_day_is_stable 86400000 [] (5 # 1) _))).
  vm_compute. discriminate.
Defined.

Lemma convertBlocksToDailyUsage_models_bounded_witness :
  (forall b, In b busyHistory -> 0 <= getTotalTokensFromBlock b)
  /\ Forall (fun d => modelTokens (du_models d) <= du_totalTokens d)
            (convertBlocksToDailyUsage busyHistory).
Proof.
  split; [exact busyHistory_counts|].
  exact (convertBlocksToDailyUsage_models_bounded busyHistory busyHistory_counts).
Defined.

Lemma processDay_models_witness :
  "opus" <> "<synthetic>"
  /\ du_models (processDay repeatedDay) !! "opus"
     = Some {| mu_tokens := 30; mu_cost := 0 |}
  /\ du_models (processDay repeatedDay) !! "<synthetic>" = None.
Proof.
  split; [discriminate|].
  destruct (processDay_models repeatedDay "opus") as [Hs Hn].
  split; [|exact Hs].
  rewrite Hn by discriminate. reflexivity.
Defined.

Lemma getTimeUntilActualReset_countdown_witness :
  currentActiveBlock refreshedService = Some (activeBlock 0 18000000 100)
  /\ 10000 + 3600000 <= endTime (activeBlock 0 18000000 100)
  /\ timeUntilReset (getTimeUntilActualReset 10000 refreshedService) = 17990000
  /\ formattedTimeRemaining (getTimeUntilActualReset 10000 refreshedService)
     = "4 hours 59 minutes left".
Proof.
  split; [reflexivity|]. split; [simpl; lia|].
  destruct (getTimeUntilActualReset_countdown 10000 refreshedService
              (activeBlock 0 18000000 100) eq_refl)
    as (_ & Ht & _ & _ & _ & Hh).
  split; [rewrite Ht; reflexivity|].
  rewrite (proj1 (Hh ltac:(simpl; lia))). vm_compute. reflexivity.
Defined.

Lemma calculatePredictionInfo_depletion_witness :
  exists p,
    calculatePredictionInfo 86400000 100 7000 risingVelocity
      (calculateResetInfo 86400000 tt) service0 = Normal p
    /\ (forall t, depletionTime p = Some t -> 86400000 <= t)
    /\ (0 <= daysRemaining p)%Q.
Proof.
  eexists. split; [vm_compute; reflexivity|].
  refine (proj2 (calculatePredictionInfo_depletion 86400000 100 7000
                   risingVelocity (calculateResetInfo 86400000 tt) service0 _ _)).
  vm_compute. reflexivity.
Defined.

Lemma failed_refresh_keeps_state_witness :
  loadedNothing Rejected
  /\ cachedStats (after (getUsageStats 10000 Rejected refreshedService))
     = cachedStats refreshedService
  /\ lastUpdate (after (getUsageStats 10000 Rejected refreshedService))
     = lastUpdate refreshedService.
Proof.
  split; [exact I|].
  destruct (failed_refresh_keeps_state 10000 Rejected refreshedService I)
    as (Hc & Hu & _).
  split; [exact Hc|exact Hu].
Defined.

Lemma getUsageStats_prediction_raises_witness :
  loaderInvoked (getUsageStats 86400000 (Loaded (Some crawlingBlocks) None) service0)
  = true
  /\ findActiveBlock crawlingBlocks = Some (activeBlock 86400000 104400000 0)
  /\ fst (parseBlocksData 86400000 crawlingBlocks None service0) = Throw
  /\ tokensUsed
       (snapshot (getUsageStats 86400000 (Loaded (Some crawlingBlocks) None) service0))
     = 0
  /\ cachedStats
       (after (getUsageStats 86400000 (Loaded (Some crawlingBlocks) None) service0))
     = None
  /\ currentActiveBlock
       (after (getUsageStats 86400000 (Loaded (Some crawlingBlocks) None) service0))
     = Some (activeBlock 86400000 104400000 0).
Proof.
  split; [reflexivity|]. split; [reflexivity|]. split; [vm_compute; reflexivity|].
  assert (Hparse : parseBlocksData 86400000 crawlingBlocks None service0
                   = (Throw, snd (parseBlocksData 86400000 crawlingBlocks None service0))).
  { rewrite (surjective_pairing (parseBlocksData 86400000 crawlingBlocks None service0))
      at 1.
    f_equal; vm_compute; reflexivity. }
  destruct (getUsageStats_prediction_raises 86400000 crawlingBlocks None service0 _
              (activeBlock 86400000 104400000 0) eq_refl eq_refl Hparse)
    as (Hu & _ & _ & Hc & _ & Ha).
  split; [exact Hu|]. split; [exact Hc|exact Ha].
Defined.

Lemma getUsageStats_no_active_block_witness :
  loaderInvoked (getUsageStats 10000000 (Loaded (Some [twoHourBlock]) None) service0)
  = true
  /\ [twoHourBlock] <> []
  /\ findActiveBlock [twoHourBlock] = None
  /\ formattedTimeRemaining
       (actualResetInfo
          (snapshot (getUsageStats 10000000 (Loaded (Some [twoHourBlock]) None)
                       service0)))
     = "No active session"
  /\ sessionTracking
       (snapshot (getUsageStats 10000000 (Loaded (Some [twoHourBlock]) None) service0))
     = 0%nat.
Proof.
  split; [reflexivity|]. split; [discriminate|]. split; [reflexivity|].
  destruct (getUsageStats_no_active_block 10000000 [twoHourBlock] None service0
              eq_refl ltac:(discriminate) eq_refl)
    as (_ & Hm & _ & _ & _ & _ & Ht).
  split; [exact Hm|exact Ht].
Defined.

Lemma fixed_plan_pins_limit_witness :
  cfg_plan max5Configuration = Some (Fixed Max5)
  /\ findActiveBlock busyHistory = Some (activeBlock 0 18000000 7500)
  /\ tokenLimit
       (snapshot (getUsageStats 1000 (Loaded (Some busyHistory) None)
                    (updateConfiguration max5Configuration service0))) = 35000
  /\ currentPlan
       (after (getUsageStats 1000 (Loaded (Some busyHistory) None)
                 (updateConfiguration max5Configuration service0))) = Max5.
Proof.
  split; [reflexivity|]. split; [reflexivity|].
  destruct (fixed_plan_pins_limit max5Configuration Max5 1000 busyHistory None
              service0 (activeBlock 0 18000000 7500) eq_refl (or_introl eq_refl)
              eq_refl)
    as (_ & Hp & _ & Hl & _).
  split; [exact Hl|exact Hp].
Defined.

Lemma overlapping_calls_both_load_witness :
  startUsageStats 1000 service0 = Awaiting 1000
  /\ 1000 <= 2000
  /\ startUsageStats 2000 service0 = Awaiting 2000.
Proof.
  split; [reflexivity|]. split; [lia|].
  exact (overlapping_calls_both_load 1000 2000 service0 eq_refl ltac:(lia)).
Defined.
